(** * BioCypher get module: download and cache of remote resources

    A shallow embedding of [biocypher/_get.py] ([Resource], [Downloader],
    [is_nested]) and the properties of its caching, dispatch and directory
    expansion logic.

    Python values are embedded as an inductive type, the methods of
    [Downloader] as functions in a state-and-exception monad over the
    interpreter state (the [Resource] objects by identity, the attributes of
    the [Downloader], the file system, a trace of the calls to the outside
    world).  The outside world (the clock, pooch, the FTP server, the json
    and datetime codecs) is a record of oracles. *)

From Stdlib Require Import ZArith Ascii String List Lia Bool.
From stdpp Require Import base option gmap strings list.

Local Open Scope Z_scope.
Set Warnings "-register-all".

(** ** Python [str] operations used by the module *)

Module PyStr.

Fixpoint drop (n : nat) (s : string) : string :=
  match n, s with
  | O, _ => s
  | S _, EmptyString => EmptyString
  | S n', String _ s' => drop n' s'
  end.

Fixpoint take (n : nat) (s : string) : string :=
  match n, s with
  | O, _ => EmptyString
  | S _, EmptyString => EmptyString
  | S n', String c s' => String c (take n' s')
  end.

(** A slice bound: a negative bound counts from the end, and every bound
    is clamped to [0, len]. *)
Definition bound (len : nat) (i : Z) : nat :=
  if i <? 0 then Z.to_nat (Z.max 0 (Z.of_nat len + i))
  else Nat.min (Z.to_nat i) len.

(** [s[i:]] *)
Definition slice_from (s : string) (i : Z) : string :=
  drop (bound (String.length s) i) s.

(** [s[:j]] *)
Definition slice_to (s : string) (j : Z) : string :=
  take (bound (String.length s) j) s.

(** [s.startswith(p)] *)
Definition startswith (s p : string) : bool := String.prefix p s.

(** [s.endswith(suf)] *)
Definition endswith (s suf : string) : bool :=
  let n := String.length s in
  let m := String.length suf in
  if (m <=? n)%nat then String.eqb (drop (n - m) s) suf else false.

(** [s.find(sub)]: the lowest index of an occurrence, or -1. *)
Fixpoint find_from (i : nat) (s sub : string) : Z :=
  if String.prefix sub s then Z.of_nat i
  else match s with
       | EmptyString => -1
       | String _ s' => find_from (S i) s' sub
       end.

Definition find (s sub : string) : Z := find_from 0 s sub.

(** [s.rfind(sub)]: the highest index of an occurrence, or -1. *)
Fixpoint rfind_from (i : nat) (s sub : string) : Z :=
  match s with
  | EmptyString => if String.prefix sub s then Z.of_nat i else -1
  | String _ s' =>
      let r := rfind_from (S i) s' sub in
      if 0 <=? r then r
      else if String.prefix sub s then Z.of_nat i else -1
  end.

Definition rfind (s sub : string) : Z := rfind_from 0 s sub.

(** [list(s)]: iterating over a [str] yields its one-character strings. *)
Fixpoint chars (s : string) : list string :=
  match s with
  | EmptyString => []
  | String c s' => String c EmptyString :: chars s'
  end.

End PyStr.

(** ** [os.path.join] (posixpath), for two components *)

Definition os_path_join (a b : string) : string :=
  if PyStr.startswith b "/" then b
  else if String.eqb a "" || PyStr.endswith a "/" then a +:+ b
  else a +:+ "/" +:+ b.

(** ** Python values *)

(** The values that flow through the module: what [json.load] can return
    (floats apart), the [datetime] objects that [_update_cache_record]
    stores, and the paths that pooch returns.  A [datetime] is naive and is
    held as its number of microseconds since 0001-01-01T00:00:00; a [dict]
    has [str] keys and keeps its insertion order. *)
Inductive pyval : Type :=
| PNone
| PBool (b : bool)
| PInt (z : Z)
| PStr (s : string)
| PDatetime (us : Z)
| PList (l : list pyval)
| PDict (d : list (string * pyval)).

(** Exceptions *)
Inductive exn : Type :=
| TypeError
| ValueError
| AttributeError
| UnboundLocalError
| OverflowError
| RecursionError
| JSONDecodeError
| ExternalError (msg : string).   (* raised inside a collaborator *)

Inductive result (A : Type) : Type :=
| Ok (a : A)
| Raise (e : exn).
Arguments Ok {A} a.
Arguments Raise {A} e.

(** [bool(v)] *)
Definition truthy (v : pyval) : bool :=
  match v with
  | PNone => false
  | PBool b => b
  | PInt z => negb (z =? 0)
  | PStr s => negb (String.eqb s "")
  | PDatetime _ => true
  | PList l => match l with [] => false | _ => true end
  | PDict d => match d with [] => false | _ => true end
  end.

(** [isinstance(v, list)] *)
Definition is_list (v : pyval) : bool :=
  match v with PList _ => true | _ => false end.

(** *** [dict] with [str] keys *)

Fixpoint dict_get {A} (d : list (string * A)) (k : string) : option A :=
  match d with
  | [] => None
  | (k', v) :: d' => if String.eqb k' k then Some v else dict_get d' k
  end.

(** [d[k] = v]: an existing key keeps its position, a new one goes last. *)
Fixpoint dict_set {A} (d : list (string * A)) (k : string) (v : A)
  : list (string * A) :=
  match d with
  | [] => [(k, v)]
  | (k', v') :: d' =>
      if String.eqb k' k then (k', v) :: d' else (k', v') :: dict_set d' k v
  end.

(** The number of items of [d] under the key [k]. *)
Definition dict_count {A} (d : list (string * A)) (k : string) : nat :=
  List.length (List.filter (fun kv => String.eqb (fst kv) k) d).

(** ** Resources *)

(** [url_s: str | list[str]] *)
Inductive urls : Type :=
| Url (u : string)
| Urls (us : list string).

Definition urls_val (u : urls) : pyval :=
  match u with
  | Url s => PStr s
  | Urls l => PList (List.map PStr l)
  end.

Record Resource : Type := mkResource {
  name : string;
  url_s : urls;
  lifetime : Z;
  is_dir : bool
}.

(** ** [datetime] arithmetic *)

Definition us_per_day : Z := 86400000000.

(** [datetime.max] is 9999-12-31T23:59:59.999999, the last microsecond of
    day 3652059 of the proleptic calendar. *)
Definition datetime_end : Z := 3652059 * us_per_day.

(** [timedelta(days=d)], in microseconds *)
Definition timedelta_days (d : Z) : result Z :=
  if Z.abs d <=? 999999999 then Ok (d * us_per_day) else Raise OverflowError.

(** [t + d] for a datetime [t] and a timedelta [d] *)
Definition datetime_add (t d : Z) : result Z :=
  if (0 <=? t + d) && (t + d <? datetime_end) then Ok (t + d)
  else Raise OverflowError.

(** ** The outside world *)

Inductive Processor : Type := Unzip | Untar | Decompress.

(** What the module calls and does not implement.  The answers of the clock,
    of pooch and of the FTP server depend on the moment of the call, which
    is the number of calls made to the outside world so far. *)
Record Env : Type := mkEnv {
  (** [datetime.now()] *)
  clock : nat -> Z;
  (** [datetime.fromisoformat] on a [str] that denotes a datetime without
      UTC offset, as [str] of [datetime.now()] writes it; [None] is
      [ValueError].  A timestamp with a UTC offset, which Python parses
      and then refuses to compare with [now()], is not in the model. *)
  fromisoformat : string -> option Z;
  (** [str] of a [datetime] *)
  datetime_str : Z -> string;
  (** [pooch.retrieve(url, known_hash, fname, path, processor)] *)
  pooch_retrieve :
    nat -> string -> option string -> string -> string ->
    option Processor -> result pyval;
  (** [FTP(host)], [login()], [cwd(dir)], [nlst()], [quit()] *)
  ftp_nlst : nat -> string -> string -> result (list string);
  (** [json.dumps] of a value without [datetime] objects *)
  json_dumps : pyval -> string;
  (** [json.loads]; [None] is [json.JSONDecodeError] *)
  json_loads : string -> option pyval;
  (** [TemporaryDirectory().name] *)
  tempdir : string
}.

(** The calls that leave the process, in the order they are made. *)
Inductive event : Type :=
| EvLog (msg : string)
| EvRetrieve (url fname path : string) (processor : option Processor)
| EvFtp (host dir : string)
| EvMakedirs (path : string)
| EvWrite (path content : string).

(** ** Interpreter state *)

Record state : Type := mkState {
  (** the [Resource] objects, by identity *)
  heap : gmap nat Resource;
  (** the attributes of the [Downloader] *)
  cache_dir : string;
  cache_file : string;
  cache_dict : pyval;
  (** the file system: the directories and the regular files *)
  dirs : gset string;
  files : gmap string string;
  (** the number of calls made to the clock, pooch and the FTP server *)
  ticks : nat;
  trace : list event
}.

Definition set_heap (h : gmap nat Resource) (st : state) : state :=
  mkState h (cache_dir st) (cache_file st) (cache_dict st)
          (dirs st) (files st) (ticks st) (trace st).

Definition set_cache_dir (d : string) (st : state) : state :=
  mkState (heap st) d (cache_file st) (cache_dict st)
          (dirs st) (files st) (ticks st) (trace st).

Definition set_cache_file (f : string) (st : state) : state :=
  mkState (heap st) (cache_dir st) f (cache_dict st)
          (dirs st) (files st) (ticks st) (trace st).

Definition set_cache_dict (d : pyval) (st : state) : state :=
  mkState (heap st) (cache_dir st) (cache_file st) d
          (dirs st) (files st) (ticks st) (trace st).

Definition set_dirs (d : gset string) (st : state) : state :=
  mkState (heap st) (cache_dir st) (cache_file st) (cache_dict st)
          d (files st) (ticks st) (trace st).

Definition set_files (f : gmap string string) (st : state) : state :=
  mkState (heap st) (cache_dir st) (cache_file st) (cache_dict st)
          (dirs st) f (ticks st) (trace st).

Definition tick (st : state) : state :=
  mkState (heap st) (cache_dir st) (cache_file st) (cache_dict st)
          (dirs st) (files st) (S (ticks st)) (trace st).

Definition emit (e : event) (st : state) : state :=
  mkState (heap st) (cache_dir st) (cache_file st) (cache_dict st)
          (dirs st) (files st) (ticks st) (trace st ++ [e]).

(** ** The monad: state, and exceptions that keep the state *)

Definition M (A : Type) : Type := state -> result A * state.

Definition ret {A} (a : A) : M A := fun st => (Ok a, st).

Definition raise {A} (e : exn) : M A := fun st => (Raise e, st).

Definition bind {A B} (m : M A) (k : A -> M B) : M B :=
  fun st : state =>
    match m st with
    | (Ok a, st') => k a st'
    | (Raise e, st') => (Raise e, st')
    end.

Notation "'let*' x ':=' c 'in' k" := (bind c (fun x => k))
  (at level 10, x name, c at level 100, k at level 200).
Notation "c ';;' k" := (bind c (fun _ => k))
  (at level 100, k at level 200, right associativity).

Definition get_state : M state := fun st => (Ok st, st).

Definition modify (f : state -> state) : M unit := fun st => (Ok tt, f st).

Definition lift {A} (r : result A) : M A := fun st => (r, st).

(** [for x in l: ys.append(f(x))] *)
Fixpoint for_each {A B} (f : A -> M B) (l : list A) : M (list B) :=
  match l with
  | [] => ret []
  | x :: l' =>
      let* y := f x in
      let* ys := for_each f l' in
      ret (y :: ys)
  end.

(** ** [is_nested] and the flattening of [download] *)

(** [for item in lst: if isinstance(item, list): return True] *)
Fixpoint is_nested (lst : list pyval) : bool :=
  match lst with
  | [] => false
  | item :: lst' => if is_list item then true else is_nested lst'
  end.

(** [iter(v)]: a list yields its items, a [str] its characters, a [dict]
    its keys; nothing else in [pyval] is iterable. *)
Definition py_iter (v : pyval) : result (list pyval) :=
  match v with
  | PList l => Ok l
  | PStr s => Ok (List.map PStr (PyStr.chars s))
  | PDict d => Ok (List.map (fun kv => PStr (fst kv)) d)
  | _ => Raise TypeError
  end.

(** [[path for sublist in paths for path in sublist]] *)
Fixpoint flatten (paths : list pyval) : result (list pyval) :=
  match paths with
  | [] => Ok []
  | sublist :: paths' =>
      match py_iter sublist with
      | Raise e => Raise e
      | Ok items =>
          match flatten paths' with
          | Raise e => Raise e
          | Ok rest => Ok (items ++ rest)
          end
      end
  end.

(** [json.dump(obj, f, default=str)] turns every object that json cannot
    encode into its [str]: here, the [datetime] objects. *)
Fixpoint default_str (str_dt : Z -> string) (v : pyval) : pyval :=
  match v with
  | PDatetime t => PStr (str_dt t)
  | PList l => PList (List.map (default_str str_dt) l)
  | PDict d =>
      PDict (List.map (fun kv : string * pyval =>
                         let (k, x) := kv in (k, default_str str_dt x)) d)
  | _ => v
  end.

(** ** The [Downloader] *)

Section Downloader.

Context (E : Env).

(** *** Primitive effects *)

(** An attribute read on the [Resource] object at address [a]. *)
Definition deref (a : nat) : M Resource :=
  fun st : state =>
    match heap st !! a with
    | Some r => (Ok r, st)
    | None => (Raise (ExternalError "no object at this address"), st)
    end.

(** An attribute write on the object at address [a]. *)
Definition assign (a : nat) (f : Resource -> Resource) : M unit :=
  let* r := deref a in
  modify (fun st : state => set_heap (<[a := f r]> (heap st)) st).

(** [logger.info(msg)] *)
Definition logger_info (msg : string) : M unit := modify (emit (EvLog msg)).

(** [datetime.now()] *)
Definition datetime_now : M Z :=
  fun st : state => (Ok (clock E (ticks st)), tick st).

(** [pooch.retrieve(url=, known_hash=, fname=, path=, processor=,
    progressbar=True)]; the files that pooch leaves under [path] are its
    own business and are not tracked in [files]. *)
Definition pooch_call (url : string) (known_hash : option string)
    (fname path : string) (processor : option Processor) : M pyval :=
  fun st : state =>
    (pooch_retrieve E (ticks st) url known_hash fname path processor,
     tick (emit (EvRetrieve url fname path processor) st)).

(** [ftp = ftplib.FTP(url); ftp.login(); ftp.cwd(dir);
    files = ftp.nlst(); ftp.quit()] *)
Definition ftp_session (host dir : string) : M (list string) :=
  fun st : state => (ftp_nlst E (ticks st) host dir, tick (emit (EvFtp host dir) st)).

(** [os.path.exists(p)] *)
Definition path_exists (p : string) : M bool :=
  fun st : state => (Ok (bool_decide (p ∈ dirs st) || bool_decide (is_Some (files st !! p))), st).

(** [os.makedirs(p)] as it succeeds: [p] becomes a directory.  The parents
    that the call makes on the way are not tracked, and its failures (a
    parent that is a regular file, a lack of permission) are not in the
    model. *)
Definition makedirs (p : string) : M unit :=
  modify (fun st : state => emit (EvMakedirs p) (set_dirs ({[p]} ∪ dirs st) st)).

(** [with open(p, "w") as f: f.write(content)] as it succeeds.  An
    [OSError] of [open] or of the write (no such directory, a lack of
    permission, a full disk), which can leave a truncated file, is not in
    the model. *)
Definition write_file (p content : string) : M unit :=
  modify (fun st : state => emit (EvWrite p content) (set_files (<[p := content]> (files st)) st)).

(** [with open(p, "r") as f: f.read()] *)
Definition read_file (p : string) : M string :=
  fun st : state =>
    match files st !! p with
    | Some c => (Ok c, st)
    | None => (Raise (ExternalError "OSError"), st)
    end.

(** *** [_retrieve] *)

Definition _retrieve (url fname path : string) (known_hash : option string)
  : M pyval :=
  if PyStr.endswith fname ".zip" then
    pooch_call url known_hash fname path (Some Unzip)
  else if PyStr.endswith fname ".tar.gz" then
    pooch_call url known_hash fname path (Some Untar)
  else if PyStr.endswith fname ".gz" then
    pooch_call url known_hash fname path (Some Decompress)
  else
    pooch_call url known_hash fname path None.

(** *** [_get_files] *)

Definition _get_files (a : nat) : M (list string) :=
  let* r := deref a in
  match url_s r with
  | Urls _ => raise AttributeError   (* a list has no [startswith] *)
  | Url u =>
      if PyStr.startswith u "ftp://" then
        (* remove protocol *)
        let url := PyStr.slice_from u 6 in
        (* get base url *)
        let url := PyStr.slice_to url (PyStr.find url "/") in
        (* get directory (remove initial slash as well) *)
        let dir := PyStr.slice_from u (7 + Z.of_nat (String.length url)) in
        ftp_session url dir
      else
        (* [files] was never assigned *)
        raise UnboundLocalError
  end.

(** *** [_get_cache_record] *)

(** [self.cache_dict.get(resource.name, {})] *)
Definition _get_cache_record (a : nat) : M pyval :=
  let* st := get_state in
  let* r := deref a in
  match cache_dict st with
  | PDict d => ret (default (PDict []) (dict_get d (name r)))
  | _ => raise AttributeError
  end.

(** *** [_update_cache_record] *)

Definition _update_cache_record (a : nat) : M unit :=
  let* r := deref a in
  let url := urls_val (url_s r) in
  let* t := datetime_now in
  let cache_record :=
    PDict [("url", url); ("date_downloaded", PDatetime t);
           ("lifetime", PInt (lifetime r))] in
  let* st := get_state in
  match cache_dict st with
  | PDict d =>
      modify (set_cache_dict (PDict (dict_set d (name r) cache_record))) ;;
      let* st := get_state in
      write_file (cache_file st)
        (json_dumps E (default_str (datetime_str E) (cache_dict st)))
  | _ => raise TypeError   (* no item assignment with a [str] key *)
  end.

(** *** [_download_or_cache] *)

(** [v.get(k)] on a value: only a [dict] has the method. *)
Definition py_get (v : pyval) (k : string) : result pyval :=
  match v with
  | PDict d => Ok (default PNone (dict_get d k))
  | _ => Raise AttributeError
  end.

(** [datetime.fromisoformat(v)]: the argument must be a [str]. *)
Definition datetime_fromisoformat (v : pyval) : result Z :=
  match v with
  | PStr s =>
      match fromisoformat E s with
      | Some t => Ok t
      | None => Raise ValueError
      end
  | _ => Raise TypeError
  end.

(** The freshness decision, lines 106 to 112: the value of [expired]. *)
Definition check_expired (cache_record : pyval) (a : nat) : M bool :=
  if truthy cache_record then
    (* check if resource is expired (formatted in days) *)
    let* d := lift (py_get cache_record "date_downloaded") in
    let* dl := lift (datetime_fromisoformat d) in
    let* r := deref a in
    let* lt := lift (timedelta_days (lifetime r)) in
    let* limit := lift (datetime_add dl lt) in
    let* now := datetime_now in
    ret (limit <? now)
  else
    ret true.

(** [fname] of a URL: [url[url.rfind("/") + 1 :]] *)
Definition basename (url : string) : string :=
  PyStr.slice_from url (PyStr.rfind url "/" + 1).

(** The recursion of the source is bounded by [depth] frames; the frame
    that is not there raises [RecursionError]. *)
Fixpoint _download_or_cache_rec (depth : nat) (a : nat) (cache : bool)
  : M pyval :=
  match depth with
  | O => raise RecursionError
  | S depth' =>
      (* check if resource is cached *)
      let* cache_record := _get_cache_record a in
      let* expired := check_expired cache_record a in
      (* download resource *)
      if expired || negb cache then
        let* r := deref a in
        logger_info ("Downloading resource " +:+ name r +:+ ".") ;;
        let* r := deref a in
        let* paths :=
          if is_dir r then
            let* files := _get_files a in
            let* r := deref a in
            let* new_urls :=
              match files, url_s r with
              | [], _ => ret []
              | _, Url u => ret (List.map (fun file => u +:+ "/" +:+ file) files)
              | _, Urls _ => raise TypeError   (* list + str *)
              end in
            assign a (fun r => mkResource (name r) (Urls new_urls)
                                 (lifetime r) (is_dir r)) ;;
            assign a (fun r => mkResource (name r) (url_s r)
                                 (lifetime r) false) ;;
            _download_or_cache_rec depth' a cache
          else
            let* st := get_state in
            match url_s r with
            | Urls l =>
                let* paths :=
                  for_each
                    (fun url =>
                       let fname := name r +:+ "_" +:+ basename url in
                       _retrieve url fname
                         (os_path_join (cache_dir st) (name r)) None)
                    l in
                ret (PList paths)
            | Url u =>
                let fname := basename u in
                _retrieve u fname (os_path_join (cache_dir st) (name r)) None
            end
        in
        (* update cache record *)
        _update_cache_record a ;;
        ret paths
      else
        ret PNone
  end.

(** A directory resource recurses once, as a list resource; two frames
    are all the method ever uses (see [_download_or_cache_depth]). *)
Definition _download_or_cache (a : nat) (cache : bool) : M pyval :=
  _download_or_cache_rec 2 a cache.

(** *** [download] *)

Definition download (resources : list nat) : M (list pyval) :=
  let* paths := for_each (fun resource => _download_or_cache resource true)
                  resources in
  (* flatten list if it is nested *)
  if is_nested paths then lift (flatten paths) else ret paths.

(** *** [_load_cache_dict] and [__init__] *)

Definition _load_cache_dict : M pyval :=
  let* st := get_state in
  let* e := path_exists (cache_dir st) in
  (if negb e then
     logger_info ("Creating cache directory " +:+ cache_dir st +:+ ".") ;;
     makedirs (cache_dir st)
   else ret tt) ;;
  let* e := path_exists (cache_file st) in
  (if negb e then
     logger_info ("Creating cache file " +:+ cache_file st +:+ ".") ;;
     write_file (cache_file st) (json_dumps E (PDict []))
   else ret tt) ;;
  let* content := read_file (cache_file st) in
  logger_info ("Loading cache file " +:+ cache_file st +:+ ".") ;;
  match json_loads E content with
  | Some v => ret v
  | None => raise JSONDecodeError
  end.

(** [Downloader.__init__(cache_dir)]; [None] and the empty string are the
    two falsy arguments. *)
Definition Downloader_init (dir : option string) : M unit :=
  modify (set_cache_dir
            (match dir with
             | Some d => if truthy (PStr d) then d else tempdir E
             | None => tempdir E
             end)) ;;
  let* st := get_state in
  modify (set_cache_file (os_path_join (cache_dir st) "cache.json")) ;;
  let* d := _load_cache_dict in
  modify (set_cache_dict d).

End Downloader.

(** ** Vocabulary of the properties *)

(** [k] more calls to the outside world, which leave the events [evs]. *)
Definition advance (k : nat) (evs : list event) (st : state) : state :=
  mkState (heap st) (cache_dir st) (cache_file st) (cache_dict st)
          (dirs st) (files st) (k + ticks st) (trace st ++ evs).

(** [s] ends in [suf]. *)
Definition ends_in (s suf : string) : Prop := exists p, s = p +:+ suf.

(** The processor that goes with a file name. *)
Definition processor_of (fname : string) : option Processor :=
  if PyStr.endswith fname ".zip" then Some Unzip
  else if PyStr.endswith fname ".tar.gz" then Some Untar
  else if PyStr.endswith fname ".gz" then Some Decompress
  else None.

(** The URLs of a resource that is not a directory, and the local file name
    of each. *)
Definition urls_list (u : urls) : list string :=
  match u with
  | Url s => [s]
  | Urls l => l
  end.

Definition local_name (r : Resource) (url : string) : string :=
  match url_s r with
  | Url _ => basename url
  | Urls _ => name r +:+ "_" +:+ basename url
  end.

(** The call to pooch that retrieves [url] for the resource [r]. *)
Definition retrieve_event (dir : string) (r : Resource) (url : string) : event :=
  EvRetrieve url (local_name r url) (os_path_join dir (name r))
             (processor_of (local_name r url)).

(** The cache record that [_update_cache_record] writes at time [t]. *)
Definition record_of (r : Resource) (t : Z) : pyval :=
  PDict [("url", urls_val (url_s r)); ("date_downloaded", PDatetime t);
         ("lifetime", PInt (lifetime r))].

(** The text that [json.dump(..., default=str)] writes for a store. *)
Definition dumped (E : Env) (store : pyval) : string :=
  json_dumps E (default_str (datetime_str E) store).

(** The log line that opens the download branch. *)
Definition downloading (nm : string) : event :=
  EvLog ("Downloading resource " +:+ nm +:+ ".").

(** The call from [st] to [st'] entered the download branch for [nm]: its
    first event is the log line. *)
Definition fetch_started (nm : string) (st st' : state) : Prop :=
  exists tr, trace st' = trace st ++ downloading nm :: tr.

(** The call from [st] to [st'] made no call to pooch or to the FTP server
    and wrote nothing. *)
Definition no_fetch (st st' : state) : Prop := trace st' = trace st.

(** The state after [_update_cache_record] for the resource [r]. *)
Definition recorded (E : Env) (r : Resource) (st : state) : state :=
  match cache_dict st with
  | PDict d =>
      let store := PDict (dict_set d (name r) (record_of r (clock E (ticks st)))) in
      emit (EvWrite (cache_file st) (dumped E store))
        (set_files (<[cache_file st := dumped E store]> (files st))
           (set_cache_dict store (tick st)))
  | _ => tick st
  end.

(** Lines 123 to 140: the retrieval of a resource that is not a directory. *)
Definition fetch_urls (E : Env) (r : Resource) : M pyval :=
  let* st := get_state in
  match url_s r with
  | Urls l =>
      let* paths :=
        for_each
          (fun url =>
             let fname := name r +:+ "_" +:+ basename url in
             _retrieve E url fname (os_path_join (cache_dir st) (name r)) None)
          l in
      ret (PList paths)
  | Url u =>
      let fname := basename u in
      _retrieve E u fname (os_path_join (cache_dir st) (name r)) None
  end.

(** Lines 120 and 121: the rewriting of a directory resource, given the
    listing. *)
Definition expanded (r : Resource) (files : list string) : Resource :=
  match url_s r with
  | Url u =>
      mkResource (name r) (Urls (List.map (fun file => u +:+ "/" +:+ file) files))
                 (lifetime r) false
  | Urls _ => mkResource (name r) (Urls []) (lifetime r) false
  end.

(** The host and the directory that [_get_files] reads in a URL. *)
Definition ftp_host (u : string) : string :=
  let url := PyStr.slice_from u 6 in
  PyStr.slice_to url (PyStr.find url "/").

Definition ftp_dir (u : string) : string :=
  PyStr.slice_from u (7 + Z.of_nat (String.length (ftp_host u))).

(** The instant after which a record is expired, for a lifetime of [days]:
    [None] when there is no record to read. *)
Definition deadline (E : Env) (cache_record : pyval) (days : Z)
  : result (option Z) :=
  if truthy cache_record then
    match py_get cache_record "date_downloaded" with
    | Raise e => Raise e
    | Ok d =>
        match datetime_fromisoformat E d with
        | Raise e => Raise e
        | Ok dl =>
            match timedelta_days days with
            | Raise e => Raise e
            | Ok lt =>
                match datetime_add dl lt with
                | Raise e => Raise e
                | Ok limit => Ok (Some limit)
                end
            end
        end
    end
  else Ok None.

(** The condition of line 115, as the call evaluates it. *)
Definition condition (E : Env) (a : nat) (cache : bool) : M bool :=
  let* cache_record := _get_cache_record a in
  let* expired := check_expired E cache_record a in
  ret (expired || negb cache).

(** The call [_download_or_cache(a, cache)] from [st] downloads. *)
Definition fetched (E : Env) (a : nat) (cache : bool) (st : state) : Prop :=
  (condition E a cache st).1 = Ok true.

(** Time does not go backwards. *)
Definition clock_monotone (E : Env) : Prop :=
  forall i j : nat, (i <= j)%nat -> clock E i <= clock E j.

(** The cache directory that [__init__] settles on. *)
Definition chosen_dir (E : Env) (dir : option string) : string :=
  match dir with
  | Some d => if truthy (PStr d) then d else tempdir E
  | None => tempdir E
  end.



(** A write to a file. *)
Definition is_write (ev : event) : Prop := exists p c, ev = EvWrite p c.

(** pooch answers every call. *)
Definition pooch_succeeds (E : Env) : Prop :=
  forall k url known_hash fname path processor,
    exists v, pooch_retrieve E k url known_hash fname path processor = Ok v.

(** ** Vocabulary of the invariants *)

(** The cache file holds the dump of the store. *)
Definition synced (E : Env) (st : state) : Prop :=
  files st !! cache_file st = Some (dumped E (cache_dict st)).

(** What a call may do to a [Resource] object: the name and the lifetime
    stay, and an object that is not a directory stays as it is. *)
Definition same_object (r r' : Resource) : Prop :=
  name r' = name r /\ lifetime r' = lifetime r /\ (is_dir r = false -> r' = r).

(** No object appears or disappears, and each one is the same object. *)
Definition heap_evolves (h h' : gmap nat Resource) : Prop :=
  forall b : nat,
    match h !! b, h' !! b with
    | Some r, Some r' => same_object r r'
    | None, None => True
    | _, _ => False
    end.

(** A store that is a [dict] stays one and loses no key. *)
Definition keeps_records (v v' : pyval) : Prop :=
  forall d, v = PDict d ->
    exists d', v' = PDict d' /\
      forall k, is_Some (dict_get d k) -> is_Some (dict_get d' k).

(** What every call keeps. *)
Definition evolves (E : Env) (st st' : state) : Prop :=
  cache_dir st' = cache_dir st /\
  cache_file st' = cache_file st /\
  dirs st' = dirs st /\
  (ticks st <= ticks st')%nat /\
  (forall p, p <> cache_file st -> files st' !! p = files st !! p) /\
  heap_evolves (heap st) (heap st') /\
  keeps_records (cache_dict st) (cache_dict st') /\
  (synced E st -> synced E st').

(** An event that is no write to a file. *)
Definition not_write (ev : event) : Prop := forall p c, ev <> EvWrite p c.

(** ** A test double for the outside world *)

Module Stub.

(** 2023-01-01T00:00:00 *)
Definition t0 : Z := 63808128000000000.

(** The clock starts one hour after [t0] and advances by a second per
    call to the outside world. *)
Definition clock (n : nat) : Z := t0 + 3600000000 + Z.of_nat n * 1000000.

(** The timestamps that the test double can read and write. *)
Definition timestamps : list (string * Z) :=
  [("2023-01-01 00:00:00", t0);
   ("2022-12-01 00:00:00", t0 - 31 * us_per_day);
   ("2023-01-01 01:00:00", t0 + 3600000000)].

Definition fromisoformat (s : string) : option Z := dict_get timestamps s.

Definition datetime_str (t : Z) : string :=
  match List.find (fun kv => snd kv =? t) timestamps with
  | Some kv => fst kv
  | None => "2023-01-01 01:00:01"
  end.

(** pooch answers with the local path; an archive is unpacked into a
    directory that holds one member. *)
Definition pooch_retrieve (n : nat) (url : string) (known_hash : option string)
    (fname path : string) (processor : option Processor) : result pyval :=
  let local := os_path_join path fname in
  match processor with
  | None => Ok (PStr local)
  | Some Decompress => Ok (PStr (local +:+ ".decomp"))
  | Some Unzip => Ok (PList [PStr (local +:+ ".unzip/member")])
  | Some Untar => Ok (PList [PStr (local +:+ ".untar/member")])
  end.

(** The FTP server lists two files in every directory. *)
Definition ftp_nlst (n : nat) (host dir : string) : result (list string) :=
  Ok ["a.txt"; "b.gz"].

(** The cache files that the test double can read. *)
Definition fields (date : string) (days : Z) : list (string * pyval) :=
  [("url", PStr "http://h/x.txt"); ("date_downloaded", PStr date);
   ("lifetime", PInt days)].

Definition record (date : string) (days : Z) : pyval :=
  PDict (fields date days).

Definition cache_files : list (string * pyval) :=
  [("{}", PDict []);
   ("{r: 2023-01-01 00:00:00, 7}", PDict [("r", record "2023-01-01 00:00:00" 7)]);
   ("{r: 2022-12-01 00:00:00, 7}", PDict [("r", record "2022-12-01 00:00:00" 7)]);
   ("{r: 2023-01-01 00:00:00, 0}", PDict [("r", record "2023-01-01 00:00:00" 0)])].

Definition json_loads (s : string) : option pyval := dict_get cache_files s.

Definition json_dumps (v : pyval) : string :=
  match v with
  | PDict [] => "{}"
  | _ => "{...}"
  end.

Definition env : Env :=
  mkEnv clock fromisoformat datetime_str pooch_retrieve ftp_nlst
        json_dumps json_loads "/tmp/tmpdir".

(** A state whose [Downloader] has cache directory [cache] and store
    [store], with the [Resource] objects [objs] at addresses 0, 1, ... *)
Definition init (store : pyval) (objs : list Resource) : state :=
  mkState (list_to_map (zip (seq 0 (List.length objs)) objs))
          "cache" "cache/cache.json" store
          {["cache"]} {["cache/cache.json" := "{}"]} 0 [].

(** A single-file resource [r] with a lifetime of [days], and a state
    whose store holds a record for it that was read from the cache
    file. *)
Definition single (days : Z) : Resource :=
  mkResource "r" (Url "http://h/x.txt") days false.

Definition cached (date : string) (days : Z) : state :=
  init (PDict [("r", record date days)]) [single days].

(** A directory resource, and a state that has never seen it. *)
Definition directory (u : string) : Resource := mkResource "d" (Url u) 0 true.

Definition unseen (r : Resource) : state := init (PDict []) [r].

(** A batch of a single-file and a multi-file resource, never seen. *)
Definition mixed : state :=
  init (PDict [])
    [mkResource "a" (Url "http://h/x") 7 false;
     mkResource "b" (Urls ["http://h/y"; "http://h/z"]) 7 false].

End Stub.

(** ** A test double that fails and that reads back what it wrote *)

Module Flaky.

(** 2023-01-01T01:00:01, the second reading of [Stub.clock]. *)
Definition t1 : Z := Stub.t0 + 3600000000 + 1000000.

Definition timestamps : list (string * Z) :=
  ("2023-01-01 01:00:01", t1) :: Stub.timestamps.

Definition fromisoformat (s : string) : option Z := dict_get timestamps s.

Definition datetime_str (t : Z) : string :=
  match List.find (fun kv => snd kv =? t) timestamps with
  | Some kv => fst kv
  | None => "9999-12-31 23:59:59"
  end.

(** pooch fails on the URLs that end in [missing] or in [b.gz]. *)
Definition pooch_retrieve (n : nat) (url : string) (known_hash : option string)
    (fname path : string) (processor : option Processor) : result pyval :=
  if PyStr.endswith url "missing" || PyStr.endswith url "b.gz"
  then Raise (ExternalError "HTTPError")
  else Stub.pooch_retrieve n url known_hash fname path processor.

(** The host [down] refuses the connection and the host [empty] lists
    nothing. *)
Definition ftp_nlst (n : nat) (host dir : string) : result (list string) :=
  if String.eqb host "down" then Raise (ExternalError "ConnectionRefusedError")
  else if String.eqb host "empty" then Ok []
  else Ok ["a.txt"; "b.gz"].

(** The codec writes a store of one record as its key and its timestamp,
    and reads that text back. *)
Definition json_dumps (v : pyval) : string :=
  match v with
  | PDict [] => "{}"
  | PDict [(k, PDict [(_, _); (_, PStr s); (_, PInt _)])] =>
      "{" +:+ k +:+ ": " +:+ s +:+ "}"
  | _ => "{...}"
  end.

Definition cache_files : list (string * pyval) :=
  [("{}", PDict []);
   ("[]", PList []);
   ("{r: 2023-01-01 01:00:01}", PDict [("r", Stub.record "2023-01-01 01:00:01" 7)]);
   ("{r: 2023-01-01 00:00:00}", PDict [("r", Stub.record "2023-01-01 00:00:00" 7)])].

Definition json_loads (s : string) : option pyval := dict_get cache_files s.

Definition env : Env :=
  mkEnv Stub.clock fromisoformat datetime_str pooch_retrieve ftp_nlst
        json_dumps json_loads "/tmp/tmpdir".

(** A file system without the cache directory, and one whose cache file
    holds [content]. *)
Definition blank : state := mkState ∅ "" "" PNone ∅ ∅ 0 [].

Definition on_disk (content : string) : state :=
  mkState ∅ "" "" PNone {["cache"]} {["cache/cache.json" := content]} 0 [].

(** A batch whose second resource cannot be retrieved. *)
Definition batch : state :=
  Stub.init (PDict [])
    [mkResource "a" (Url "http://h/x") 7 false;
     mkResource "b" (Url "http://h/missing") 7 false;
     mkResource "c" (Url "http://h/z") 7 false].

End Flaky.
(** * Properties *)

(** ** Facts on the [str] operations *)

Module PyStrFacts.
Import PyStr.

Lemma str_app_nil (s : string) : "" +:+ s = s.
Proof. reflexivity. Qed.

Lemma str_app_cons (c : ascii) (p s : string) :
  String c p +:+ s = String c (p +:+ s).
Proof. reflexivity. Qed.

Lemma str_app_assoc (p q s : string) : (p +:+ q) +:+ s = p +:+ (q +:+ s).
Proof. induction p; [done | rewrite !str_app_cons; by f_equal]. Qed.

Lemma prefix_app (p s : string) :
  String.prefix p s = true <-> exists r, s = p +:+ r.
Proof.
  revert s. induction p as [|c p IH]; intros s.
  - destruct s; simpl; split; eauto.
  - destruct s as [|c' s]; simpl.
    + split; [discriminate | intros [r Hr]; discriminate].
    + destruct (Ascii.ascii_dec c c') as [->|Hne].
      * rewrite IH. split; intros [r Hr]; exists r.
        -- rewrite str_app_cons. by rewrite Hr.
        -- rewrite str_app_cons in Hr. by injection Hr.
      * split; [discriminate | intros [r Hr]; rewrite str_app_cons in Hr; congruence].
Qed.

Lemma str_length_app (p s : string) :
  String.length (p +:+ s) = (String.length p + String.length s)%nat.
Proof. induction p; [done | rewrite str_app_cons; simpl; by rewrite IHp]. Qed.

Lemma drop_app_length (p s : string) : drop (String.length p) (p +:+ s) = s.
Proof. induction p; [by destruct s | rewrite str_app_cons; done]. Qed.

Lemma take_drop (n : nat) (s : string) : take n s +:+ drop n s = s.
Proof.
  revert s; induction n as [|n IH]; intros [|c s]; simpl; try done.
  rewrite str_app_cons. by rewrite IH.
Qed.

Lemma endswith_spec (s suf : string) :
  endswith s suf = true <-> exists p, s = p +:+ suf.
Proof.
  unfold endswith. split.
  - destruct (Nat.leb_spec (String.length suf) (String.length s)) as [Hle|]; [|done].
    set (k := (String.length s - String.length suf)%nat).
    intros Heq%String.eqb_eq. exists (take k s).
    rewrite <- Heq. symmetry. apply take_drop.
  - intros [p ->]. rewrite str_length_app.
    destruct (Nat.leb_spec (String.length suf) (String.length p + String.length suf)); [|lia].
    replace (String.length p + String.length suf - String.length suf)%nat
      with (String.length p) by lia.
    rewrite drop_app_length. apply String.eqb_refl.
Qed.

Lemma prefix_char (a c : ascii) (s : string) :
  String.prefix (String a "") (String c s) = bool_decide (a = c).
Proof.
  simpl. destruct (Ascii.ascii_dec a c) as [->|Hne].
  - rewrite bool_decide_true by done. by destruct s.
  - by rewrite bool_decide_false.
Qed.

(** [c not in s], in the words of [find] *)
Lemma find_from_absent_cons (j : nat) (a c : ascii) (s : string) :
  find_from j (String c s) (String a "") = -1 ->
  a <> c /\ find_from (S j) s (String a "") = -1.
Proof.
  cbn [find_from]. rewrite prefix_char. case_bool_decide; [lia | done].
Qed.

Lemma rfind_from_absent (i j : nat) (s : string) (a : ascii) :
  find_from j s (String a "") = -1 -> rfind_from i s (String a "") = -1.
Proof.
  revert i j; induction s as [|c s IH]; intros i j; [done|].
  intros [Hne Hf]%find_from_absent_cons.
  cbn [rfind_from]. rewrite (IH _ _ Hf), prefix_char.
  by rewrite bool_decide_false.
Qed.

Lemma rfind_from_last (i : nat) (u f : string) (a : ascii) :
  find f (String a "") = -1 ->
  rfind_from i (u +:+ String a f) (String a "") =
    Z.of_nat i + Z.of_nat (String.length u).
Proof.
  intros Hf. revert i; induction u as [|c u IH]; intros i.
  - rewrite str_app_nil. cbn [rfind_from].
    rewrite (rfind_from_absent _ 0 f a Hf), prefix_char.
    rewrite bool_decide_true by done. simpl. lia.
  - rewrite str_app_cons. cbn [rfind_from]. rewrite IH.
    destruct (Z.leb_spec 0 (Z.of_nat (S i) + Z.of_nat (String.length u))); simpl String.length; lia.
Qed.


Lemma slice_from_app (p s : string) :
  slice_from (p +:+ s) (Z.of_nat (String.length p)) = s.
Proof.
  unfold slice_from, bound. rewrite str_length_app.
  destruct (Z.ltb_spec (Z.of_nat (String.length p)) 0); [lia|].
  rewrite Nat2Z.id, Nat.min_l by lia. apply drop_app_length.
Qed.

Lemma take_app_length (p s : string) : take (String.length p) (p +:+ s) = p.
Proof. induction p; [by destruct s | rewrite str_app_cons; simpl; by f_equal]. Qed.


End PyStrFacts.

Import PyStrFacts.

(** The local file name of [base/file] is [file]. *)
Lemma basename_join (base file : string) :
  PyStr.find file "/" = -1 -> basename (base +:+ "/" +:+ file) = file.
Proof.
  intros Hf. unfold basename, PyStr.rfind.
  change ("/" +:+ file) with (String "/" file).
  rewrite (rfind_from_last 0 base file "/" Hf).
  replace (base +:+ String "/" file) with ((base +:+ "/") +:+ file)
    by (by rewrite str_app_assoc).
  replace (Z.of_nat 0 + Z.of_nat (String.length base) + 1)
    with (Z.of_nat (String.length (base +:+ "/"))).
  - apply slice_from_app.
  - rewrite str_length_app. simpl. lia.
Qed.

(** ** How the methods run *)

Section Run.

Context (E : Env).

Lemma bind_run {A B} (m : M A) (k : A -> M B) (st : state) :
  bind m k st = match m st with
                | (Ok x, st') => k x st'
                | (Raise e, st') => (Raise e, st')
                end.
Proof. reflexivity. Qed.

Lemma advance_0 (st : state) : trace (advance 0 [] st) = trace st.
Proof. simpl. apply app_nil_r. Qed.

Lemma advance_advance (k1 k2 : nat) (e1 e2 : list event) (st : state) :
  advance k2 e2 (advance k1 e1 st) = advance (k1 + k2) (e1 ++ e2) st.
Proof.
  unfold advance; simpl. f_equal; [lia | by rewrite app_assoc].
Qed.

Lemma deref_run (a : nat) (r : Resource) (st : state) :
  heap st !! a = Some r -> deref a st = (Ok r, st).
Proof. intros H. unfold deref. by rewrite H. Qed.

(** *** [_retrieve] *)

Lemma _retrieve_run (url fname path : string) (kh : option string) (st : state) :
  _retrieve E url fname path kh st =
    (pooch_retrieve E (ticks st) url kh fname path (processor_of fname),
     advance 1 [EvRetrieve url fname path (processor_of fname)] st).
Proof.
  unfold _retrieve, processor_of.
  destruct (PyStr.endswith fname ".zip"); [done|].
  destruct (PyStr.endswith fname ".tar.gz"); [done|].
  by destruct (PyStr.endswith fname ".gz").
Qed.

(** The loop over the URLs of a list resource: it stops at the first
    failure, after [k] calls to pooch. *)
Lemma for_each_retrieve_run (fname : string -> string) (path : string)
    (l : list string) (st : state) :
  let ev url := EvRetrieve url (fname url) path (processor_of (fname url)) in
  exists k : nat,
    (k <= List.length l)%nat /\
    (for_each (fun url => _retrieve E url (fname url) path None) l st).2 =
      advance k (List.map ev (List.firstn k l)) st /\
    (forall paths,
       (for_each (fun url => _retrieve E url (fname url) path None) l st).1 = Ok paths ->
       k = List.length l /\ List.length paths = List.length l).
Proof.
  intros ev. revert st. induction l as [|url l IH]; intros st.
  - exists 0%nat. simpl. split; [lia|]. split.
    + unfold advance. destruct st; simpl. by rewrite app_nil_r.
    + by intros paths [= <-].
  - cbn [for_each]. rewrite bind_run, _retrieve_run.
    destruct (pooch_retrieve E (ticks st) url None (fname url) path
                (processor_of (fname url))) as [v|e].
    + destruct (IH (advance 1 [ev url] st)) as (k & Hk & Hst & Hok).
      exists (S k). split; [simpl; lia|].
      rewrite bind_run.
      destruct (for_each _ l _) as [[paths|e] st'] eqn:Hrun; simpl in *.
      * split; [by rewrite Hst, advance_advance|].
        intros ? [= <-]. destruct (Hok _ eq_refl) as [-> Hlen]. simpl. lia.
      * split; [by rewrite Hst, advance_advance | done].
    + exists 1%nat. simpl. split; [lia|]. split; [|done].
      by destruct l.
Qed.

Lemma fetch_urls_run (r : Resource) (st : state) :
  let l := urls_list (url_s r) in
  exists k : nat,
    (k <= List.length l)%nat /\
    (fetch_urls E r st).2 =
      advance k (List.map (retrieve_event (cache_dir st) r) (List.firstn k l)) st /\
    (forall v, (fetch_urls E r st).1 = Ok v -> k = List.length l).
Proof.
  unfold fetch_urls, retrieve_event, local_name.
  rewrite bind_run. unfold get_state.
  destruct (url_s r) as [u|l]; simpl urls_list.
  - exists 1%nat. rewrite _retrieve_run. simpl. split; [lia | done].
  - destruct (for_each_retrieve_run
                (fun url => name r +:+ "_" +:+ basename url)
                (os_path_join (cache_dir st) (name r)) l st)
      as (k & Hk & Hst & Hok).
    exists k. split; [done|]. rewrite bind_run.
    destruct (for_each _ l st) as [[paths|e] st'] eqn:Hrun; simpl in *.
    + split; [done|]. intros ? _. by destruct (Hok _ eq_refl).
    + done.
Qed.

(** *** The cache record *)

Lemma _get_cache_record_run (a : nat) (r : Resource)
    (d : list (string * pyval)) (st : state) :
  heap st !! a = Some r ->
  cache_dict st = PDict d ->
  _get_cache_record a st = (Ok (default (PDict []) (dict_get d (name r))), st).
Proof.
  intros Hr Hd. unfold _get_cache_record, get_state.
  by rewrite bind_run, bind_run, (deref_run _ _ _ Hr), Hd.
Qed.

Lemma _update_cache_record_run (a : nat) (r : Resource)
    (d : list (string * pyval)) (st : state) :
  heap st !! a = Some r ->
  cache_dict st = PDict d ->
  _update_cache_record E a st = (Ok tt, recorded E r st).
Proof.
  intros Hr Hd. unfold _update_cache_record, recorded.
  rewrite bind_run, (deref_run _ _ _ Hr).
  rewrite bind_run. unfold datetime_now, get_state. rewrite bind_run.
  change (cache_dict (tick st)) with (cache_dict st). by rewrite Hd.
Qed.

(** *** The freshness decision *)


(** A record with a timestamp that parses: the comparison of line 110. *)
Lemma check_expired_present (fields : list (string * pyval)) (s : string)
    (dl : Z) (a : nat) (r : Resource) (st : state) :
  heap st !! a = Some r ->
  fields <> [] ->
  dict_get fields "date_downloaded" = Some (PStr s) ->
  fromisoformat E s = Some dl ->
  Z.abs (lifetime r) <= 999999999 ->
  0 <= dl + lifetime r * us_per_day < datetime_end ->
  check_expired E (PDict fields) a st =
    (Ok (dl + lifetime r * us_per_day <? clock E (ticks st)), tick st).
Proof.
  intros Hr Hne Hget Hparse Hlt Hrange. unfold check_expired.
  replace (truthy (PDict fields)) with true by (by destruct fields).
  unfold lift, py_get. rewrite bind_run, Hget. simpl default.
  rewrite bind_run. unfold datetime_fromisoformat. rewrite Hparse.
  rewrite bind_run, (deref_run _ _ _ Hr), bind_run.
  unfold timedelta_days.
  destruct (Z.leb_spec (Z.abs (lifetime r)) 999999999); [|lia].
  rewrite bind_run. unfold datetime_add.
  destruct (Z.leb_spec 0 (dl + lifetime r * us_per_day)); [|lia].
  destruct (Z.ltb_spec (dl + lifetime r * us_per_day) datetime_end); [|lia].
  done.
Qed.

(** The decision reads the clock at most once and changes nothing else. *)
Lemma check_expired_frame (rec : pyval) (a : nat) (st : state) :
  (check_expired E rec a st).2 = st \/ (check_expired E rec a st).2 = tick st.
Proof.
  unfold check_expired. destruct (truthy rec); [|by left].
  unfold lift. rewrite bind_run.
  destruct (py_get rec "date_downloaded") as [d|e]; [|by left].
  rewrite bind_run.
  destruct (datetime_fromisoformat E d) as [dl|e]; [|by left].
  rewrite bind_run. unfold deref.
  destruct (heap st !! a) as [r|]; [|by left].
  rewrite bind_run.
  destruct (timedelta_days (lifetime r)) as [lt|e]; [|by left].
  rewrite bind_run.
  destruct (datetime_add dl lt) as [limit|e]; [|by left].
  by right.
Qed.

(** The decision in terms of the deadline of the record. *)
Lemma check_expired_deadline (rec : pyval) (a : nat) (r : Resource) (st : state) :
  heap st !! a = Some r ->
  check_expired E rec a st =
    match deadline E rec (lifetime r) with
    | Raise e => (Raise e, st)
    | Ok None => (Ok true, st)
    | Ok (Some limit) => (Ok (limit <? clock E (ticks st)), tick st)
    end.
Proof.
  intros Hr. unfold check_expired, deadline. destruct (truthy rec); [|done].
  unfold lift. rewrite bind_run.
  destruct (py_get rec "date_downloaded") as [d|e]; [|done].
  rewrite bind_run.
  destruct (datetime_fromisoformat E d) as [dl|e]; [|done].
  rewrite bind_run, (deref_run _ _ _ Hr), bind_run.
  destruct (timedelta_days (lifetime r)) as [lt|e]; [|done].
  rewrite bind_run.
  by destruct (datetime_add dl lt) as [limit|e].
Qed.

(** *** [_get_files] *)

Lemma _get_files_ftp (a : nat) (r : Resource) (u : string) (st : state) :
  heap st !! a = Some r ->
  url_s r = Url u ->
  PyStr.startswith u "ftp://" = true ->
  _get_files E a st =
    (ftp_nlst E (ticks st) (ftp_host u) (ftp_dir u),
     advance 1 [EvFtp (ftp_host u) (ftp_dir u)] st).
Proof.
  intros Hr Hu Hftp. unfold _get_files.
  by rewrite bind_run, (deref_run _ _ _ Hr), Hu, Hftp.
Qed.

Lemma _get_files_other (a : nat) (r : Resource) (u : string) (st : state) :
  heap st !! a = Some r ->
  url_s r = Url u ->
  PyStr.startswith u "ftp://" = false ->
  _get_files E a st = (Raise UnboundLocalError, st).
Proof.
  intros Hr Hu Hftp. unfold _get_files.
  by rewrite bind_run, (deref_run _ _ _ Hr), Hu, Hftp.
Qed.

(** *** [_download_or_cache], case by case *)

Lemma frame_of_check (rec : pyval) (a : nat) (b : bool) (st st1 : state) :
  check_expired E rec a st = (Ok b, st1) ->
  heap st1 = heap st /\ cache_dict st1 = cache_dict st /\
  cache_dir st1 = cache_dir st /\ cache_file st1 = cache_file st /\
  files st1 = files st /\ trace st1 = trace st.
Proof.
  intros H. destruct (check_expired_frame rec a st) as [Hf|Hf];
    rewrite H in Hf; simpl in Hf; by subst st1.
Qed.

(** The prologue, lines 104 to 116. *)
Lemma rec_prologue (n a : nat) (cache : bool) (r : Resource)
    (d : list (string * pyval)) (st : state) (K : bool -> M pyval) :
  heap st !! a = Some r ->
  cache_dict st = PDict d ->
  (let* cache_record := _get_cache_record a in
   let* expired := check_expired E cache_record a in
   K expired) st =
  match check_expired E (default (PDict []) (dict_get d (name r))) a st with
  | (Ok expired, st1) => K expired st1
  | (Raise e, st1) => (Raise e, st1)
  end.
Proof.
  intros Hr Hd. by rewrite bind_run, (_get_cache_record_run _ _ _ _ Hr Hd), bind_run.
Qed.

(** A cache hit: nothing is returned, nothing is done. *)
Lemma rec_hit (n a : nat) (r : Resource) (d : list (string * pyval))
    (st st1 : state) :
  heap st !! a = Some r ->
  cache_dict st = PDict d ->
  check_expired E (default (PDict []) (dict_get d (name r))) a st = (Ok false, st1) ->
  _download_or_cache_rec E (S n) a true st = (Ok PNone, st1).
Proof.
  intros Hr Hd Hc. cbn [_download_or_cache_rec].
  by rewrite (rec_prologue n a true r d st _ Hr Hd), Hc.
Qed.

(** The decision raises: so does the call. *)
Lemma rec_raise (n a : nat) (cache : bool) (r : Resource)
    (d : list (string * pyval)) (e : exn) (st st1 : state) :
  heap st !! a = Some r ->
  cache_dict st = PDict d ->
  check_expired E (default (PDict []) (dict_get d (name r))) a st = (Raise e, st1) ->
  _download_or_cache_rec E (S n) a cache st = (Raise e, st1).
Proof.
  intros Hr Hd Hc. cbn [_download_or_cache_rec].
  by rewrite (rec_prologue n a cache r d st _ Hr Hd), Hc.
Qed.

(** The download of a resource that is not a directory. *)
Lemma rec_leaf (n a : nat) (cache expired : bool) (r : Resource)
    (d : list (string * pyval)) (st st1 : state) :
  heap st !! a = Some r ->
  cache_dict st = PDict d ->
  is_dir r = false ->
  check_expired E (default (PDict []) (dict_get d (name r))) a st = (Ok expired, st1) ->
  expired || negb cache = true ->
  _download_or_cache_rec E (S n) a cache st =
    match fetch_urls E r (emit (downloading (name r)) st1) with
    | (Ok paths, st2) => (Ok paths, recorded E r st2)
    | (Raise e, st2) => (Raise e, st2)
    end.
Proof.
  intros Hr Hd Hdir Hc Hgo. cbn [_download_or_cache_rec].
  rewrite (rec_prologue n a cache r d st _ Hr Hd), Hc, Hgo.
  destruct (frame_of_check _ _ _ _ _ Hc) as (Hh & Hcd & _).
  assert (Hr1 : heap st1 !! a = Some r) by (by rewrite Hh).
  rewrite bind_run, (deref_run _ _ _ Hr1).
  unfold logger_info. rewrite bind_run. unfold modify at 1.
  fold (downloading (name r)).
  set (st2 := emit (downloading (name r)) st1).
  assert (Hr2 : heap st2 !! a = Some r) by done.
  rewrite bind_run, (deref_run _ _ _ Hr2), Hdir.
  rewrite bind_run. fold (fetch_urls E r).
  destruct (fetch_urls_run r st2) as (k & _ & Hst & _).
  destruct (fetch_urls E r st2) as [[paths|e] st3]; simpl in Hst; [|done].
  assert (Hr3 : heap st3 !! a = Some r) by (by subst st3).
  assert (Hd3 : cache_dict st3 = PDict d) by (subst st3; simpl; congruence).
  by rewrite bind_run, (_update_cache_record_run _ _ _ _ Hr3 Hd3).
Qed.

(** The download of a directory resource over FTP: the listing, the
    rewriting of the resource, the second frame. *)
Lemma rec_dir (n a : nat) (cache expired : bool) (r : Resource) (u : string)
    (d : list (string * pyval)) (st st1 : state) :
  heap st !! a = Some r ->
  cache_dict st = PDict d ->
  is_dir r = true ->
  url_s r = Url u ->
  PyStr.startswith u "ftp://" = true ->
  check_expired E (default (PDict []) (dict_get d (name r))) a st = (Ok expired, st1) ->
  expired || negb cache = true ->
  let st2 := advance 1 [EvFtp (ftp_host u) (ftp_dir u)]
               (emit (downloading (name r)) st1) in
  _download_or_cache_rec E (S n) a cache st =
    match ftp_nlst E (ticks st1) (ftp_host u) (ftp_dir u) with
    | Raise e => (Raise e, st2)
    | Ok names =>
        match _download_or_cache_rec E n a cache
                (set_heap (<[a := expanded r names]> (heap st)) st2) with
        | (Ok paths, st3) =>
            match _update_cache_record E a st3 with
            | (Ok _, st4) => (Ok paths, st4)
            | (Raise e, st4) => (Raise e, st4)
            end
        | (Raise e, st3) => (Raise e, st3)
        end
    end.
Proof.
  intros Hr Hd Hdir Hu Hftp Hc Hgo st2. cbn [_download_or_cache_rec].
  rewrite (rec_prologue n a cache r d st _ Hr Hd), Hc, Hgo.
  destruct (frame_of_check _ _ _ _ _ Hc) as (Hh & Hcd & _).
  assert (Hr1 : heap st1 !! a = Some r) by (by rewrite Hh).
  rewrite bind_run, (deref_run _ _ _ Hr1).
  unfold logger_info. rewrite bind_run. unfold modify at 1.
  fold (downloading (name r)).
  set (st1' := emit (downloading (name r)) st1).
  assert (Hr2 : heap st1' !! a = Some r) by done.
  rewrite bind_run, (deref_run _ _ _ Hr2), Hdir.
  rewrite bind_run, bind_run, (_get_files_ftp _ _ _ _ Hr2 Hu Hftp).
  change (ticks st1') with (ticks st1).
  change (advance 1 [EvFtp (ftp_host u) (ftp_dir u)] st1') with st2.
  destruct (ftp_nlst E (ticks st1) (ftp_host u) (ftp_dir u)) as [names|e]; [|done].
  assert (Hr3 : heap st2 !! a = Some r) by done.
  rewrite bind_run, (deref_run _ _ _ Hr3), Hu, bind_run.
  assert (Hnew : (match names with
                  | [] => ret []
                  | _ :: _ => ret (List.map (fun file => u +:+ "/" +:+ file) names)
                  end : M (list string)) st2
                 = (Ok (List.map (fun file => u +:+ "/" +:+ file) names), st2))
    by (by destruct names).
  rewrite Hnew. unfold assign.
  rewrite bind_run, bind_run, (deref_run _ _ _ Hr3). unfold modify at 1.
  rewrite bind_run, bind_run.
  set (st3 := set_heap _ st2).
  assert (Hr4 : heap st3 !! a =
                Some (mkResource (name r)
                        (Urls (List.map (fun file => u +:+ "/" +:+ file) names))
                        (lifetime r) (is_dir r)))
    by (subst st3; simpl; apply lookup_insert_eq).
  rewrite (deref_run _ _ _ Hr4). unfold modify at 1.
  subst st3. unfold set_heap at 1. cbn [heap cache_dir cache_file cache_dict dirs files ticks trace name url_s lifetime is_dir set_heap].
  rewrite insert_insert_eq.
  change (heap st2) with (heap st1). rewrite Hh.
  unfold expanded, set_heap. rewrite Hu.
  destruct (_download_or_cache_rec E n a cache _) as [[paths|e] st4]; [|done].
  by rewrite bind_run.
Qed.

(** A directory resource whose URL is not an FTP one: [_get_files] reads
    a local variable that was never bound. *)
Lemma rec_dir_unsupported (n a : nat) (cache expired : bool) (r : Resource)
    (u : string) (d : list (string * pyval)) (st st1 : state) :
  heap st !! a = Some r ->
  cache_dict st = PDict d ->
  is_dir r = true ->
  url_s r = Url u ->
  PyStr.startswith u "ftp://" = false ->
  check_expired E (default (PDict []) (dict_get d (name r))) a st = (Ok expired, st1) ->
  expired || negb cache = true ->
  _download_or_cache_rec E (S n) a cache st =
    (Raise UnboundLocalError, emit (downloading (name r)) st1).
Proof.
  intros Hr Hd Hdir Hu Hftp Hc Hgo. cbn [_download_or_cache_rec].
  rewrite (rec_prologue n a cache r d st _ Hr Hd), Hc, Hgo.
  destruct (frame_of_check _ _ _ _ _ Hc) as (Hh & Hcd & _).
  assert (Hr1 : heap st1 !! a = Some r) by (by rewrite Hh).
  rewrite bind_run, (deref_run _ _ _ Hr1).
  unfold logger_info. rewrite bind_run. unfold modify at 1.
  fold (downloading (name r)).
  set (st1' := emit (downloading (name r)) st1).
  assert (Hr2 : heap st1' !! a = Some r) by done.
  rewrite bind_run, (deref_run _ _ _ Hr2), Hdir.
  by rewrite bind_run, bind_run, (_get_files_other _ _ _ _ Hr2 Hu Hftp).
Qed.

(** A directory resource whose [url_s] is a list: it has no
    [startswith]. *)
Lemma rec_dir_list (n a : nat) (cache expired : bool) (r : Resource)
    (l : list string) (d : list (string * pyval)) (st st1 : state) :
  heap st !! a = Some r ->
  cache_dict st = PDict d ->
  is_dir r = true ->
  url_s r = Urls l ->
  check_expired E (default (PDict []) (dict_get d (name r))) a st = (Ok expired, st1) ->
  expired || negb cache = true ->
  _download_or_cache_rec E (S n) a cache st =
    (Raise AttributeError, emit (downloading (name r)) st1).
Proof.
  intros Hr Hd Hdir Hu Hc Hgo. cbn [_download_or_cache_rec].
  rewrite (rec_prologue n a cache r d st _ Hr Hd), Hc, Hgo.
  destruct (frame_of_check _ _ _ _ _ Hc) as (Hh & Hcd & _).
  assert (Hr1 : heap st1 !! a = Some r) by (by rewrite Hh).
  rewrite bind_run, (deref_run _ _ _ Hr1).
  unfold logger_info. rewrite bind_run. unfold modify at 1.
  fold (downloading (name r)).
  set (st1' := emit (downloading (name r)) st1).
  assert (Hr2 : heap st1' !! a = Some r) by done.
  rewrite bind_run, (deref_run _ _ _ Hr2), Hdir.
  rewrite bind_run, bind_run. unfold _get_files.
  by rewrite bind_run, (deref_run _ _ _ Hr2), Hu.
Qed.

(** No object, or a store that is not a [dict]: the lookup raises. *)
Lemma rec_no_lookup (n a : nat) (cache : bool) (st : state) :
  heap st !! a = None \/ (forall d, cache_dict st <> PDict d) ->
  exists e, forall m, _download_or_cache_rec E (S m) a cache st = (Raise e, st).
Proof.
  intros H.
  assert (exists e, _get_cache_record a st = (Raise e, st)) as [e He].
  { unfold _get_cache_record, get_state. rewrite bind_run, bind_run.
    unfold deref. destruct (heap st !! a) as [r|]; [|by eexists].
    destruct H as [?|Hnd]; [done|].
    destruct (cache_dict st); try by eexists. by destruct (Hnd d). }
  exists e. intros m. cbn [_download_or_cache_rec]. by rewrite bind_run, He.
Qed.

(** *** The depth of the recursion *)

(** A resource that is not a directory uses one frame. *)
Lemma leaf_depth (n a : nat) (cache : bool) (r : Resource) (st : state) :
  heap st !! a = Some r ->
  is_dir r = false ->
  _download_or_cache_rec E (S n) a cache st =
    _download_or_cache_rec E 1 a cache st.
Proof.
  intros Hr Hdir.
  destruct (cache_dict st) as [| | | | | |d] eqn:Hd;
    try (destruct (rec_no_lookup 0 a cache st) as [e He];
         [right; congruence | by rewrite !He]).
  destruct (check_expired E (default (PDict []) (dict_get d (name r))) a st)
    as [[expired|e] st1] eqn:Hc.
  - destruct (expired || negb cache) eqn:Hgo.
    + by rewrite !(rec_leaf _ _ _ _ _ _ _ _ Hr Hd Hdir Hc Hgo).
    + apply orb_false_elim in Hgo as [-> Hcache].
      apply negb_false_iff in Hcache as ->.
      by rewrite !(rec_hit _ _ _ _ _ _ Hr Hd Hc).
  - by rewrite !(rec_raise _ _ _ _ _ _ _ _ Hr Hd Hc).
Qed.

(** Two frames are all that the method ever uses. *)
Lemma _download_or_cache_depth (n a : nat) (cache : bool) (st : state) :
  _download_or_cache_rec E (S (S n)) a cache st = _download_or_cache E a cache st.
Proof.
  unfold _download_or_cache.
  destruct (heap st !! a) as [r|] eqn:Hr;
    [|destruct (rec_no_lookup 0 a cache st) as [e He]; [by left | by rewrite !He]].
  destruct (cache_dict st) as [| | | | | |d] eqn:Hd;
    try (destruct (rec_no_lookup 0 a cache st) as [e He];
         [right; congruence | by rewrite !He]).
  destruct (is_dir r) eqn:Hdir;
    [|by rewrite (leaf_depth _ _ _ _ _ Hr Hdir), (leaf_depth 1 _ _ _ _ Hr Hdir)].
  destruct (check_expired E (default (PDict []) (dict_get d (name r))) a st)
    as [[expired|e] st1] eqn:Hc;
    [|by rewrite !(rec_raise _ _ _ _ _ _ _ _ Hr Hd Hc)].
  destruct (expired || negb cache) eqn:Hgo.
  - destruct (url_s r) as [u|l] eqn:Hu;
      [|by rewrite !(rec_dir_list _ _ _ _ _ _ _ _ _ Hr Hd Hdir Hu Hc Hgo)].
    destruct (PyStr.startswith u "ftp://") eqn:Hftp;
      [|by rewrite !(rec_dir_unsupported _ _ _ _ _ _ _ _ _ Hr Hd Hdir Hu Hftp Hc Hgo)].
    rewrite !(rec_dir _ _ _ _ _ _ _ _ _ Hr Hd Hdir Hu Hftp Hc Hgo).
    destruct (ftp_nlst E (ticks st1) (ftp_host u) (ftp_dir u)) as [names|e]; [|done].
    erewrite leaf_depth; [done | apply lookup_insert_eq | by unfold expanded; rewrite Hu].
  - apply orb_false_elim in Hgo as [-> Hcache].
    apply negb_false_iff in Hcache as ->.
    by rewrite !(rec_hit _ _ _ _ _ _ Hr Hd Hc).
Qed.

End Run.

(** ** Retrieval adapter selection *)

Lemma app_last_char (p q : string) (c c' : ascii) :
  p +:+ String c "" = q +:+ String c' "" -> c = c'.
Proof.
  revert q; induction p as [|x p IH]; intros [|y q]; rewrite ?str_app_nil, ?str_app_cons.
  - by intros [= ->].
  - intros [= -> H]. by destruct q.
  - intros [= -> H]. by destruct p.
  - intros [= -> H]. by apply (IH q).
Qed.

Lemma zip_not_gz (fname : string) : ends_in fname ".zip" -> ~ ends_in fname ".gz".
Proof.
  intros [p ->] [q Hq].
  change ".zip" with (".zi" +:+ "p") in Hq. change ".gz" with (".g" +:+ "z") in Hq.
  rewrite <- !str_app_assoc in Hq. by apply app_last_char in Hq.
Qed.

Lemma targz_gz (fname : string) : ends_in fname ".tar.gz" -> ends_in fname ".gz".
Proof.
  intros [p ->]. exists (p +:+ ".tar"). by rewrite str_app_assoc.
Qed.

Lemma endswith_false (s suf : string) :
  PyStr.endswith s suf = false <-> ~ ends_in s suf.
Proof.
  unfold ends_in. rewrite <- endswith_spec. by destruct (PyStr.endswith s suf).
Qed.

(** C6: the adapter of [_retrieve] is selected by the suffix of the file
    name alone.  A name that ends in [.zip] goes to pooch with the [Unzip]
    processor; one that ends in [.tar.gz] with [Untar]; one that ends in
    [.gz] and not in [.tar.gz] with [Decompress]; any other name goes to
    pooch without a processor.  The URL, the hash and the path are passed
    on as they are and play no part in the choice. *)
Theorem retrieve_adapter_by_suffix (E : Env) (url fname path : string)
    (known_hash : option string) :
  (ends_in fname ".zip" ->
   _retrieve E url fname path known_hash =
     pooch_call E url known_hash fname path (Some Unzip)) /\
  (ends_in fname ".tar.gz" ->
   _retrieve E url fname path known_hash =
     pooch_call E url known_hash fname path (Some Untar)) /\
  (ends_in fname ".gz" -> ~ ends_in fname ".tar.gz" ->
   _retrieve E url fname path known_hash =
     pooch_call E url known_hash fname path (Some Decompress)) /\
  (~ ends_in fname ".zip" -> ~ ends_in fname ".tar.gz" -> ~ ends_in fname ".gz" ->
   _retrieve E url fname path known_hash =
     pooch_call E url known_hash fname path None).
Proof.
  unfold _retrieve. split; [|split; [|split]].
  - intros H%endswith_spec. by rewrite H.
  - intros H. pose proof (targz_gz _ H) as Hgz.
    assert (Hz : PyStr.endswith fname ".zip" = false).
    { apply endswith_false. intros Hz. by apply (zip_not_gz _ Hz). }
    apply endswith_spec in H. by rewrite Hz, H.
  - intros Hgz Htar.
    assert (Hz : PyStr.endswith fname ".zip" = false).
    { apply endswith_false. intros Hz. by apply (zip_not_gz _ Hz). }
    apply endswith_false in Htar. apply endswith_spec in Hgz.
    by rewrite Hz, Htar, Hgz.
  - intros Hz%endswith_false Htar%endswith_false Hgz%endswith_false.
    by rewrite Hz, Htar, Hgz.
Qed.

Lemma retrieve_adapter_by_suffix_witness :
  _retrieve Stub.env "http://h/data.zip" "data.zip" "cache/r" None =
    pooch_call Stub.env "http://h/data.zip" None "data.zip" "cache/r" (Some Unzip) /\
  _retrieve Stub.env "http://h/data.tar.gz" "data.tar.gz" "cache/r" None =
    pooch_call Stub.env "http://h/data.tar.gz" None "data.tar.gz" "cache/r" (Some Untar) /\
  _retrieve Stub.env "http://h/data.csv.gz" "data.csv.gz" "cache/r" None =
    pooch_call Stub.env "http://h/data.csv.gz" None "data.csv.gz" "cache/r" (Some Decompress) /\
  _retrieve Stub.env "http://h/data.csv" "data.csv" "cache/r" None =
    pooch_call Stub.env "http://h/data.csv" None "data.csv" "cache/r" None.
Proof.
  split; [|split; [|split]].
  - apply (proj1 (retrieve_adapter_by_suffix Stub.env "http://h/data.zip" "data.zip" "cache/r" None)).
    by exists "data".
  - apply (proj1 (proj2 (retrieve_adapter_by_suffix Stub.env "http://h/data.tar.gz" "data.tar.gz" "cache/r" None))).
    by exists "data".
  - apply (proj1 (proj2 (proj2 (retrieve_adapter_by_suffix Stub.env "http://h/data.csv.gz" "data.csv.gz" "cache/r" None)))).
    + by exists "data.csv".
    + apply endswith_false. reflexivity.
  - apply (proj2 (proj2 (proj2 (retrieve_adapter_by_suffix Stub.env "http://h/data.csv" "data.csv" "cache/r" None))));
      apply endswith_false; reflexivity.
Defined.

(** ** Loading the store *)

Lemma load_corrupt (E : Env) (content : string) (st : state) :
  files st !! cache_file st = Some content ->
  json_loads E content = None ->
  exists st' evs,
    _load_cache_dict E st = (Raise JSONDecodeError, st') /\
    files st' = files st /\ cache_dict st' = cache_dict st /\
    trace st' = trace st ++ evs /\
    Forall (fun ev => forall p c, ev <> EvWrite p c) evs.
Proof.
  intros Hfile Hbad. unfold _load_cache_dict.
  rewrite bind_run. unfold get_state at 1.
  rewrite bind_run. unfold path_exists at 1. rewrite bind_run.
  set (mk := if negb _ then _ else _).
  assert (Hmk : exists evs, (mk st).1 = Ok tt /\ files (mk st).2 = files st /\
                 cache_dict (mk st).2 = cache_dict st /\
                 trace (mk st).2 = trace st ++ evs /\
                 Forall (fun ev => forall p c, ev <> EvWrite p c) evs).
  { subst mk. destruct (negb _).
    - eexists [_; _]. do 3 (split; [reflexivity|]). split.
      + simpl. by rewrite <- app_assoc.
      + by repeat constructor.
    - exists []. do 3 (split; [reflexivity|]). split.
      + simpl. by rewrite app_nil_r.
      + constructor. }
  destruct Hmk as (evs & Hres & Hfiles & Hcd & Htr & Hev).
  destruct (mk st) as [[[]|e] st1]; simpl in Hres, Hfiles, Hcd, Htr; [|done].
  rewrite bind_run. unfold path_exists at 1.
  replace (bool_decide (is_Some (files st1 !! cache_file st))) with true
    by (symmetry; apply bool_decide_eq_true; rewrite Hfiles; by eexists).
  rewrite orb_true_r. simpl negb. cbv iota.
  rewrite bind_run. unfold ret at 1. rewrite bind_run.
  unfold read_file. rewrite Hfiles, Hfile.
  rewrite bind_run. unfold logger_info, modify at 1. rewrite Hbad.
  eexists _, (evs ++ [_]). split; [reflexivity|]. simpl.
  do 2 (split; [done|]). split.
  - by rewrite Htr, <- app_assoc.
  - apply Forall_app. split; [done|]. by repeat constructor.
Qed.

(** C9: when the cache file of the chosen cache directory exists and holds
    text that json cannot parse, the construction of the [Downloader]
    raises [JSONDecodeError]; the cache file is left as it is (the store is
    not reset to an empty one), nothing is written, and no store is set on
    the object. *)
Theorem corrupt_cache_fails_fast (E : Env) (dir : option string)
    (content : string) (st : state) :
  files st !! os_path_join (chosen_dir E dir) "cache.json" = Some content ->
  json_loads E content = None ->
  exists st' evs,
    Downloader_init E dir st = (Raise JSONDecodeError, st') /\
    files st' = files st /\
    cache_dict st' = cache_dict st /\
    trace st' = trace st ++ evs /\
    Forall (fun ev => forall p c, ev <> EvWrite p c) evs.
Proof.
  intros Hfile Hbad. unfold Downloader_init. fold (chosen_dir E dir).
  rewrite bind_run. unfold modify at 1. rewrite bind_run. unfold get_state at 1.
  rewrite bind_run. unfold modify at 1. rewrite bind_run.
  set (st0 := set_cache_file _ _).
  assert (Hf0 : files st0 !! cache_file st0 = Some content) by done.
  destruct (load_corrupt E content st0 Hf0 Hbad)
    as (st' & evs & -> & Hfiles & Hcd & Htr & Hev).
  by exists st', evs.
Qed.

Lemma corrupt_cache_fails_fast_witness :
  exists st' evs,
    Downloader_init Stub.env (Some "cache")
      (mkState ∅ "" "" PNone {["cache"]} {["cache/cache.json" := "{ not json"]} 0 [])
    = (Raise JSONDecodeError, st') /\
    files st' = {["cache/cache.json" := "{ not json"]} /\
    cache_dict st' = PNone /\
    trace st' = [] ++ evs /\
    Forall (fun ev => forall p c, ev <> EvWrite p c) evs.
Proof.
  exact (corrupt_cache_fails_fast Stub.env (Some "cache") "{ not json"
           (mkState ∅ "" "" PNone {["cache"]} {["cache/cache.json" := "{ not json"]} 0 [])
           eq_refl eq_refl).
Defined.

(** ** The download branch and the trace *)

Section Trace.

Context (E : Env).

(** The condition of line 115 holds exactly when the lookup and the
    decision return and one of [expired], [not cache] is true. *)
Lemma fetched_inv (a : nat) (cache : bool) (st : state) :
  fetched E a cache st <->
  exists r d expired st1,
    heap st !! a = Some r /\ cache_dict st = PDict d /\
    check_expired E (default (PDict []) (dict_get d (name r))) a st
      = (Ok expired, st1) /\
    expired || negb cache = true.
Proof.
  unfold fetched, condition. split.
  - rewrite bind_run. unfold _get_cache_record, get_state.
    rewrite bind_run, bind_run. unfold deref.
    destruct (heap st !! a) as [r|] eqn:Hr; [|done].
    destruct (cache_dict st) as [| | | | | |d] eqn:Hd; try done.
    unfold ret at 1. rewrite bind_run.
    destruct (check_expired E _ a st) as [[expired|e] st1] eqn:Hc; [|done].
    intros [= Hgo]. by exists r, d, expired, st1.
  - intros (r & d & expired & st1 & Hr & Hd & Hc & Hgo).
    rewrite bind_run, (_get_cache_record_run _ _ _ _ Hr Hd), bind_run, Hc.
    simpl. by rewrite Hgo.
Qed.

Lemma _update_cache_record_trace (a : nat) (st : state) :
  exists tr, trace (_update_cache_record E a st).2 = trace st ++ tr.
Proof.
  destruct (heap st !! a) as [r|] eqn:Hr.
  - destruct (cache_dict st) as [| | | | | |d] eqn:Hd;
      try (exists []; unfold _update_cache_record;
           rewrite bind_run, (deref_run _ _ _ Hr), bind_run;
           unfold datetime_now, get_state; rewrite bind_run;
           change (cache_dict (tick st)) with (cache_dict st); rewrite Hd;
           simpl; by rewrite app_nil_r).
    rewrite (_update_cache_record_run E _ _ _ _ Hr Hd). unfold recorded.
    rewrite Hd. by eexists.
  - exists []. unfold _update_cache_record, deref.
    rewrite bind_run, Hr. simpl. by rewrite app_nil_r.
Qed.

Lemma fetch_urls_trace (r : Resource) (st : state) :
  exists tr, trace (fetch_urls E r st).2 = trace st ++ tr.
Proof.
  destruct (fetch_urls_run E r st) as (k & _ & -> & _). by eexists.
Qed.

(** Every call only adds to the trace. *)
Lemma rec_trace (n a : nat) (cache : bool) (st : state) :
  exists tr, trace (_download_or_cache_rec E n a cache st).2 = trace st ++ tr.
Proof.
  revert st. induction n as [|n IH]; intros st.
  { exists []. simpl. by rewrite app_nil_r. }
  destruct (heap st !! a) as [r|] eqn:Hr;
    [|destruct (rec_no_lookup E 0 a cache st) as [e He];
      [by left | rewrite He; exists []; simpl; by rewrite app_nil_r]].
  destruct (cache_dict st) as [| | | | | |d] eqn:Hd;
    try (destruct (rec_no_lookup E 0 a cache st) as [e He];
         [right; congruence | rewrite He; exists []; simpl; by rewrite app_nil_r]).
  destruct (check_expired E (default (PDict []) (dict_get d (name r))) a st)
    as [[expired|e] st1] eqn:Hc.
  2:{ rewrite (rec_raise E _ _ _ _ _ _ _ _ Hr Hd Hc). exists []. simpl.
      destruct (check_expired_frame E (default (PDict []) (dict_get d (name r))) a st) as [Hf|Hf];
        rewrite Hc in Hf; simpl in Hf; subst st1; simpl; by rewrite app_nil_r. }
  destruct (frame_of_check E _ _ _ _ _ Hc) as (_ & _ & _ & _ & _ & Htr).
  destruct (expired || negb cache) eqn:Hgo.
  2:{ apply orb_false_elim in Hgo as [-> Hcache].
      apply negb_false_iff in Hcache as ->.
      rewrite (rec_hit E _ _ _ _ _ _ Hr Hd Hc). exists []. simpl.
      by rewrite Htr, app_nil_r. }
  destruct (is_dir r) eqn:Hdir.
  - destruct (url_s r) as [u|l] eqn:Hu.
    2:{ rewrite (rec_dir_list E _ _ _ _ _ _ _ _ _ Hr Hd Hdir Hu Hc Hgo).
        simpl. rewrite Htr. by eexists. }
    destruct (PyStr.startswith u "ftp://") eqn:Hftp.
    2:{ rewrite (rec_dir_unsupported E _ _ _ _ _ _ _ _ _ Hr Hd Hdir Hu Hftp Hc Hgo).
        simpl. rewrite Htr. by eexists. }
    rewrite (rec_dir E _ _ _ _ _ _ _ _ _ Hr Hd Hdir Hu Hftp Hc Hgo).
    destruct (ftp_nlst E (ticks st1) (ftp_host u) (ftp_dir u)) as [names|e].
    2:{ simpl. rewrite Htr, <- app_assoc. by eexists. }
    match goal with |- context [_download_or_cache_rec E n a cache ?s] =>
      destruct (IH s) as [tr1 Htr1] end.
    destruct (_download_or_cache_rec E n a cache _) as [[paths|e] st3];
      simpl in Htr1.
    + destruct (_update_cache_record_trace a st3) as [tr2 Htr2].
      destruct (_update_cache_record E a st3) as [[[]|e] st4]; simpl in *;
        rewrite Htr2, Htr1, Htr, <- !app_assoc; by eexists.
    + simpl. rewrite Htr1, Htr, <- !app_assoc. by eexists.
  - rewrite (rec_leaf E _ _ _ _ _ _ _ _ Hr Hd Hdir Hc Hgo).
    destruct (fetch_urls_trace r (emit (downloading (name r)) st1)) as [tr1 Htr1].
    destruct (fetch_urls E r _) as [[paths|e] st2]; simpl in *.
    + unfold recorded.
      destruct (cache_dict st2); simpl; rewrite Htr1, Htr, <- !app_assoc; by eexists.
    + rewrite Htr1, Htr, <- !app_assoc. by eexists.
Qed.

(** A call that downloads logs so first. *)
Lemma fetched_trace (n a : nat) (cache : bool) (r : Resource) (st : state) :
  heap st !! a = Some r ->
  fetched E a cache st ->
  fetch_started (name r) st (_download_or_cache_rec E (S n) a cache st).2.
Proof.
  intros Hr (r' & d & expired & st1 & Hr' & Hd & Hc & Hgo)%fetched_inv.
  assert (r' = r) as -> by congruence. clear Hr'.
  unfold fetch_started.
  destruct (frame_of_check E _ _ _ _ _ Hc) as (_ & _ & _ & _ & _ & Htr).
  destruct (is_dir r) eqn:Hdir.
  - destruct (url_s r) as [u|l] eqn:Hu.
    2:{ rewrite (rec_dir_list E _ _ _ _ _ _ _ _ _ Hr Hd Hdir Hu Hc Hgo).
        simpl. rewrite Htr. by eexists. }
    destruct (PyStr.startswith u "ftp://") eqn:Hftp.
    2:{ rewrite (rec_dir_unsupported E _ _ _ _ _ _ _ _ _ Hr Hd Hdir Hu Hftp Hc Hgo).
        simpl. rewrite Htr. by eexists. }
    rewrite (rec_dir E _ _ _ _ _ _ _ _ _ Hr Hd Hdir Hu Hftp Hc Hgo).
    destruct (ftp_nlst E (ticks st1) (ftp_host u) (ftp_dir u)) as [names|e].
    2:{ simpl. rewrite Htr, <- app_assoc. by eexists. }
    match goal with |- context [_download_or_cache_rec E n a cache ?s] =>
      destruct (rec_trace n a cache s) as [tr1 Htr1] end.
    destruct (_download_or_cache_rec E n a cache _) as [[paths|e] st3];
      simpl in Htr1.
    + destruct (_update_cache_record_trace a st3) as [tr2 Htr2].
      destruct (_update_cache_record E a st3) as [[[]|e] st4]; simpl in *;
        rewrite Htr2, Htr1, Htr, <- !app_assoc; by eexists.
    + simpl. rewrite Htr1, Htr, <- !app_assoc. by eexists.
  - rewrite (rec_leaf E _ _ _ _ _ _ _ _ Hr Hd Hdir Hc Hgo).
    destruct (fetch_urls_trace r (emit (downloading (name r)) st1)) as [tr1 Htr1].
    destruct (fetch_urls E r _) as [[paths|e] st2]; simpl in *.
    + unfold recorded.
      destruct (cache_dict st2); simpl; rewrite Htr1, Htr, <- !app_assoc; by eexists.
    + rewrite Htr1, Htr, <- !app_assoc. by eexists.
Qed.

(** A call that does not download makes no call to the outside but the
    clock, and returns [None]. *)
Lemma not_fetched_run (n a : nat) (r : Resource) (d : list (string * pyval))
    (st st1 : state) :
  heap st !! a = Some r ->
  cache_dict st = PDict d ->
  check_expired E (default (PDict []) (dict_get d (name r))) a st = (Ok false, st1) ->
  _download_or_cache_rec E (S n) a true st = (Ok PNone, st1) /\ no_fetch st st1.
Proof.
  intros Hr Hd Hc. split; [by apply (rec_hit E _ _ r d)|].
  by destruct (frame_of_check E _ _ _ _ _ Hc) as (_ & _ & _ & _ & _ & Htr).
Qed.

Lemma fetch_started_grows (nm : string) (st st' : state) :
  fetch_started nm st st' -> ~ no_fetch st st'.
Proof.
  intros [tr Htr] Hno. unfold no_fetch in Hno. rewrite Hno in Htr.
  apply (f_equal List.length) in Htr. rewrite length_app in Htr. simpl in Htr. lia.
Qed.

End Trace.

(** ** Facts on [dict] *)

Lemma dict_set_absent {A} (d : list (string * A)) (k : string) (v : A) :
  dict_get d k = None -> dict_set d k v = d ++ [(k, v)].
Proof.
  induction d as [|[k' v'] d IH]; simpl; [done|].
  destruct (String.eqb k' k); [done|]. intros H. by rewrite IH.
Qed.

Lemma dict_set_last {A} (d : list (string * A)) (k : string) (v v' : A) :
  dict_get d k = None -> dict_set (d ++ [(k, v)]) k v' = d ++ [(k, v')].
Proof.
  induction d as [|[k0 v0] d IH]; simpl.
  - by rewrite String.eqb_refl.
  - destruct (String.eqb k0 k); [done|]. intros H. by rewrite IH.
Qed.

Lemma dict_get_set {A} (d : list (string * A)) (k : string) (v : A) :
  dict_get (dict_set d k v) k = Some v.
Proof.
  induction d as [|[k' v'] d IH]; simpl.
  - by rewrite String.eqb_refl.
  - destruct (String.eqb k' k) eqn:Hk; simpl; by rewrite Hk.
Qed.

Lemma dict_get_set_ne {A} (d : list (string * A)) (k k' : string) (v : A) :
  k <> k' -> dict_get (dict_set d k v) k' = dict_get d k'.
Proof.
  intros Hne. induction d as [|[k0 v0] d IH]; simpl.
  - by apply String.eqb_neq in Hne as ->.
  - destruct (String.eqb k0 k) eqn:Hk; simpl.
    + apply String.eqb_eq in Hk as ->. by apply String.eqb_neq in Hne as ->.
    + by rewrite IH.
Qed.

Lemma dict_count_absent {A} (d : list (string * A)) (k : string) :
  dict_get d k = None -> dict_count d k = 0%nat.
Proof.
  unfold dict_count. induction d as [|[k' v'] d IH]; simpl; [done|].
  destruct (String.eqb k' k); [done|]. apply IH.
Qed.

Lemma dict_count_new {A} (d : list (string * A)) (k : string) (v : A) :
  dict_get d k = None -> dict_count (d ++ [(k, v)]) k = 1%nat.
Proof.
  intros H. unfold dict_count. rewrite List.filter_app, length_app.
  fold (dict_count d k). rewrite (dict_count_absent d k H). simpl.
  by rewrite String.eqb_refl.
Qed.

(** ** The download of a resource that is not a directory *)

Section Leaf.

Context (E : Env).

(** What [_update_cache_record] leaves. *)
Lemma recorded_proj (r : Resource) (d : list (string * pyval)) (st : state) :
  cache_dict st = PDict d ->
  heap (recorded E r st) = heap st /\
  cache_dir (recorded E r st) = cache_dir st /\
  cache_file (recorded E r st) = cache_file st /\
  ticks (recorded E r st) = S (ticks st) /\
  cache_dict (recorded E r st) =
    PDict (dict_set d (name r) (record_of r (clock E (ticks st)))) /\
  files (recorded E r st) =
    <[cache_file st := dumped E (cache_dict (recorded E r st))]> (files st) /\
  trace (recorded E r st) =
    trace st ++ [EvWrite (cache_file st) (dumped E (cache_dict (recorded E r st)))].
Proof. intros Hd. unfold recorded. by rewrite Hd. Qed.

(** The call returns: every URL was retrieved, in order, and the record
    was written last. *)
Lemma leaf_ok (n a : nat) (cache : bool) (r : Resource)
    (store : list (string * pyval)) (paths : pyval) (st st' : state) :
  heap st !! a = Some r ->
  is_dir r = false ->
  cache_dict st = PDict store ->
  fetched E a cache st ->
  _download_or_cache_rec E (S n) a cache st = (Ok paths, st') ->
  heap st' = heap st /\
  cache_dir st' = cache_dir st /\
  cache_file st' = cache_file st /\
  (ticks st < ticks st')%nat /\
  cache_dict st' =
    PDict (dict_set store (name r) (record_of r (clock E (ticks st' - 1)))) /\
  files st' = <[cache_file st := dumped E (cache_dict st')]> (files st) /\
  trace st' =
    trace st ++ downloading (name r)
      :: List.map (retrieve_event (cache_dir st) r) (urls_list (url_s r))
      ++ [EvWrite (cache_file st) (dumped E (cache_dict st'))].
Proof.
  intros Hr Hdir Hd (r' & d & expired & st1 & Hr' & Hd' & Hc & Hgo)%fetched_inv.
  assert (r' = r) as -> by congruence.
  assert (d = store) as -> by congruence. clear Hr' Hd'.
  rewrite (rec_leaf E _ _ _ _ _ _ _ _ Hr Hd Hdir Hc Hgo).
  destruct (frame_of_check E _ _ _ _ _ Hc) as (Hh & Hcd & Hdr & Hcf & Hf & Htr).
  assert (Hticks : (ticks st <= ticks st1)%nat).
  { destruct (check_expired_frame E (default (PDict []) (dict_get store (name r))) a st)
      as [Hfr|Hfr]; rewrite Hc in Hfr; simpl in Hfr; subst st1; simpl; lia. }
  destruct (fetch_urls_run E r (emit (downloading (name r)) st1))
    as (k & Hk & Hst & Hok).
  destruct (fetch_urls E r _) as [[v|e] st2]; [|done].
  intros [= <- <-]. simpl in Hst. specialize (Hok _ eq_refl). subst k.
  rewrite List.firstn_all in Hst.
  assert (Hd2 : cache_dict st2 = PDict store) by (subst st2; simpl; congruence).
  destruct (recorded_proj r store st2 Hd2)
    as (Hh' & Hdr' & Hcf' & Hti' & Hcd' & Hf' & Htr').
  rewrite Hf', Htr', Hh', Hdr', Hcf', Hti'.
  replace (S (ticks st2) - 1)%nat with (ticks st2) by lia.
  rewrite Hcd'.
  subst st2.
  cbn [advance emit cache_dict heap cache_dir cache_file dirs files ticks trace].
  rewrite Hh, Hdr, Hcf, Hf, Htr.
  repeat (split; [done || lia|]).
  by rewrite <- !app_assoc.
Qed.

(** The call raises after the decision to download: a call to pooch
    failed; the URLs before it were retrieved and nothing was recorded. *)
Lemma leaf_raise (n a : nat) (cache : bool) (r : Resource)
    (store : list (string * pyval)) (e : exn) (st st' : state) :
  heap st !! a = Some r ->
  is_dir r = false ->
  cache_dict st = PDict store ->
  fetched E a cache st ->
  _download_or_cache_rec E (S n) a cache st = (Raise e, st') ->
  heap st' = heap st /\
  cache_dir st' = cache_dir st /\
  cache_file st' = cache_file st /\
  cache_dict st' = cache_dict st /\
  files st' = files st /\
  exists k : nat,
    (k <= List.length (urls_list (url_s r)))%nat /\
    trace st' =
      trace st ++ downloading (name r)
        :: List.map (retrieve_event (cache_dir st) r)
             (List.firstn k (urls_list (url_s r))).
Proof.
  intros Hr Hdir Hd (r' & d & expired & st1 & Hr' & Hd' & Hc & Hgo)%fetched_inv.
  assert (r' = r) as -> by congruence.
  assert (d = store) as -> by congruence. clear Hr' Hd'.
  rewrite (rec_leaf E _ _ _ _ _ _ _ _ Hr Hd Hdir Hc Hgo).
  destruct (frame_of_check E _ _ _ _ _ Hc) as (Hh & Hcd & Hdr & Hcf & Hf & Htr).
  destruct (fetch_urls_run E r (emit (downloading (name r)) st1))
    as (k & Hk & Hst & Hok).
  destruct (fetch_urls E r _) as [[v|e'] st2]; [done|].
  intros [= <- <-]. simpl in Hst. subst st2.
  cbn [advance emit cache_dict heap cache_dir cache_file dirs files ticks trace].
  rewrite Hh, Hdr, Hcf, Hf, Htr, Hcd.
  repeat (split; [done|]). exists k. split; [done|].
  by rewrite <- !app_assoc.
Qed.

End Leaf.

(** ** The download of a directory resource *)

Lemma dict_set_set {A} (d : list (string * A)) (k : string) (v1 v2 : A) :
  dict_set (dict_set d k v1) k v2 = dict_set d k v2.
Proof.
  induction d as [|[k' v'] d IH]; simpl.
  - by rewrite String.eqb_refl.
  - destruct (String.eqb k' k) eqn:Hk; simpl; rewrite Hk; [done|]. by rewrite IH.
Qed.

Section Directory.

Context (E : Env).

Lemma expanded_fields (r : Resource) (names : list string) :
  name (expanded r names) = name r /\
  lifetime (expanded r names) = lifetime r /\
  is_dir (expanded r names) = false.
Proof. unfold expanded. by destruct (url_s r). Qed.

(** The second frame sees the same record: when time does not go
    backwards it downloads as the first one did. *)
Lemma fetched_later (a : nat) (cache : bool) (r r' : Resource)
    (st st' : state) :
  clock_monotone E ->
  heap st !! a = Some r ->
  heap st' !! a = Some r' ->
  name r' = name r ->
  lifetime r' = lifetime r ->
  cache_dict st' = cache_dict st ->
  (ticks st <= ticks st')%nat ->
  fetched E a cache st ->
  fetched E a cache st'.
Proof.
  intros Hmono Hr Hr' Hname Hlife Hcd Hticks.
  intros (r0 & d & expired & st1 & Hr0 & Hd & Hc & Hgo)%fetched_inv.
  assert (r0 = r) as -> by congruence. clear Hr0.
  apply fetched_inv.
  rewrite (check_expired_deadline E _ a r st Hr) in Hc.
  pose proof (check_expired_deadline E
                (default (PDict []) (dict_get d (name r))) a r' st' Hr') as Hc'.
  rewrite Hlife in Hc'.
  destruct (deadline E _ (lifetime r)) as [[limit|]|e]; [| |done].
  - injection Hc as <- <-.
    exists r', d, (limit <? clock E (ticks st')), (tick st').
    rewrite Hname. split; [done|]. split; [congruence|]. split; [done|].
    apply orb_true_iff in Hgo as [Hexp|Hcache]; [|by rewrite Hcache, orb_true_r].
    apply Z.ltb_lt in Hexp. specialize (Hmono _ _ Hticks).
    replace (limit <? clock E (ticks st')) with true; [done|].
    symmetry. apply Z.ltb_lt. lia.
  - exists r', d, true, st'. rewrite Hname.
    split; [done|]. split; [congruence|]. by split.
Qed.

(** A resource without a record is downloaded. *)
Lemma fetched_unseen (a : nat) (cache : bool) (r : Resource)
    (store : list (string * pyval)) (st : state) :
  heap st !! a = Some r ->
  cache_dict st = PDict store ->
  dict_get store (name r) = None ->
  fetched E a cache st.
Proof.
  intros Hr Hd Hnone. apply fetched_inv. exists r, store, true, st.
  rewrite Hnone. by repeat split.
Qed.

(** The whole of a directory download, when the listing succeeds and the
    second frame downloads. *)
Lemma dir_run (n a : nat) (cache expired : bool) (r : Resource) (u : string)
    (store : list (string * pyval)) (names : list string) (st st1 : state) :
  heap st !! a = Some r ->
  is_dir r = true ->
  url_s r = Url u ->
  PyStr.startswith u "ftp://" = true ->
  cache_dict st = PDict store ->
  check_expired E (default (PDict []) (dict_get store (name r))) a st
    = (Ok expired, st1) ->
  expired || negb cache = true ->
  ftp_nlst E (ticks st1) (ftp_host u) (ftp_dir u) = Ok names ->
  fetched E a cache
    (set_heap (<[a := expanded r names]> (heap st))
       (advance 1 [EvFtp (ftp_host u) (ftp_dir u)]
          (emit (downloading (name r)) st1))) ->
  forall res st',
    _download_or_cache_rec E (S (S n)) a cache st = (res, st') ->
    heap st' = <[a := expanded r names]> (heap st) /\
    cache_dir st' = cache_dir st /\
    cache_file st' = cache_file st /\
    exists (k : nat) (tail : list event),
      (k <= List.length names)%nat /\
      trace st' =
        trace st ++
          [downloading (name r); EvFtp (ftp_host u) (ftp_dir u);
           downloading (name r)] ++
          List.map (retrieve_event (cache_dir st) (expanded r names))
            (List.firstn k (List.map (fun file => u +:+ "/" +:+ file) names)) ++
          tail /\
      match res with
      | Ok _ =>
          k = List.length names /\
          (0 < ticks st')%nat /\
          cache_dict st' =
            PDict (dict_set store (name r)
                     (record_of (expanded r names) (clock E (ticks st' - 1)))) /\
          files st' = <[cache_file st := dumped E (cache_dict st')]> (files st) /\
          exists text, tail = [EvWrite (cache_file st) text;
                               EvWrite (cache_file st) (dumped E (cache_dict st'))]
      | Raise _ =>
          cache_dict st' = cache_dict st /\ files st' = files st /\ tail = []
      end.
Proof.
  intros Hr Hdir Hu Hftp Hd Hc Hgo Hlist Hin res st'.
  rewrite (rec_dir E _ _ _ _ _ _ _ _ _ Hr Hd Hdir Hu Hftp Hc Hgo), Hlist.
  destruct (frame_of_check E _ _ _ _ _ Hc) as (Hh & Hcd & Hdr & Hcf & Hf & Htr).
  set (r' := expanded r names) in *.
  destruct (expanded_fields r names) as (Hname & Hlife & Hdir').
  fold r' in Hname, Hlife, Hdir'.
  set (st2 := set_heap _ _) in *.
  assert (Hr2 : heap st2 !! a = Some r') by apply lookup_insert_eq.
  assert (Hd2 : cache_dict st2 = PDict store) by (subst st2; simpl; congruence).
  assert (Hurls : urls_list (url_s r') = List.map (fun file => u +:+ "/" +:+ file) names)
    by (subst r'; unfold expanded; by rewrite Hu).
  destruct (_download_or_cache_rec E (S n) a cache st2) as [[paths|e] st3] eqn:Hrun.
  - destruct (leaf_ok E _ _ _ _ _ _ _ _ Hr2 Hdir' Hd2 Hin Hrun)
      as (Hh3 & Hdr3 & Hcf3 & Hti3 & Hcd3 & Hf3 & Htr3).
    assert (Hr3 : heap st3 !! a = Some r') by (by rewrite Hh3).
    rewrite (_update_cache_record_run E _ _ _ _ Hr3 Hcd3).
    intros [= <- <-].
    destruct (recorded_proj E r' _ st3 Hcd3)
      as (Hh' & Hdr' & Hcf' & Hti' & Hcd' & Hf' & Htr').
    rewrite Hh', Hdr', Hcf', Hh3, Hdr3, Hcf3.
    split; [done|]. split; [subst st2; simpl; congruence|].
    split; [subst st2; simpl; congruence|].
    exists (List.length names),
      [EvWrite (cache_file st) (dumped E (cache_dict st3));
       EvWrite (cache_file st) (dumped E (cache_dict (recorded E r' st3)))].
    assert (Hcf2 : cache_file st2 = cache_file st) by (subst st2; simpl; congruence).
    split; [done|]. split.
    { rewrite Htr', Htr3, Hcf3, Hcf2, Hurls, List.firstn_all2
        by (by rewrite length_map).
      subst st2. cbn [set_heap advance emit trace cache_dir cache_file].
      rewrite Htr, Hdr, Hname. simpl. rewrite <- !app_assoc. simpl.
      by rewrite <- !app_assoc. }
    split; [done|]. split; [lia|]. split.
    { rewrite Hcd', Hti', Hname, dict_set_set.
      by replace (S (ticks st3) - 1)%nat with (ticks st3) by lia. }
    split.
    { rewrite Hf', Hf3, Hcf3, Hcf2, insert_insert_eq. subst st2. simpl.
      by rewrite Hf. }
    by eexists.
  - destruct (leaf_raise E _ _ _ _ _ _ _ _ Hr2 Hdir' Hd2 Hin Hrun)
      as (Hh3 & Hdr3 & Hcf3 & Hcd3 & Hf3 & k & Hk & Htr3).
    intros [= <- <-]. rewrite Hh3, Hdr3, Hcf3, Hcd3, Hf3.
    split; [done|]. split; [subst st2; simpl; congruence|].
    split; [subst st2; simpl; congruence|].
    rewrite Hurls, length_map in Hk.
    exists k, []. split; [done|]. split.
    { rewrite Htr3, Hurls. subst st2.
      cbn [set_heap advance emit trace cache_dir cache_file].
      rewrite Htr, Hdr, Hname, app_nil_r. simpl. rewrite <- !app_assoc. by simpl. }
    subst st2. simpl. by rewrite Hcd, Hf.
Qed.

End Directory.

(** ** Further facts on the runs *)

Section More.

Context (E : Env).


Lemma _update_cache_record_heap (a : nat) (st : state) :
  heap (_update_cache_record E a st).2 = heap st.
Proof.
  destruct (heap st !! a) as [r|] eqn:Hr.
  - unfold _update_cache_record.
    rewrite bind_run, (deref_run _ _ _ Hr), bind_run.
    unfold datetime_now, get_state. rewrite bind_run.
    change (cache_dict (tick st)) with (cache_dict st).
    by destruct (cache_dict st).
  - unfold _update_cache_record, deref. by rewrite bind_run, Hr.
Qed.

(** A resource that is not a directory is never written to. *)
Lemma leaf_heap (n a : nat) (cache : bool) (r : Resource) (st : state) :
  heap st !! a = Some r ->
  is_dir r = false ->
  heap (_download_or_cache_rec E (S n) a cache st).2 = heap st.
Proof.
  intros Hr Hdir.
  destruct (cache_dict st) as [| | | | | |d] eqn:Hd;
    try (destruct (rec_no_lookup E 0 a cache st) as [e He];
         [right; congruence | by rewrite He]).
  destruct (check_expired E (default (PDict []) (dict_get d (name r))) a st)
    as [[expired|e] st1] eqn:Hc.
  - destruct (frame_of_check E _ _ _ _ _ Hc) as (Hh & Hcd & _).
    destruct (expired || negb cache) eqn:Hgo.
    + rewrite (rec_leaf E _ _ _ _ _ _ _ _ Hr Hd Hdir Hc Hgo).
      destruct (fetch_urls_run E r (emit (downloading (name r)) st1))
        as (k & _ & Hst & _).
      destruct (fetch_urls E r _) as [[v|e] st2]; simpl in Hst; subst st2;
        [|done].
      simpl. unfold recorded. simpl. by destruct (cache_dict st1).
    + apply orb_false_elim in Hgo as [-> Hcache].
      apply negb_false_iff in Hcache as ->.
      by rewrite (rec_hit E _ _ _ _ _ _ Hr Hd Hc).
  - rewrite (rec_raise E _ _ _ _ _ _ _ _ Hr Hd Hc). simpl.
    destruct (check_expired_frame E (default (PDict []) (dict_get d (name r))) a st)
      as [Hf|Hf]; rewrite Hc in Hf; simpl in Hf; by subst st1.
Qed.

(** When pooch answers every call, the retrieval returns. *)
Lemma for_each_retrieve_ok (fname : string -> string) (path : string)
    (l : list string) (st : state) :
  pooch_succeeds E ->
  exists paths st',
    for_each (fun url => _retrieve E url (fname url) path None) l st
      = (Ok paths, st').
Proof.
  intros Hok. revert st. induction l as [|url l IH]; intros st.
  - by eexists _, _.
  - cbn [for_each]. rewrite bind_run, _retrieve_run.
    destruct (Hok (ticks st) url None (fname url) path (processor_of (fname url)))
      as [v ->].
    destruct (IH (advance 1 [EvRetrieve url (fname url) path
                               (processor_of (fname url))] st))
      as (paths & st' & Hrun).
    rewrite bind_run, Hrun. by eexists _, _.
Qed.

Lemma fetch_urls_ok (r : Resource) (st : state) :
  pooch_succeeds E ->
  exists v st', fetch_urls E r st = (Ok v, st').
Proof.
  intros Hok. unfold fetch_urls. rewrite bind_run. unfold get_state.
  destruct (url_s r) as [u|l].
  - rewrite _retrieve_run.
    destruct (Hok (ticks st) u None (basename u)
                (os_path_join (cache_dir st) (name r))
                (processor_of (basename u))) as [v ->].
    by eexists _, _.
  - destruct (for_each_retrieve_ok
                (fun url => name r +:+ "_" +:+ basename url)
                (os_path_join (cache_dir st) (name r)) l st Hok)
      as (paths & st' & Hrun).
    rewrite bind_run, Hrun. by eexists _, _.
Qed.




End More.

(** ** The freshness decision *)

(** Whenever the decision classifies a resource that has a record, it has
    read an ISO string as download time and compared the sum with the
    clock: there is no other way to a classification. *)
Lemma check_expired_classifies (E : Env) (rec : pyval) (a : nat) (r : Resource)
    (b : bool) (st st1 : state) :
  heap st !! a = Some r ->
  truthy rec = true ->
  check_expired E rec a st = (Ok b, st1) ->
  exists fields s dl,
    rec = PDict fields /\
    dict_get fields "date_downloaded" = Some (PStr s) /\
    fromisoformat E s = Some dl /\
    st1 = tick st /\
    b = (dl + lifetime r * us_per_day <? clock E (ticks st)).
Proof.
  intros Hr Htrue. rewrite (check_expired_deadline E rec a r st Hr).
  unfold deadline. rewrite Htrue.
  destruct rec as [| | | | | |fields]; try done. simpl py_get.
  destruct (dict_get fields "date_downloaded") as [[| | |s| | |]|] eqn:Hdate;
    try done.
  simpl. destruct (fromisoformat E s) as [dl|] eqn:Hparse; [|done].
  unfold timedelta_days.
  destruct (Z.abs (lifetime r) <=? 999999999); [|done].
  unfold datetime_add.
  destruct ((0 <=? dl + lifetime r * us_per_day)
            && (dl + lifetime r * us_per_day <? datetime_end)); [|done].
  intros [= <- <-]. by exists fields, s, dl.
Qed.

(** A record read from the cache file, whose timestamp is an ISO string
    without a UTC offset: the decision computes the download time plus
    the lifetime in days and classifies the resource as expired if and
    only if that instant is before the reading of the clock; the call
    enters the download branch exactly when the resource is expired or the
    caller bypasses the cache, and otherwise leaves no trace.  The lifetime
    and the sum are taken within the range of [timedelta] and
    [datetime].  A record that the running [Downloader] wrote itself is
    not of this kind: see [same_run_record_raises]. *)
Theorem freshness_decision (E : Env) (a : nat) (cache : bool) (r : Resource)
    (store fields : list (string * pyval)) (s : string) (dl : Z) (st : state) :
  heap st !! a = Some r ->
  cache_dict st = PDict store ->
  dict_get store (name r) = Some (PDict fields) ->
  dict_get fields "date_downloaded" = Some (PStr s) ->
  fromisoformat E s = Some dl ->
  Z.abs (lifetime r) <= 999999999 ->
  0 <= dl + lifetime r * us_per_day < datetime_end ->
  exists expired : bool,
    check_expired E (PDict fields) a st = (Ok expired, tick st) /\
    (expired = true <-> dl + lifetime r * us_per_day < clock E (ticks st)) /\
    (fetch_started (name r) st (_download_or_cache E a cache st).2 <->
     expired = true \/ cache = false) /\
    (no_fetch st (_download_or_cache E a cache st).2 <->
     ~ (expired = true \/ cache = false)).
Proof.
  intros Hr Hd Hrec Hdate Hparse Hlt Hrange.
  assert (Hne : fields <> []) by (by destruct fields).
  pose proof (check_expired_present E fields s dl a r st Hr Hne Hdate Hparse Hlt Hrange)
    as Hc.
  set (expired := dl + lifetime r * us_per_day <? clock E (ticks st)) in *.
  exists expired. split; [done|]. split.
  { subst expired. by rewrite Z.ltb_lt. }
  assert (Hc' : check_expired E (default (PDict []) (dict_get store (name r))) a st
                = (Ok expired, tick st)) by (by rewrite Hrec).
  destruct (expired || negb cache) eqn:Hgo.
  - assert (Hf : fetched E a cache st).
    { apply fetched_inv. by exists r, store, expired, (tick st). }
    pose proof (fetched_trace E 1 a cache r st Hr Hf) as Hstart.
    fold (_download_or_cache E a cache) in Hstart.
    assert (Hor : expired = true \/ cache = false).
    { apply orb_true_iff in Hgo as [?|?%negb_true_iff]; auto. }
    split; [done|]. split; [|done].
    intros Hno. by destruct (fetch_started_grows _ _ _ Hstart).
  - apply orb_false_elim in Hgo as [Hexp Hcache].
    apply negb_false_iff in Hcache. subst cache.
    destruct (not_fetched_run E 1 a r store st (tick st) Hr Hd) as [Hrun Hno];
      [by rewrite Hc', Hexp|].
    fold (_download_or_cache E a true) in Hrun. rewrite Hrun. simpl.
    assert (Hnor : ~ (expired = true \/ true = false)).
    { rewrite Hexp. intros [?|?]; discriminate. }
    split; [|done]. split; [|done].
    intros Hstart. by destruct (fetch_started_grows _ _ _ Hstart).
Qed.

Lemma freshness_decision_witness :
  exists expired : bool,
    check_expired Stub.env (Stub.record "2023-01-01 00:00:00" 7) 0%nat
      (Stub.cached "2023-01-01 00:00:00" 7)
    = (Ok expired, tick (Stub.cached "2023-01-01 00:00:00" 7)) /\
    (expired = true <->
     Stub.t0 + 7 * us_per_day < Stub.clock 0) /\
    (fetch_started "r" (Stub.cached "2023-01-01 00:00:00" 7)
       (_download_or_cache Stub.env 0%nat true (Stub.cached "2023-01-01 00:00:00" 7)).2 <->
     expired = true \/ true = false) /\
    (no_fetch (Stub.cached "2023-01-01 00:00:00" 7)
       (_download_or_cache Stub.env 0%nat true (Stub.cached "2023-01-01 00:00:00" 7)).2 <->
     ~ (expired = true \/ true = false)).
Proof.
  apply (freshness_decision Stub.env 0%nat true (Stub.single 7)
           [("r", Stub.record "2023-01-01 00:00:00" 7)]
           (Stub.fields "2023-01-01 00:00:00" 7)
           "2023-01-01 00:00:00" Stub.t0
           (Stub.cached "2023-01-01 00:00:00" 7)).
  - reflexivity.
  - reflexivity.
  - reflexivity.
  - reflexivity.
  - reflexivity.
  - vm_compute. discriminate.
  - vm_compute. split; [discriminate | reflexivity].
Defined.

(** [download] of a single resource. *)
Lemma download_one (E : Env) (a : nat) (st : state) :
  download E [a] st =
    match _download_or_cache E a true st with
    | (Ok v, st') =>
        (match v with PList l => Ok (l ++ []) | _ => Ok [v] end, st')
    | (Raise e, st') => (Raise e, st')
    end.
Proof.
  unfold download. rewrite bind_run. cbn [for_each]. rewrite bind_run.
  destruct (_download_or_cache E a true st) as [[v|e] st']; [|done].
  rewrite bind_run. unfold ret at 1 2. cbv beta iota.
  by destruct v.
Qed.

Lemma download_one_state (E : Env) (a : nat) (st : state) :
  (download E [a] st).2 = (_download_or_cache E a true st).2.
Proof.
  rewrite download_one.
  by destruct (_download_or_cache E a true st) as [[v|e] st'].
Qed.

(** A record whose timestamp is a [datetime] object, as
    [_update_cache_record] leaves it in the store of the running process:
    [fromisoformat] refuses it. *)
Lemma check_expired_datetime (E : Env) (fields : list (string * pyval))
    (t : Z) (a : nat) (st : state) :
  dict_get fields "date_downloaded" = Some (PDatetime t) ->
  check_expired E (PDict fields) a st = (Raise TypeError, st).
Proof.
  intros Hdate. unfold check_expired.
  replace (truthy (PDict fields)) with true by (by destruct fields).
  unfold lift, py_get. by rewrite bind_run, Hdate.
Qed.

(** C1 (what the code does on a second call): with a record read from the
    cache file and a clock that has not passed the download time plus the
    lifetime, [download] makes no fetch and returns [None] for the
    resource, not a path; with a record written earlier in the same run,
    whose timestamp is a [datetime] object, [download] raises [TypeError]
    whatever the clock says, so it neither hits the cache nor fetches
    again. *)
Theorem second_download_diverges (E : Env) (a : nat) (r : Resource)
    (store fields : list (string * pyval)) (st : state) :
  heap st !! a = Some r ->
  cache_dict st = PDict store ->
  dict_get store (name r) = Some (PDict fields) ->
  (forall s dl,
     dict_get fields "date_downloaded" = Some (PStr s) ->
     fromisoformat E s = Some dl ->
     Z.abs (lifetime r) <= 999999999 ->
     0 <= dl + lifetime r * us_per_day < datetime_end ->
     clock E (ticks st) <= dl + lifetime r * us_per_day ->
     download E [a] st = (Ok [PNone], tick st)) /\
  (forall t,
     dict_get fields "date_downloaded" = Some (PDatetime t) ->
     download E [a] st = (Raise TypeError, st)).
Proof.
  intros Hr Hd Hrec. split.
  - intros s dl Hdate Hparse Hlt Hrange Hnow.
    assert (Hne : fields <> []) by (by destruct fields).
    pose proof (check_expired_present E fields s dl a r st Hr Hne Hdate Hparse Hlt Hrange)
      as Hc.
    replace (dl + lifetime r * us_per_day <? clock E (ticks st)) with false in Hc
      by (symmetry; apply Z.ltb_ge; lia).
    rewrite download_one. unfold _download_or_cache.
    by rewrite (rec_hit E 1 a r store st (tick st) Hr Hd) by (by rewrite Hrec).
  - intros t Hdate. rewrite download_one. unfold _download_or_cache.
    rewrite (rec_raise E 1 a true r store TypeError st st Hr Hd); [done|].
    rewrite Hrec. by apply (check_expired_datetime E fields t).
Qed.

Lemma second_download_diverges_witness :
  download Stub.env [0%nat] (Stub.cached "2023-01-01 00:00:00" 7)
    = (Ok [PNone], tick (Stub.cached "2023-01-01 00:00:00" 7)).
Proof.
  apply (proj1 (second_download_diverges Stub.env 0%nat (Stub.single 7)
                  [("r", Stub.record "2023-01-01 00:00:00" 7)]
                  (Stub.fields "2023-01-01 00:00:00" 7)
                  (Stub.cached "2023-01-01 00:00:00" 7)
                  eq_refl eq_refl eq_refl)
               "2023-01-01 00:00:00" Stub.t0).
  - reflexivity.
  - reflexivity.
  - vm_compute. discriminate.
  - vm_compute. split; [discriminate | reflexivity].
  - vm_compute. discriminate.
Defined.

(** The same resource twice in one call, on a [Downloader] that has never
    seen it: the first download succeeds and leaves a [datetime] object in
    the store, the second raises [TypeError]. *)
Example download_twice_raises :
  (download Stub.env [0%nat; 0%nat] (Stub.unseen (Stub.single 7))).1
    = Raise TypeError /\
  (download Stub.env [0%nat] (Stub.unseen (Stub.single 7))).1
    = Ok [PStr "cache/r/x.txt"] /\
  (download Stub.env [0%nat]
     (download Stub.env [0%nat] (Stub.unseen (Stub.single 7))).2).1
    = Raise TypeError.
Proof. by vm_compute. Qed.

(** C3 (what the code does with lifetime 0): a record with lifetime 0 is
    expired as soon as the clock has passed its download time, and the
    next call downloads the resource again. *)
Theorem lifetime_zero_expires (E : Env) (a : nat) (r : Resource)
    (store fields : list (string * pyval)) (s : string) (dl : Z) (st : state) :
  heap st !! a = Some r ->
  cache_dict st = PDict store ->
  dict_get store (name r) = Some (PDict fields) ->
  dict_get fields "date_downloaded" = Some (PStr s) ->
  fromisoformat E s = Some dl ->
  0 <= dl < datetime_end ->
  lifetime r = 0 ->
  dl < clock E (ticks st) ->
  check_expired E (PDict fields) a st = (Ok true, tick st) /\
  fetch_started (name r) st (download E [a] st).2.
Proof.
  intros Hr Hd Hrec Hdate Hparse Hrange Hzero Hnow.
  assert (Hne : fields <> []) by (by destruct fields).
  pose proof (check_expired_present E fields s dl a r st Hr Hne Hdate Hparse) as Hc.
  rewrite Hzero in Hc. rewrite Z.mul_0_l, Z.add_0_r in Hc.
  specialize (Hc ltac:(simpl; lia) Hrange).
  replace (dl <? clock E (ticks st)) with true in Hc
    by (symmetry; apply Z.ltb_lt; lia).
  split; [done|]. rewrite download_one_state.
  apply (fetched_trace E 1 a true r st Hr).
  apply fetched_inv. exists r, store, true, (tick st).
  by rewrite Hrec.
Qed.

Lemma lifetime_zero_expires_witness :
  check_expired Stub.env (Stub.record "2023-01-01 00:00:00" 0) 0%nat
    (Stub.cached "2023-01-01 00:00:00" 0)
    = (Ok true, tick (Stub.cached "2023-01-01 00:00:00" 0)) /\
  fetch_started "r" (Stub.cached "2023-01-01 00:00:00" 0)
    (download Stub.env [0%nat] (Stub.cached "2023-01-01 00:00:00" 0)).2.
Proof.
  apply (lifetime_zero_expires Stub.env 0%nat (Stub.single 0)
           [("r", Stub.record "2023-01-01 00:00:00" 0)]
           (Stub.fields "2023-01-01 00:00:00" 0)
           "2023-01-01 00:00:00" Stub.t0
           (Stub.cached "2023-01-01 00:00:00" 0)).
  - reflexivity.
  - reflexivity.
  - reflexivity.
  - reflexivity.
  - reflexivity.
  - vm_compute. split; [discriminate | reflexivity].
  - reflexivity.
  - vm_compute. reflexivity.
Defined.

(** The run of the test double: the file is fetched again one hour after
    the download that the record tells of. *)
Example lifetime_zero_refetched :
  (download Stub.env [0%nat] (Stub.cached "2023-01-01 00:00:00" 0)).1
    = Ok [PStr "cache/r/x.txt"] /\
  trace (download Stub.env [0%nat] (Stub.cached "2023-01-01 00:00:00" 0)).2
    = [EvLog "Downloading resource r.";
       EvRetrieve "http://h/x.txt" "x.txt" "cache/r" None;
       EvWrite "cache/cache.json" "{...}"].
Proof. by vm_compute. Qed.

(** ** A record that the running [Downloader] wrote *)

(** C2 (what the code does with a record of its own): after a download
    that returned, the record of the resource is present in the store and
    holds the download time as a [datetime] object, not as a string.  On
    that record the freshness decision computes no sum and no comparison:
    it raises [TypeError] at [fromisoformat], whatever the clock and the
    lifetime say.  The next call for the resource raises with it and makes
    no call to pooch or to the FTP server, also when the caller bypasses
    the cache ([cache'] is [false]) and also when the lifetime has long
    passed. *)
Theorem same_run_record_raises (E : Env) (a : nat) (cache cache' : bool)
    (r : Resource) (store : list (string * pyval)) (paths : pyval)
    (st st' : state) :
  heap st !! a = Some r ->
  is_dir r = false ->
  cache_dict st = PDict store ->
  fetched E a cache st ->
  _download_or_cache E a cache st = (Ok paths, st') ->
  exists (store' : list (string * pyval)) (t : Z),
    heap st' !! a = Some r /\
    cache_dict st' = PDict store' /\
    dict_get store' (name r) = Some (record_of r t) /\
    check_expired E (record_of r t) a st' = (Raise TypeError, st') /\
    _download_or_cache E a cache' st' = (Raise TypeError, st') /\
    no_fetch st' (_download_or_cache E a cache' st').2 /\
    (cache' = true -> download E [a] st' = (Raise TypeError, st')).
Proof.
  intros Hr Hdir Hd Hf Hrun. unfold _download_or_cache in Hrun.
  destruct (leaf_ok E _ _ _ _ _ _ _ _ Hr Hdir Hd Hf Hrun)
    as (Hh' & _ & _ & _ & Hcd' & _).
  set (t := clock E (ticks st' - 1)) in *.
  assert (Hr' : heap st' !! a = Some r) by (by rewrite Hh').
  assert (Hc : check_expired E (record_of r t) a st' = (Raise TypeError, st'))
    by (by apply (check_expired_datetime E _ t)).
  assert (Hraise : forall c, _download_or_cache E a c st' = (Raise TypeError, st')).
  { intros c. unfold _download_or_cache.
    apply (rec_raise E 1 a c r _ TypeError st' st' Hr' Hcd').
    by rewrite dict_get_set. }
  exists (dict_set store (name r) (record_of r t)), t.
  split; [done|]. split; [done|]. split; [apply dict_get_set|].
  split; [done|]. split; [apply Hraise|]. split.
  - by rewrite Hraise.
  - intros ->. by rewrite download_one, Hraise.
Qed.

Lemma same_run_record_raises_witness :
  exists (store' : list (string * pyval)) (t : Z),
    heap (_download_or_cache Stub.env 0%nat true (Stub.unseen (Stub.single 7))).2
      !! 0%nat = Some (Stub.single 7) /\
    cache_dict (_download_or_cache Stub.env 0%nat true (Stub.unseen (Stub.single 7))).2
      = PDict store' /\
    dict_get store' "r" = Some (record_of (Stub.single 7) t) /\
    check_expired Stub.env (record_of (Stub.single 7) t) 0%nat
      (_download_or_cache Stub.env 0%nat true (Stub.unseen (Stub.single 7))).2
    = (Raise TypeError,
       (_download_or_cache Stub.env 0%nat true (Stub.unseen (Stub.single 7))).2) /\
    _download_or_cache Stub.env 0%nat false
      (_download_or_cache Stub.env 0%nat true (Stub.unseen (Stub.single 7))).2
    = (Raise TypeError,
       (_download_or_cache Stub.env 0%nat true (Stub.unseen (Stub.single 7))).2) /\
    no_fetch
      (_download_or_cache Stub.env 0%nat true (Stub.unseen (Stub.single 7))).2
      (_download_or_cache Stub.env 0%nat false
         (_download_or_cache Stub.env 0%nat true (Stub.unseen (Stub.single 7))).2).2 /\
    (false = true ->
     download Stub.env [0%nat]
       (_download_or_cache Stub.env 0%nat true (Stub.unseen (Stub.single 7))).2
     = (Raise TypeError,
        (_download_or_cache Stub.env 0%nat true (Stub.unseen (Stub.single 7))).2)).
Proof.
  apply (same_run_record_raises Stub.env 0%nat true false (Stub.single 7) []
           (PStr "cache/r/x.txt") (Stub.unseen (Stub.single 7))).
  - reflexivity.
  - reflexivity.
  - reflexivity.
  - reflexivity.
  - vm_compute. reflexivity.
Defined.

(** The run of the test double: a download, then a call that bypasses the
    cache on the same [Downloader].  The second call raises and asks for
    nothing: the trace is that of the first call. *)
Example bypass_after_download_raises :
  (_download_or_cache Stub.env 0%nat false
     (download Stub.env [0%nat] (Stub.unseen (Stub.single 7))).2).1
    = Raise TypeError /\
  trace (_download_or_cache Stub.env 0%nat false
           (download Stub.env [0%nat] (Stub.unseen (Stub.single 7))).2).2
    = [EvLog "Downloading resource r.";
       EvRetrieve "http://h/x.txt" "x.txt" "cache/r" None;
       EvWrite "cache/cache.json" "{...}"].
Proof. by vm_compute. Qed.

(** ** Directory resources *)

(** C8 (what the code does with another scheme): when the call downloads a
    directory resource whose URL does not start with [ftp://],
    [_get_files] reads its local variable [files] before any assignment:
    the call raises [UnboundLocalError], not an error that tells of the
    scheme.  It does not return an empty result either: nothing is
    listed, retrieved or recorded, the log line is all that is left. *)
Theorem directory_scheme_unbound (E : Env) (a : nat) (cache : bool)
    (r : Resource) (u : string) (st : state) :
  heap st !! a = Some r ->
  is_dir r = true ->
  url_s r = Url u ->
  PyStr.startswith u "ftp://" = false ->
  fetched E a cache st ->
  exists st',
    _download_or_cache E a cache st = (Raise UnboundLocalError, st') /\
    trace st' = trace st ++ [downloading (name r)] /\
    heap st' = heap st /\ cache_dict st' = cache_dict st /\
    files st' = files st.
Proof.
  intros Hr Hdir Hu Hftp (r' & d & expired & st1 & Hr' & Hd & Hc & Hgo)%fetched_inv.
  assert (r' = r) as -> by congruence.
  destruct (frame_of_check E _ _ _ _ _ Hc) as (Hh & Hcd & _ & _ & Hf & Htr).
  exists (emit (downloading (name r)) st1). split.
  - apply (rec_dir_unsupported E 1 a cache expired r u d st st1); done.
  - simpl. by rewrite Htr.
Qed.

Lemma directory_scheme_unbound_witness :
  exists st',
    _download_or_cache Stub.env 0%nat true
      (Stub.unseen (Stub.directory "http://host/pub/dir"))
    = (Raise UnboundLocalError, st') /\
    trace st' = [] ++ [downloading "d"] /\
    heap st' = heap (Stub.unseen (Stub.directory "http://host/pub/dir")) /\
    cache_dict st' = PDict [] /\
    files st' = files (Stub.unseen (Stub.directory "http://host/pub/dir")).
Proof.
  exact (directory_scheme_unbound Stub.env 0%nat true
           (Stub.directory "http://host/pub/dir") "http://host/pub/dir"
           (Stub.unseen (Stub.directory "http://host/pub/dir"))
           eq_refl eq_refl eq_refl eq_refl eq_refl).
Defined.



(** C10: [download] of a directory resource writes to the object that the
    caller passed.  When the call downloads the resource and returns, the
    object at the caller's address has [is_dir] false and, as [url_s], the
    list of the per-file URLs of the names that the server listed, in
    place of the base URL; its name and lifetime are as before and the
    other objects are untouched. *)
Theorem download_mutates_resource (E : Env) (a : nat) (r : Resource)
    (u : string) (paths : list pyval) (st st' : state) :
  heap st !! a = Some r ->
  is_dir r = true ->
  url_s r = Url u ->
  fetched E a true st ->
  download E [a] st = (Ok paths, st') ->
  exists (names : list string) (k : nat),
    ftp_nlst E k (ftp_host u) (ftp_dir u) = Ok names /\
    heap st' =
      <[a := mkResource (name r)
               (Urls (List.map (fun file => u +:+ "/" +:+ file) names))
               (lifetime r) false]> (heap st) /\
    heap st' !! a <> Some r.
Proof.
  intros Hr Hdir Hu (r0 & d & expired & st1 & Hr0 & Hd & Hc & Hgo)%fetched_inv Hrun.
  assert (r0 = r) as -> by congruence. clear Hr0.
  rewrite download_one in Hrun.
  destruct (_download_or_cache E a true st) as [[v|e] st0] eqn:Hrun0; [|done].
  assert (st0 = st') as -> by (by destruct v; injection Hrun).
  clear Hrun. unfold _download_or_cache in Hrun0.
  destruct (PyStr.startswith u "ftp://") eqn:Hftp;
    [|by rewrite (rec_dir_unsupported E _ _ _ _ _ _ _ _ _ Hr Hd Hdir Hu Hftp Hc Hgo)
         in Hrun0].
  rewrite (rec_dir E _ _ _ _ _ _ _ _ _ Hr Hd Hdir Hu Hftp Hc Hgo) in Hrun0.
  destruct (ftp_nlst E (ticks st1) (ftp_host u) (ftp_dir u)) as [names|e] eqn:Hlist;
    [|done].
  exists names, (ticks st1). split; [done|].
  assert (Hexp : expanded r names =
                 mkResource (name r)
                   (Urls (List.map (fun file => u +:+ "/" +:+ file) names))
                   (lifetime r) false)
    by (unfold expanded; by rewrite Hu).
  rewrite Hexp in Hrun0.
  match type of Hrun0 with context [_download_or_cache_rec E 1 a true ?s] =>
    pose proof (leaf_heap E 0 a true _ s (lookup_insert_eq _ _ _) eq_refl) as Hheap
  end.
  destruct (_download_or_cache_rec E 1 a true _) as [[v'|e] st3]; [|done].
  pose proof (_update_cache_record_heap E a st3) as Hheap'.
  destruct (_update_cache_record E a st3) as [[[]|e] st4]; [|done].
  injection Hrun0 as _ <-. simpl in Hheap, Hheap'.
  assert (Hfinal : heap st4 =
            <[a := mkResource (name r)
                     (Urls (List.map (fun file => u +:+ "/" +:+ file) names))
                     (lifetime r) false]> (heap st))
    by (by rewrite Hheap', Hheap).
  split; [done|].
  rewrite Hfinal, lookup_insert_eq. intros [= Heq].
  rewrite <- Heq in Hdir. discriminate.
Qed.

Lemma download_mutates_resource_witness :
  exists (names : list string) (k : nat),
    ftp_nlst Stub.env k (ftp_host "ftp://host/pub/dir") (ftp_dir "ftp://host/pub/dir")
      = Ok names /\
    heap (download Stub.env [0%nat] (Stub.unseen (Stub.directory "ftp://host/pub/dir"))).2 =
      <[0%nat := mkResource "d"
               (Urls (List.map (fun file => "ftp://host/pub/dir" +:+ "/" +:+ file) names))
               0 false]> (heap (Stub.unseen (Stub.directory "ftp://host/pub/dir"))) /\
    heap (download Stub.env [0%nat] (Stub.unseen (Stub.directory "ftp://host/pub/dir"))).2
      !! 0%nat <> Some (Stub.directory "ftp://host/pub/dir").
Proof.
  apply (download_mutates_resource Stub.env 0%nat
           (Stub.directory "ftp://host/pub/dir") "ftp://host/pub/dir"
           [PStr "cache/d/d_a.txt"; PStr "cache/d/d_b.gz.decomp"]
           (Stub.unseen (Stub.directory "ftp://host/pub/dir"))).
  - reflexivity.
  - reflexivity.
  - reflexivity.
  - reflexivity.
  - by vm_compute.
Defined.

(** ** The first download of a resource *)

(** The record of a first download.  For a resource whose name has no
    record in the store, [download] enters the download branch.  When the
    call returns, the store holds
    one record under the name of the resource, the last of the store,
    with the URL value that the resource has now (the list of per-file
    URLs for a directory), the reading of the clock at the update as
    download time, and the lifetime; and the cache file holds the dump of
    the whole store.  For a resource that is not a directory the call does
    return whenever pooch answers. *)
Theorem first_download_records (E : Env) (a : nat) (r : Resource)
    (store : list (string * pyval)) (st : state) :
  heap st !! a = Some r ->
  cache_dict st = PDict store ->
  dict_get store (name r) = None ->
  fetch_started (name r) st (download E [a] st).2 /\
  (forall paths st',
     download E [a] st = (Ok paths, st') ->
     exists r',
       heap st' !! a = Some r' /\
       name r' = name r /\ lifetime r' = lifetime r /\
       (is_dir r = false -> r' = r) /\
       (0 < ticks st')%nat /\
       cache_dict st' =
         PDict (store ++ [(name r, record_of r' (clock E (ticks st' - 1)))]) /\
       dict_count (store ++ [(name r, record_of r' (clock E (ticks st' - 1)))])
                  (name r) = 1%nat /\
       files st' !! cache_file st' = Some (dumped E (cache_dict st'))) /\
  (is_dir r = false -> pooch_succeeds E ->
   exists paths st', download E [a] st = (Ok paths, st')).
Proof.
  intros Hr Hd Hnone.
  pose proof (fetched_unseen E a true r store st Hr Hd Hnone) as Hf.
  split; [|split].
  - rewrite download_one_state. apply (fetched_trace E 1 a true r st Hr Hf).
  - intros paths st' Hrun. rewrite download_one in Hrun.
    destruct (_download_or_cache E a true st) as [[v|e] st0] eqn:Hrun0; [|done].
    assert (st0 = st') as -> by (by destruct v; injection Hrun).
    clear Hrun. unfold _download_or_cache in Hrun0.
    destruct (is_dir r) eqn:Hdir.
    + pose proof Hf as (r0 & d & expired & st1 & Hr0 & Hd0 & Hc & Hgo)%fetched_inv.
      assert (r0 = r) as -> by congruence.
      assert (d = store) as -> by congruence. clear Hr0 Hd0.
      destruct (url_s r) as [u|l] eqn:Hu;
        [|by rewrite (rec_dir_list E _ _ _ _ _ _ _ _ _ Hr Hd Hdir Hu Hc Hgo) in Hrun0].
      destruct (PyStr.startswith u "ftp://") eqn:Hftp;
        [|by rewrite (rec_dir_unsupported E _ _ _ _ _ _ _ _ _ Hr Hd Hdir Hu Hftp Hc Hgo)
             in Hrun0].
      destruct (ftp_nlst E (ticks st1) (ftp_host u) (ftp_dir u)) as [names|e] eqn:Hlist;
        [|by rewrite (rec_dir E _ _ _ _ _ _ _ _ _ Hr Hd Hdir Hu Hftp Hc Hgo), Hlist
             in Hrun0].
      destruct (expanded_fields r names) as (Hname & Hlife & _).
      destruct (frame_of_check E _ _ _ _ _ Hc) as (_ & Hcd & _).
      assert (Hin : fetched E a true
                      (set_heap (<[a := expanded r names]> (heap st))
                         (advance 1 [EvFtp (ftp_host u) (ftp_dir u)]
                            (emit (downloading (name r)) st1)))).
      { apply (fetched_unseen E a true (expanded r names) store).
        - apply lookup_insert_eq.
        - simpl. congruence.
        - by rewrite Hname. }
      destruct (dir_run E 0 a true expired r u store names st st1
                  Hr Hdir Hu Hftp Hd Hc Hgo Hlist Hin _ _ Hrun0)
        as (Hh' & _ & Hcf' & k & tail & _ & _ & _ & Hti & Hcd' & Hfiles & _).
      exists (expanded r names).
      rewrite Hh', lookup_insert_eq. split; [done|]. split; [done|].
      split; [done|]. split; [done|]. split; [done|].
      rewrite (dict_set_absent _ _ _ Hnone) in Hcd'.
      split; [done|]. split; [by apply dict_count_new|].
      by rewrite Hfiles, Hcf', lookup_insert_eq.
    + destruct (leaf_ok E _ _ _ _ _ _ _ _ Hr Hdir Hd Hf Hrun0)
        as (Hh' & _ & Hcf' & Hti & Hcd' & Hfiles & _).
      exists r. rewrite Hh'. split; [done|]. split; [done|]. split; [done|].
      split; [done|]. split; [lia|].
      rewrite (dict_set_absent _ _ _ Hnone) in Hcd'.
      split; [done|]. split; [by apply dict_count_new|].
      by rewrite Hfiles, Hcf', lookup_insert_eq.
  - intros Hdir Hok. rewrite download_one. unfold _download_or_cache.
    pose proof Hf as (r0 & d & expired & st1 & Hr0 & Hd0 & Hc & Hgo)%fetched_inv.
    assert (r0 = r) as -> by congruence.
    assert (d = store) as -> by congruence. clear Hr0 Hd0.
    rewrite (rec_leaf E _ _ _ _ _ _ _ _ Hr Hd Hdir Hc Hgo).
    destruct (fetch_urls_ok E r (emit (downloading (name r)) st1) Hok)
      as (v & st2 & ->).
    destruct v; by eexists _, _.
Qed.

Lemma first_download_records_witness :
  fetch_started "r" (Stub.unseen (Stub.single 7))
    (download Stub.env [0%nat] (Stub.unseen (Stub.single 7))).2 /\
  exists paths st',
    download Stub.env [0%nat] (Stub.unseen (Stub.single 7)) = (Ok paths, st').
Proof.
  destruct (first_download_records Stub.env 0%nat (Stub.single 7) []
              (Stub.unseen (Stub.single 7)) eq_refl eq_refl eq_refl)
    as (Hstart & _ & Hreturns).
  split; [exact Hstart|].
  apply Hreturns; [reflexivity|].
  intros k url known_hash fname path processor.
  unfold Stub.env, pooch_retrieve, Stub.pooch_retrieve.
  destruct processor as [[]|]; by eexists.
Defined.

(** The store and the cache file after the first download by the test
    double. *)
Example first_download_run :
  cache_dict (download Stub.env [0%nat] (Stub.unseen (Stub.single 7))).2
    = PDict [("r", record_of (Stub.single 7) (Stub.clock 1))] /\
  (download Stub.env [0%nat] (Stub.unseen (Stub.single 7))).1
    = Ok [PStr "cache/r/x.txt"].
Proof. by vm_compute. Qed.

(** *** What a first download asks of pooch and of the FTP server *)

Section FirstFetch.

Context (E : Env).




End FirstFetch.




(** ** The result of a batch *)

Lemma for_each_length {A B} (f : A -> M B) (l : list A) (ys : list B)
    (st st' : state) :
  for_each f l st = (Ok ys, st') -> List.length ys = List.length l.
Proof.
  revert ys st st'. induction l as [|x l IH]; intros ys st st'; cbn [for_each].
  - by intros [= <- _].
  - rewrite bind_run. destruct (f x st) as [[y|e] st1]; [|done].
    rewrite bind_run. destruct (for_each f l st1) as [[ys'|e] st2] eqn:Hrun; [|done].
    intros [= <- _]. simpl. by rewrite (IH _ _ _ Hrun).
Qed.

(** Without a list among the results, [download] returns them as they
    are: one entry per resource, in the order of the arguments. *)
Lemma download_scalars_unchanged (E : Env) (resources : list nat)
    (paths : list pyval) (st st' : state) :
  for_each (fun resource => _download_or_cache E resource true) resources st
    = (Ok paths, st') ->
  is_nested paths = false ->
  download E resources st = (Ok paths, st') /\
  List.length paths = List.length resources.
Proof.
  intros Hrun Hflat. split; [|by apply (for_each_length _ _ _ _ _ Hrun)].
  unfold download. by rewrite bind_run, Hrun, Hflat.
Qed.

(** When every result is a list, the flattening is their concatenation. *)
Lemma flatten_lists (ls : list (list pyval)) :
  flatten (List.map PList ls) = Ok (List.concat ls).
Proof.
  induction ls as [|l ls IH]; simpl; [done|]. by rewrite IH.
Qed.

(** A [str] among the results is iterated as any sequence is. *)
Lemma flatten_str (s : string) (rest : list pyval) :
  flatten (PStr s :: rest) =
    match flatten rest with
    | Ok items => Ok (List.map PStr (PyStr.chars s) ++ items)
    | Raise e => Raise e
    end.
Proof. reflexivity. Qed.

(** C5 (what the code does with a mixed batch): as soon as one result is a
    list, every result is iterated, and a scalar path is a [str]: it comes
    out as its characters, one entry each, not as itself.  In the batch of
    a single-file and a two-file resource the path [cache/a/x] of the
    first becomes nine entries. *)
Theorem mixed_batch_splits_paths :
  (forall (s : string) (l : list pyval),
     is_nested [PStr s; PList l] = true /\
     flatten [PStr s; PList l] = Ok (List.map PStr (PyStr.chars s) ++ l ++ [])) /\
  (download Stub.env [0%nat; 1%nat] Stub.mixed).1 =
    Ok [PStr "c"; PStr "a"; PStr "c"; PStr "h"; PStr "e"; PStr "/"; PStr "a";
        PStr "/"; PStr "x"; PStr "cache/b/b_y"; PStr "cache/b/b_z"] /\
  (for_each (fun resource => _download_or_cache Stub.env resource true)
     [0%nat; 1%nat] Stub.mixed).1 =
    Ok [PStr "cache/a/x"; PList [PStr "cache/b/b_y"; PStr "cache/b/b_z"]].
Proof.
  split; [|split].
  - intros s l. split; reflexivity.
  - by vm_compute.
  - by vm_compute.
Qed.

(** A cache hit in a batch with a multi-file resource: [None] is not
    iterable. *)
Example hit_in_nested_batch_raises :
  flatten [PNone; PList [PStr "cache/b/b_y"]] = Raise TypeError.
Proof. reflexivity. Qed.

(** Two single-file resources: two paths, in the order of the arguments. *)
Example two_single_files :
  (download Stub.env [0%nat; 1%nat]
     (Stub.init (PDict [])
        [mkResource "a" (Url "http://h/x") 7 false;
         mkResource "b" (Url "http://h/y") 7 false])).1
  = Ok [PStr "cache/a/x"; PStr "cache/b/y"].
Proof. by vm_compute. Qed.

(** ** What every call keeps *)

Section Invariants.

Context (E : Env).

Lemma same_object_refl (r : Resource) : same_object r r.
Proof. by repeat split. Qed.

Lemma same_object_trans (r1 r2 r3 : Resource) :
  same_object r1 r2 -> same_object r2 r3 -> same_object r1 r3.
Proof.
  intros (Hn & Hl & Hd) (Hn' & Hl' & Hd'). split; [congruence|].
  split; [congruence|]. intros Hdir. specialize (Hd Hdir). subst r2. auto.
Qed.

Lemma heap_evolves_refl (h : gmap nat Resource) : heap_evolves h h.
Proof. intros b. destruct (h !! b); [apply same_object_refl | done]. Qed.

Lemma heap_evolves_trans (h1 h2 h3 : gmap nat Resource) :
  heap_evolves h1 h2 -> heap_evolves h2 h3 -> heap_evolves h1 h3.
Proof.
  intros H12 H23 b. specialize (H12 b). specialize (H23 b).
  destruct (h1 !! b), (h2 !! b), (h3 !! b); try done.
  by apply (same_object_trans _ r0).
Qed.

Lemma keeps_records_refl (v : pyval) : keeps_records v v.
Proof. intros d ->. by exists d. Qed.

Lemma keeps_records_trans (v1 v2 v3 : pyval) :
  keeps_records v1 v2 -> keeps_records v2 v3 -> keeps_records v1 v3.
Proof.
  intros H12 H23 d Hd. destruct (H12 d Hd) as (d2 & Hd2 & Hk).
  destruct (H23 d2 Hd2) as (d3 & Hd3 & Hk'). exists d3. split; [done|]. auto.
Qed.

Lemma keeps_records_set (d : list (string * pyval)) (k : string) (v : pyval) :
  keeps_records (PDict d) (PDict (dict_set d k v)).
Proof.
  intros d0 [= <-]. eexists. split; [done|]. intros k' Hk'.
  destruct (String.eqb_spec k k') as [->|Hne].
  - rewrite dict_get_set. by eexists.
  - by rewrite dict_get_set_ne.
Qed.

Lemma evolves_refl (st : state) : evolves E st st.
Proof.
  repeat split; try done.
  - apply heap_evolves_refl.
  - apply keeps_records_refl.
Qed.

Lemma evolves_trans (st1 st2 st3 : state) :
  evolves E st1 st2 -> evolves E st2 st3 -> evolves E st1 st3.
Proof.
  intros (Hcd & Hcf & Hdi & Hti & Hfi & Hhe & Hre & Hsy)
         (Hcd' & Hcf' & Hdi' & Hti' & Hfi' & Hhe' & Hre' & Hsy').
  split; [congruence|]. split; [congruence|]. split; [congruence|].
  split; [lia|]. split.
  { intros p Hp. rewrite Hfi' by congruence. by apply Hfi. }
  split; [by apply (heap_evolves_trans _ (heap st2))|].
  split; [by apply (keeps_records_trans _ (cache_dict st2))|]. auto.
Qed.

Lemma evolves_advance (k : nat) (evs : list event) (st : state) :
  evolves E st (advance k evs st).
Proof.
  repeat split; try done; simpl; try lia.
  - apply heap_evolves_refl.
  - apply keeps_records_refl.
Qed.

Lemma evolves_tick (st : state) : evolves E st (tick st).
Proof.
  repeat split; try done; simpl; try lia.
  - apply heap_evolves_refl.
  - apply keeps_records_refl.
Qed.

Lemma evolves_emit (ev : event) (st : state) : evolves E st (emit ev st).
Proof. apply (evolves_advance 0 [ev]). Qed.

Lemma evolves_recorded (r : Resource) (st : state) :
  evolves E st (recorded E r st).
Proof.
  unfold recorded. destruct (cache_dict st) as [| | | | | |d] eqn:Hd;
    try apply evolves_tick.
  repeat split; try done; simpl; try lia.
  - intros p Hp. by rewrite lookup_insert_ne.
  - apply heap_evolves_refl.
  - rewrite Hd. apply keeps_records_set.
  - intros _. unfold synced. simpl. by rewrite lookup_insert_eq.
Qed.

Lemma evolves_expand (a : nat) (r : Resource) (names : list string) (st : state) :
  heap st !! a = Some r ->
  is_dir r = true ->
  evolves E st (set_heap (<[a := expanded r names]> (heap st)) st).
Proof.
  intros Hr Hdir. repeat split; try done; simpl; try lia.
  - intros b. destruct (decide (a = b)) as [<-|Hne].
    + rewrite Hr, lookup_insert_eq.
      destruct (expanded_fields r names) as (Hn & Hl & _).
      split; [done|]. split; [done|]. intros Hfalse. congruence.
    + rewrite lookup_insert_ne by done.
      destruct (heap st !! b); [apply same_object_refl | done].
  - apply keeps_records_refl.
Qed.

Lemma check_expired_evolves (rec : pyval) (a : nat) (st : state) :
  evolves E st (check_expired E rec a st).2.
Proof.
  destruct (check_expired_frame E rec a st) as [->| ->];
    [apply evolves_refl | apply evolves_tick].
Qed.

Lemma fetch_urls_evolves (r : Resource) (st : state) :
  evolves E st (fetch_urls E r st).2.
Proof.
  destruct (fetch_urls_run E r st) as (k & _ & -> & _). apply evolves_advance.
Qed.

Lemma _update_cache_record_evolves (a : nat) (st : state) :
  evolves E st (_update_cache_record E a st).2.
Proof.
  destruct (heap st !! a) as [r|] eqn:Hr.
  - destruct (cache_dict st) as [| | | | | |d] eqn:Hd;
      try (unfold _update_cache_record;
           rewrite bind_run, (deref_run _ _ _ Hr), bind_run;
           unfold datetime_now, get_state; rewrite bind_run;
           change (cache_dict (tick st)) with (cache_dict st); rewrite Hd;
           apply evolves_tick).
    rewrite (_update_cache_record_run E _ _ _ _ Hr Hd). apply evolves_recorded.
  - unfold _update_cache_record, deref. rewrite bind_run, Hr. apply evolves_refl.
Qed.

(** The whole of [_download_or_cache], at any depth and from any state. *)
Lemma rec_evolves (n a : nat) (cache : bool) (st : state) :
  evolves E st (_download_or_cache_rec E n a cache st).2.
Proof.
  revert st. induction n as [|n IH]; intros st; [apply evolves_refl|].
  destruct (heap st !! a) as [r|] eqn:Hr;
    [|destruct (rec_no_lookup E 0 a cache st) as [e He];
      [by left | rewrite He; apply evolves_refl]].
  destruct (cache_dict st) as [| | | | | |d] eqn:Hd;
    try (destruct (rec_no_lookup E 0 a cache st) as [e He];
         [right; congruence | rewrite He; apply evolves_refl]).
  pose proof (check_expired_evolves (default (PDict []) (dict_get d (name r))) a st)
    as Hev1.
  destruct (check_expired E (default (PDict []) (dict_get d (name r))) a st)
    as [[expired|e] st1] eqn:Hc; simpl in Hev1;
    [|by rewrite (rec_raise E _ _ _ _ _ _ _ _ Hr Hd Hc)].
  destruct (expired || negb cache) eqn:Hgo.
  2:{ apply orb_false_elim in Hgo as [-> Hcache].
      apply negb_false_iff in Hcache as ->.
      by rewrite (rec_hit E _ _ _ _ _ _ Hr Hd Hc). }
  pose proof (evolves_trans _ _ _ Hev1 (evolves_emit (downloading (name r)) st1))
    as Hev2.
  destruct (is_dir r) eqn:Hdir.
  - destruct (url_s r) as [u|l] eqn:Hu;
      [|by rewrite (rec_dir_list E _ _ _ _ _ _ _ _ _ Hr Hd Hdir Hu Hc Hgo)].
    destruct (PyStr.startswith u "ftp://") eqn:Hftp;
      [|by rewrite (rec_dir_unsupported E _ _ _ _ _ _ _ _ _ Hr Hd Hdir Hu Hftp Hc Hgo)].
    rewrite (rec_dir E _ _ _ _ _ _ _ _ _ Hr Hd Hdir Hu Hftp Hc Hgo).
    set (st2 := advance 1 _ _).
    assert (Hev3 : evolves E st st2)
      by (apply (evolves_trans _ _ _ Hev2), evolves_advance).
    destruct (ftp_nlst E (ticks st1) (ftp_host u) (ftp_dir u)) as [names|e];
      [|done].
    assert (Hev4 : evolves E st (set_heap (<[a := expanded r names]> (heap st)) st2)).
    { apply (evolves_trans _ _ _ Hev3).
      destruct (frame_of_check E _ _ _ _ _ Hc) as (Hh & _).
      replace (heap st) with (heap st2) by (by subst st2).
      apply evolves_expand; [|done]. subst st2. simpl. by rewrite Hh. }
    pose proof (IH (set_heap (<[a := expanded r names]> (heap st)) st2)) as Hev5.
    destruct (_download_or_cache_rec E n a cache _) as [[paths|e] st3];
      simpl in Hev5; [|by apply (evolves_trans _ _ _ Hev4)].
    pose proof (_update_cache_record_evolves a st3) as Hev6.
    destruct (_update_cache_record E a st3) as [[[]|e] st4]; simpl in *;
      by apply (evolves_trans _ _ _ Hev4), (evolves_trans _ _ _ Hev5).
  - rewrite (rec_leaf E _ _ _ _ _ _ _ _ Hr Hd Hdir Hc Hgo).
    pose proof (fetch_urls_evolves r (emit (downloading (name r)) st1)) as Hev3.
    destruct (fetch_urls E r _) as [[paths|e] st2]; simpl in *.
    + apply (evolves_trans _ _ _ Hev2), (evolves_trans _ _ _ Hev3), evolves_recorded.
    + by apply (evolves_trans _ _ _ Hev2).
Qed.

Lemma for_each_evolves (l : list nat) (st : state) :
  evolves E st
    (for_each (fun resource => _download_or_cache E resource true) l st).2.
Proof.
  revert st. induction l as [|a l IH]; intros st; [apply evolves_refl|].
  cbn [for_each]. rewrite bind_run.
  pose proof (rec_evolves 2 a true st) as Hev1.
  fold (_download_or_cache E a true) in Hev1.
  destruct (_download_or_cache E a true st) as [[v|e] st1]; simpl in *; [|done].
  rewrite bind_run. specialize (IH st1).
  destruct (for_each _ l st1) as [[vs|e] st2]; simpl in *;
    by apply (evolves_trans _ _ _ Hev1).
Qed.

Lemma download_evolves (resources : list nat) (st : state) :
  evolves E st (download E resources st).2.
Proof.
  unfold download. rewrite bind_run.
  pose proof (for_each_evolves resources st) as Hev.
  destruct (for_each _ resources st) as [[paths|e] st1]; simpl in *; [|done].
  by destruct (is_nested paths).
Qed.

End Invariants.

(** X1: [download] never drops a record.  Whatever the batch and however
    the call ends, a store that is a [dict] is still one afterwards and
    every name that had a record still has one. *)
Theorem download_keeps_records (E : Env) (resources : list nat)
    (d : list (string * pyval)) (st : state) :
  cache_dict st = PDict d ->
  exists d',
    cache_dict (download E resources st).2 = PDict d' /\
    forall k, is_Some (dict_get d k) -> is_Some (dict_get d' k).
Proof.
  intros Hd.
  destruct (download_evolves E resources st) as (_ & _ & _ & _ & _ & _ & Hre & _).
  by apply Hre.
Qed.

Lemma download_keeps_records_witness :
  exists d',
    cache_dict (download Stub.env [0%nat] (Stub.cached "2022-12-01 00:00:00" 7)).2
      = PDict d' /\
    forall k,
      is_Some (dict_get [("r", Stub.record "2022-12-01 00:00:00" 7)] k) ->
      is_Some (dict_get d' k).
Proof.
  exact (download_keeps_records Stub.env [0%nat]
           [("r", Stub.record "2022-12-01 00:00:00" 7)]
           (Stub.cached "2022-12-01 00:00:00" 7) eq_refl).
Defined.

(** X2: [download] creates and deletes no [Resource] object, and never
    changes the name or the lifetime of one; an object that is not a
    directory resource is left exactly as it was, whatever the batch and
    however the call ends. *)
Theorem download_keeps_objects (E : Env) (resources : list nat) (b : nat)
    (r : Resource) (st : state) :
  heap st !! b = Some r ->
  exists r',
    heap (download E resources st).2 !! b = Some r' /\
    name r' = name r /\ lifetime r' = lifetime r /\
    (is_dir r = false -> r' = r).
Proof.
  intros Hr.
  destruct (download_evolves E resources st) as (_ & _ & _ & _ & _ & Hhe & _).
  specialize (Hhe b). rewrite Hr in Hhe.
  destruct (heap (download E resources st).2 !! b) as [r'|]; [|done].
  by exists r'.
Qed.

Lemma download_keeps_objects_witness :
  exists r',
    heap (download Stub.env [0%nat; 1%nat] Stub.mixed).2 !! 1%nat = Some r' /\
    name r' = "b" /\ lifetime r' = 7 /\
    (false = false -> r' = mkResource "b" (Urls ["http://h/y"; "http://h/z"]) 7 false).
Proof.
  exact (download_keeps_objects Stub.env [0%nat; 1%nat] 1%nat
           (mkResource "b" (Urls ["http://h/y"; "http://h/z"]) 7 false)
           Stub.mixed eq_refl).
Defined.

(** X3: the cache file follows the store over a call that returns.  When
    the cache file holds the dump of the store before a call of
    [download] and the call returns, the file holds the dump of the store
    after it, whatever the batch: every record that the call added or
    replaced is in the file.  The cache directory and the path of the
    cache file do not change. *)
Theorem download_keeps_sync (E : Env) (resources : list nat)
    (paths : list pyval) (st st' : state) :
  synced E st ->
  download E resources st = (Ok paths, st') ->
  synced E st' /\
  cache_dir st' = cache_dir st /\
  cache_file st' = cache_file st.
Proof.
  intros Hsync Hrun.
  destruct (download_evolves E resources st) as (Hcd & Hcf & _ & _ & _ & _ & _ & Hsy).
  rewrite Hrun in Hcd, Hcf, Hsy. auto.
Qed.

Lemma download_keeps_sync_witness :
  synced Stub.env (download Stub.env [0%nat; 1%nat] Stub.mixed).2 /\
  cache_dir (download Stub.env [0%nat; 1%nat] Stub.mixed).2 = "cache" /\
  cache_file (download Stub.env [0%nat; 1%nat] Stub.mixed).2 = "cache/cache.json".
Proof.
  apply (download_keeps_sync Stub.env [0%nat; 1%nat]
           [PStr "c"; PStr "a"; PStr "c"; PStr "h"; PStr "e"; PStr "/"; PStr "a";
            PStr "/"; PStr "x"; PStr "cache/b/b_y"; PStr "cache/b/b_z"]
           Stub.mixed).
  - reflexivity.
  - vm_compute. reflexivity.
Defined.

(** ** The construction of the [Downloader] *)

Section Construction.

Context (E : Env).

(** The cache file is there and json reads it: it is loaded as it is. *)
Lemma load_existing (content : string) (v : pyval) (st : state) :
  files st !! cache_file st = Some content ->
  json_loads E content = Some v ->
  exists st' evs,
    _load_cache_dict E st = (Ok v, st') /\
    files st' = files st /\ heap st' = heap st /\ ticks st' = ticks st /\
    cache_dir st' = cache_dir st /\ cache_file st' = cache_file st /\
    cache_dict st' = cache_dict st /\
    trace st' = trace st ++ evs /\ Forall not_write evs.
Proof.
  intros Hfile Hgood. unfold _load_cache_dict.
  rewrite bind_run. unfold get_state at 1.
  rewrite bind_run. unfold path_exists at 1. rewrite bind_run.
  set (mk := if negb _ then _ else _).
  assert (Hmk : exists evs, (mk st).1 = Ok tt /\ files (mk st).2 = files st /\
                 heap (mk st).2 = heap st /\ ticks (mk st).2 = ticks st /\
                 cache_dir (mk st).2 = cache_dir st /\
                 cache_file (mk st).2 = cache_file st /\
                 cache_dict (mk st).2 = cache_dict st /\
                 trace (mk st).2 = trace st ++ evs /\ Forall not_write evs).
  { subst mk. destruct (negb _).
    - eexists [_; _]. do 7 (split; [reflexivity|]). split.
      + simpl. by rewrite <- app_assoc.
      + by repeat constructor.
    - exists []. do 7 (split; [reflexivity|]). split.
      + simpl. by rewrite app_nil_r.
      + constructor. }
  destruct Hmk as (evs & Hres & Hfiles & Hheap & Hticks & Hcdir & Hcf & Hcd & Htr & Hev).
  destruct (mk st) as [[[]|e] st1];
    simpl in Hres, Hfiles, Hheap, Hticks, Hcdir, Hcf, Hcd, Htr; [|done].
  rewrite bind_run. unfold path_exists at 1.
  replace (bool_decide (is_Some (files st1 !! cache_file st))) with true
    by (symmetry; apply bool_decide_eq_true; rewrite Hfiles; by eexists).
  rewrite orb_true_r. simpl negb. cbv iota.
  rewrite bind_run. unfold ret at 1. rewrite bind_run.
  unfold read_file. rewrite Hfiles, Hfile.
  rewrite bind_run. unfold logger_info, modify at 1. rewrite Hgood.
  eexists _, (evs ++ [_]). split; [reflexivity|]. simpl.
  do 6 (split; [done|]). split.
  - by rewrite Htr, <- app_assoc.
  - apply Forall_app. split; [done|]. by repeat constructor.
Qed.

(** The cache file is not there: it is created with the dump of the empty
    [dict] and read back; the cache directory is made first when no path
    of that name exists. *)
Lemma load_missing (v : pyval) (st : state) :
  files st !! cache_file st = None ->
  cache_file st ∉ dirs st ->
  cache_file st <> cache_dir st ->
  json_loads E (json_dumps E (PDict [])) = Some v ->
  exists st' evs,
    _load_cache_dict E st = (Ok v, st') /\
    files st' = <[cache_file st := json_dumps E (PDict [])]> (files st) /\
    heap st' = heap st /\ ticks st' = ticks st /\
    cache_dir st' = cache_dir st /\ cache_file st' = cache_file st /\
    cache_dict st' = cache_dict st /\
    dirs st' =
      (if bool_decide (cache_dir st ∈ dirs st)
          || bool_decide (is_Some (files st !! cache_dir st))
       then dirs st else {[cache_dir st]} ∪ dirs st) /\
    trace st' = trace st ++ evs /\
    List.filter (fun ev => match ev with EvWrite _ _ => true | _ => false end) evs
      = [EvWrite (cache_file st) (json_dumps E (PDict []))].
Proof.
  intros Hfile Hnodir Hne Hgood. unfold _load_cache_dict.
  rewrite bind_run. unfold get_state at 1.
  rewrite bind_run. unfold path_exists at 1. rewrite bind_run.
  set (there := bool_decide (cache_dir st ∈ dirs st)
                || bool_decide (is_Some (files st !! cache_dir st))).
  set (mk := if negb there then _ else _).
  assert (Hmk : exists evs, (mk st).1 = Ok tt /\ files (mk st).2 = files st /\
                 heap (mk st).2 = heap st /\ ticks (mk st).2 = ticks st /\
                 cache_dir (mk st).2 = cache_dir st /\
                 cache_file (mk st).2 = cache_file st /\
                 cache_dict (mk st).2 = cache_dict st /\
                 dirs (mk st).2 =
                   (if there then dirs st else {[cache_dir st]} ∪ dirs st) /\
                 trace (mk st).2 = trace st ++ evs /\
                 List.filter (fun ev => match ev with EvWrite _ _ => true | _ => false end)
                   evs = []).
  { subst mk. destruct there.
    - exists []. do 8 (split; [reflexivity|]).
      split; [simpl; by rewrite app_nil_r | done].
    - eexists [_; _]. do 8 (split; [reflexivity|]).
      split; [simpl; by rewrite <- app_assoc | done]. }
  destruct Hmk as (evs & Hres & Hfiles & Hheap & Hticks & Hcdir & Hcf & Hcd
                   & Hdirs & Htr & Hev).
  destruct (mk st) as [[[]|e] st1];
    simpl in Hres, Hfiles, Hheap, Hticks, Hcdir, Hcf, Hcd, Hdirs, Htr; [|done].
  rewrite bind_run. unfold path_exists at 1.
  assert (Hnodir1 : cache_file st ∉ dirs st1).
  { rewrite Hdirs. destruct there; [done|].
    intros [Heq%elem_of_singleton|?]%elem_of_union; [by apply Hne | done]. }
  rewrite (bool_decide_false _ Hnodir1).
  replace (bool_decide (is_Some (files st1 !! cache_file st))) with false
    by (symmetry; apply bool_decide_eq_false; rewrite Hfiles, Hfile;
        by intros [? ?]).
  simpl negb. cbv iota.
  rewrite bind_run. unfold logger_info at 1. rewrite bind_run.
  unfold modify at 1. unfold write_file, modify at 1.
  rewrite bind_run. unfold read_file.
  cbn [files emit set_files]. rewrite lookup_insert_eq.
  rewrite bind_run. unfold logger_info, modify at 1. rewrite Hgood.
  eexists _, (evs ++ [_; _; _]). split; [reflexivity|]. simpl.
  rewrite Hfiles. do 6 (split; [done|]). split; [done|]. split.
  - by rewrite Htr, <- !app_assoc.
  - rewrite List.filter_app, Hev. reflexivity.
Qed.

Lemma cache_file_not_dir (d : string) : os_path_join d "cache.json" <> d.
Proof.
  unfold os_path_join. simpl PyStr.startswith. cbv iota.
  intros Heq. apply (f_equal String.length) in Heq.
  destruct (String.eqb d "" || PyStr.endswith d "/");
    rewrite !str_length_app in Heq; simpl in Heq; lia.
Qed.

(** [__init__] sets the two paths and loads the store. *)
Lemma init_run (dir : option string) (st : state) :
  Downloader_init E dir st =
    match _load_cache_dict E
            (set_cache_file (os_path_join (chosen_dir E dir) "cache.json")
               (set_cache_dir (chosen_dir E dir) st)) with
    | (Ok d, st1) => (Ok tt, set_cache_dict d st1)
    | (Raise e, st1) => (Raise e, st1)
    end.
Proof.
  unfold Downloader_init. fold (chosen_dir E dir).
  rewrite bind_run. unfold modify at 1. rewrite bind_run. unfold get_state at 1.
  rewrite bind_run. unfold modify at 1. rewrite bind_run.
  cbn [cache_dir set_cache_dir].
  by destruct (_load_cache_dict E _) as [[d|e] st1].
Qed.

End Construction.

(** X4: over a cache directory that is there and holds no [cache.json],
    the construction of the [Downloader] makes no directory, writes the
    dump of the empty [dict] to [cache.json] in the cache directory, once,
    and, when json reads that text back as the empty [dict], starts with
    an empty store; the cache file then holds the dump of the store. *)
Theorem construction_creates_store (E : Env) (dir : option string) (st : state) :
  chosen_dir E dir ∈ dirs st ->
  files st !! chosen_dir E dir = None ->
  files st !! os_path_join (chosen_dir E dir) "cache.json" = None ->
  os_path_join (chosen_dir E dir) "cache.json" ∉ dirs st ->
  json_loads E (json_dumps E (PDict [])) = Some (PDict []) ->
  exists st' evs,
    Downloader_init E dir st = (Ok tt, st') /\
    cache_dir st' = chosen_dir E dir /\
    cache_file st' = os_path_join (chosen_dir E dir) "cache.json" /\
    cache_dict st' = PDict [] /\
    files st' =
      <[os_path_join (chosen_dir E dir) "cache.json" := json_dumps E (PDict [])]>
        (files st) /\
    dirs st' = dirs st /\
    heap st' = heap st /\
    trace st' = trace st ++ evs /\
    List.filter (fun ev => match ev with EvWrite _ _ => true | _ => false end) evs
      = [EvWrite (os_path_join (chosen_dir E dir) "cache.json")
           (json_dumps E (PDict []))] /\
    synced E st'.
Proof.
  intros Hthere Hnofile Hfile Hnodir Hgood. rewrite init_run.
  destruct (load_missing E (PDict [])
              (set_cache_file (os_path_join (chosen_dir E dir) "cache.json")
                 (set_cache_dir (chosen_dir E dir) st))
              Hfile Hnodir (cache_file_not_dir (chosen_dir E dir)) Hgood)
    as (st1 & evs & Hrun & Hfiles & Hheap & _ & Hcdir & Hcf & _ & Hdirs & Htr & Hev).
  rewrite Hrun.
  cbn [cache_dir cache_file files heap dirs trace set_cache_file set_cache_dir]
    in Hfiles, Hheap, Hcdir, Hcf, Hdirs, Htr, Hev.
  rewrite (bool_decide_true _ Hthere) in Hdirs. simpl in Hdirs.
  exists (set_cache_dict (PDict []) st1), evs. split; [reflexivity|]. unfold synced.
  cbn [cache_dir cache_file cache_dict files heap dirs trace set_cache_dict].
  rewrite Hcdir, Hcf, Hfiles, Hheap, Hdirs.
  do 8 (split; [done|]). by rewrite lookup_insert_eq.
Qed.

Lemma construction_creates_store_witness :
  exists st' evs,
    Downloader_init Stub.env (Some "cache") (set_dirs {["cache"]} Flaky.blank)
      = (Ok tt, st') /\
    cache_dir st' = "cache" /\
    cache_file st' = "cache/cache.json" /\
    cache_dict st' = PDict [] /\
    files st' = <["cache/cache.json" := "{}"]> (files (set_dirs {["cache"]} Flaky.blank)) /\
    dirs st' = dirs (set_dirs {["cache"]} Flaky.blank) /\
    heap st' = heap (set_dirs {["cache"]} Flaky.blank) /\
    trace st' = trace (set_dirs {["cache"]} Flaky.blank) ++ evs /\
    List.filter (fun ev => match ev with EvWrite _ _ => true | _ => false end) evs
      = [EvWrite "cache/cache.json" "{}"] /\
    synced Stub.env st'.
Proof.
  apply (construction_creates_store Stub.env (Some "cache")
           (set_dirs {["cache"]} Flaky.blank)).
  - vm_compute. reflexivity.
  - reflexivity.
  - reflexivity.
  - intros H. vm_compute in H. discriminate H.
  - reflexivity.
Defined.

(** X5: over a cache file that json can read, the construction of the
    [Downloader] takes whatever value the file holds as its store, with no
    check that it is a [dict] of records, and writes nothing: the file is
    as it was. *)
Theorem construction_loads_store (E : Env) (dir : option string)
    (content : string) (v : pyval) (st : state) :
  files st !! os_path_join (chosen_dir E dir) "cache.json" = Some content ->
  json_loads E content = Some v ->
  exists st' evs,
    Downloader_init E dir st = (Ok tt, st') /\
    cache_dict st' = v /\
    files st' = files st /\
    heap st' = heap st /\
    trace st' = trace st ++ evs /\ Forall not_write evs.
Proof.
  intros Hfile Hgood. rewrite init_run.
  destruct (load_existing E content v
              (set_cache_file (os_path_join (chosen_dir E dir) "cache.json")
                 (set_cache_dir (chosen_dir E dir) st))
              Hfile Hgood)
    as (st1 & evs & Hrun & Hfiles & Hheap & _ & _ & _ & _ & Htr & Hev).
  rewrite Hrun. by exists (set_cache_dict v st1), evs.
Qed.

Lemma construction_loads_store_witness :
  exists st' evs,
    Downloader_init Flaky.env (Some "cache") (Flaky.on_disk "[]") = (Ok tt, st') /\
    cache_dict st' = PList [] /\
    files st' = files (Flaky.on_disk "[]") /\
    heap st' = heap (Flaky.on_disk "[]") /\
    trace st' = trace (Flaky.on_disk "[]") ++ evs /\ Forall not_write evs.
Proof.
  exact (construction_loads_store Flaky.env (Some "cache") "[]" (PList [])
           (Flaky.on_disk "[]") eq_refl eq_refl).
Defined.

(** X6: with a store that is not a [dict] (the cache file held another
    json value) every call for an object raises [AttributeError] at the
    lookup of the record, before anything else is done. *)
Theorem store_not_dict_raises (E : Env) (a : nat) (cache : bool) (r : Resource)
    (rest : list nat) (st : state) :
  heap st !! a = Some r ->
  (forall d, cache_dict st <> PDict d) ->
  _download_or_cache E a cache st = (Raise AttributeError, st) /\
  download E (a :: rest) st = (Raise AttributeError, st).
Proof.
  intros Hr Hnd.
  assert (Hget : _get_cache_record a st = (Raise AttributeError, st)).
  { unfold _get_cache_record, get_state.
    rewrite bind_run, bind_run, (deref_run _ _ _ Hr).
    destruct (cache_dict st); try done. by destruct (Hnd d). }
  assert (Hrun : _download_or_cache E a cache st = (Raise AttributeError, st)).
  { unfold _download_or_cache. cbn [_download_or_cache_rec].
    by rewrite bind_run, Hget. }
  split; [done|].
  assert (Hrun' : _download_or_cache E a true st = (Raise AttributeError, st)).
  { unfold _download_or_cache. cbn [_download_or_cache_rec].
    by rewrite bind_run, Hget. }
  unfold download. rewrite bind_run. cbn [for_each]. by rewrite bind_run, Hrun'.
Qed.

Lemma store_not_dict_raises_witness :
  _download_or_cache Stub.env 0%nat true (Stub.init (PList []) [Stub.single 7])
    = (Raise AttributeError, Stub.init (PList []) [Stub.single 7]) /\
  download Stub.env [0%nat] (Stub.init (PList []) [Stub.single 7])
    = (Raise AttributeError, Stub.init (PList []) [Stub.single 7]).
Proof.
  apply (store_not_dict_raises Stub.env 0%nat true (Stub.single 7) []
           (Stub.init (PList []) [Stub.single 7])).
  - reflexivity.
  - intros d. discriminate.
Defined.

(** ** From one run to the next *)




(** ** Batches *)

Lemma for_each_app {A B} (f : A -> M B) (l1 l2 : list A) (st : state) :
  for_each f (l1 ++ l2) st =
    match for_each f l1 st with
    | (Ok ys, st1) =>
        match for_each f l2 st1 with
        | (Ok zs, st2) => (Ok (ys ++ zs), st2)
        | (Raise e, st2) => (Raise e, st2)
        end
    | (Raise e, st1) => (Raise e, st1)
    end.
Proof.
  revert st. induction l1 as [|x l1 IH]; intros st.
  - simpl. unfold ret. by destruct (for_each f l2 st) as [[zs|e] st2].
  - cbn [for_each app]. rewrite !bind_run.
    destruct (f x st) as [[y|e] st1]; [|done].
    rewrite !bind_run, IH.
    destruct (for_each f l1 st1) as [[ys|e] st2]; [|done].
    unfold ret. cbv beta iota.
    by destruct (for_each f l2 st2) as [[zs|e] st3].
Qed.

(** X8: a batch stops at the first resource that raises.  When the
    resources before it were processed and the call for it raises,
    [download] raises the same exception in the state of that moment:
    the resources after it are not looked at, and what the ones before it
    recorded stays. *)
Theorem download_fail_fast (E : Env) (before after : list nat) (a : nat)
    (e : exn) (paths : list pyval) (st st1 st2 : state) :
  for_each (fun resource => _download_or_cache E resource true) before st
    = (Ok paths, st1) ->
  _download_or_cache E a true st1 = (Raise e, st2) ->
  download E (before ++ a :: after) st = (Raise e, st2).
Proof.
  intros Hbefore Hfail. unfold download.
  rewrite bind_run, for_each_app, Hbefore.
  cbn [for_each]. by rewrite bind_run, Hfail.
Qed.

Lemma download_fail_fast_witness :
  download Flaky.env ([0%nat] ++ 1%nat :: [2%nat]) Flaky.batch
    = (Raise (ExternalError "HTTPError"),
       (_download_or_cache Flaky.env 1%nat true
          (for_each (fun resource => _download_or_cache Flaky.env resource true)
             [0%nat] Flaky.batch).2).2).
Proof.
  apply (download_fail_fast Flaky.env [0%nat] [2%nat] 1%nat
           (ExternalError "HTTPError") [PStr "cache/a/x"] Flaky.batch
           (for_each (fun resource => _download_or_cache Flaky.env resource true)
              [0%nat] Flaky.batch).2).
  - by vm_compute.
  - by vm_compute.
Defined.

(** The third resource of the batch was never asked for, and the record of
    the first one is in the store. *)
Example fail_fast_run :
  trace (download Flaky.env [0%nat; 1%nat; 2%nat] Flaky.batch).2
    = [EvLog "Downloading resource a.";
       EvRetrieve "http://h/x" "x" "cache/a" None;
       EvWrite "cache/cache.json" "{a: 2023-01-01 01:00:01}";
       EvLog "Downloading resource b.";
       EvRetrieve "http://h/missing" "missing" "cache/b" None].
Proof. by vm_compute. Qed.

(** X9: [is_nested] is true exactly when one of the items of the list is
    itself a list; it looks at the items and not inside them. *)
Theorem is_nested_spec (lst : list pyval) :
  is_nested lst = true <-> exists l, In (PList l) lst.
Proof.
  induction lst as [|item lst IH]; simpl.
  - split; [done | by intros [l []]].
  - destruct (is_list item) eqn:Hlist.
    + split; [|done]. intros _. destruct item; try done. eexists. by left.
    + rewrite IH. split.
      * intros [l Hin]. exists l. by right.
      * intros [l [Heq|Hin]]; [by subst item | by exists l].
Qed.

Lemma flatten_none (paths : list pyval) :
  In PNone paths -> flatten paths = Raise TypeError.
Proof.
  induction paths as [|v paths IH]; [done|].
  intros [->|Hin]; [done|]. simpl.
  destruct v; simpl; try done; by rewrite (IH Hin).
Qed.

Lemma is_nested_lists (ls : list (list pyval)) :
  ls <> [] -> is_nested (List.map PList ls) = true.
Proof. by destruct ls. Qed.

(** X10: when every resource of the batch gave a list of paths, [download]
    returns their concatenation, in the order of the arguments. *)
Theorem download_concatenates (E : Env) (resources : list nat)
    (ls : list (list pyval)) (st st' : state) :
  for_each (fun resource => _download_or_cache E resource true) resources st
    = (Ok (List.map PList ls), st') ->
  ls <> [] ->
  download E resources st = (Ok (List.concat ls), st').
Proof.
  intros Hrun Hne. unfold download.
  by rewrite bind_run, Hrun, (is_nested_lists ls Hne), flatten_lists.
Qed.

Lemma download_concatenates_witness :
  download Stub.env [0%nat; 1%nat]
    (Stub.init (PDict [])
       [mkResource "a" (Urls ["http://h/x"]) 7 false;
        mkResource "b" (Urls ["http://h/y"; "http://h/z"]) 7 false])
  = (Ok (List.concat [[PStr "cache/a/a_x"];
                       [PStr "cache/b/b_y"; PStr "cache/b/b_z"]]),
     (for_each (fun resource => _download_or_cache Stub.env resource true)
        [0%nat; 1%nat]
        (Stub.init (PDict [])
           [mkResource "a" (Urls ["http://h/x"]) 7 false;
            mkResource "b" (Urls ["http://h/y"; "http://h/z"]) 7 false])).2).
Proof.
  apply (download_concatenates Stub.env [0%nat; 1%nat]
           [[PStr "cache/a/a_x"]; [PStr "cache/b/b_y"; PStr "cache/b/b_z"]]).
  - by vm_compute.
  - discriminate.
Defined.

(** X11: a resource that is served from the cache gives [None], and
    [None] cannot be iterated: in a batch where another resource gave a
    list, [download] raises [TypeError], after every resource of the batch
    was processed. *)
Theorem hit_in_nested_batch (E : Env) (resources : list nat)
    (paths : list pyval) (st st' : state) :
  for_each (fun resource => _download_or_cache E resource true) resources st
    = (Ok paths, st') ->
  In PNone paths ->
  is_nested paths = true ->
  download E resources st = (Raise TypeError, st').
Proof.
  intros Hrun Hnone Hnested. unfold download.
  by rewrite bind_run, Hrun, Hnested, (flatten_none paths Hnone).
Qed.

Lemma hit_in_nested_batch_witness :
  download Stub.env [0%nat; 1%nat]
    (Stub.init (PDict [("r", Stub.record "2023-01-01 00:00:00" 7)])
       [Stub.single 7; mkResource "b" (Urls ["http://h/y"; "http://h/z"]) 7 false])
  = (Raise TypeError,
     (for_each (fun resource => _download_or_cache Stub.env resource true)
        [0%nat; 1%nat]
        (Stub.init (PDict [("r", Stub.record "2023-01-01 00:00:00" 7)])
           [Stub.single 7;
            mkResource "b" (Urls ["http://h/y"; "http://h/z"]) 7 false])).2).
Proof.
  apply (hit_in_nested_batch Stub.env [0%nat; 1%nat]
           [PNone; PList [PStr "cache/b/b_y"; PStr "cache/b/b_z"]]).
  - by vm_compute.
  - by left.
  - reflexivity.
Defined.

Lemma is_nested_false (lst : list pyval) :
  (forall l, ~ In (PList l) lst) -> is_nested lst = false.
Proof.
  induction lst as [|item lst IH]; [done|]. intros Hno. simpl.
  destruct item; simpl; try (apply IH; intros l Hl; apply (Hno l); by right).
  destruct (Hno l). by left.
Qed.

(** X12: when no resource of the batch gave a list, [download] returns the
    results as they are, one per resource and in the order of the
    arguments: a path for a downloaded single-file resource, [None] for a
    resource served from the cache. *)
Theorem download_returns_scalars (E : Env) (resources : list nat)
    (paths : list pyval) (st st' : state) :
  for_each (fun resource => _download_or_cache E resource true) resources st
    = (Ok paths, st') ->
  (forall l, ~ In (PList l) paths) ->
  download E resources st = (Ok paths, st') /\
  List.length paths = List.length resources.
Proof.
  intros Hrun Hflat. split; [|by apply (for_each_length _ _ _ _ _ Hrun)].
  unfold download. by rewrite bind_run, Hrun, (is_nested_false paths Hflat).
Qed.

Lemma download_returns_scalars_witness :
  download Stub.env [0%nat; 1%nat]
    (Stub.init (PDict [("r", Stub.record "2023-01-01 00:00:00" 7)])
       [Stub.single 7; mkResource "b" (Url "http://h/y") 7 false])
  = (Ok [PNone; PStr "cache/b/y"],
     (for_each (fun resource => _download_or_cache Stub.env resource true)
        [0%nat; 1%nat]
        (Stub.init (PDict [("r", Stub.record "2023-01-01 00:00:00" 7)])
           [Stub.single 7; mkResource "b" (Url "http://h/y") 7 false])).2) /\
  List.length [PNone; PStr "cache/b/y"] = List.length [0%nat; 1%nat].
Proof.
  apply (download_returns_scalars Stub.env [0%nat; 1%nat]
           [PNone; PStr "cache/b/y"]).
  - by vm_compute.
  - intros l [Hl|[Hl|[]]]; discriminate.
Defined.

(** ** Edges of the directory download *)

(** X13: a directory resource whose [url_s] is a list: when the call
    downloads it, [_get_files] asks the list for [startswith] and the
    call raises [AttributeError]; the server is not asked and nothing is
    rewritten or recorded. *)
Theorem directory_with_url_list_raises (E : Env) (a : nat) (cache : bool)
    (r : Resource) (l : list string) (st : state) :
  heap st !! a = Some r ->
  is_dir r = true ->
  url_s r = Urls l ->
  fetched E a cache st ->
  exists st',
    _download_or_cache E a cache st = (Raise AttributeError, st') /\
    trace st' = trace st ++ [downloading (name r)] /\
    heap st' = heap st /\ cache_dict st' = cache_dict st /\
    files st' = files st.
Proof.
  intros Hr Hdir Hu (r' & d & expired & st1 & Hr' & Hd & Hc & Hgo)%fetched_inv.
  assert (r' = r) as -> by congruence.
  destruct (frame_of_check E _ _ _ _ _ Hc) as (Hh & Hcd & _ & _ & Hf & Htr).
  exists (emit (downloading (name r)) st1). split.
  - apply (rec_dir_list E 1 a cache expired r l d st st1); done.
  - simpl. by rewrite Htr.
Qed.

Lemma directory_with_url_list_raises_witness :
  exists st',
    _download_or_cache Stub.env 0%nat true
      (Stub.unseen (mkResource "d" (Urls ["ftp://host/a"]) 0 true))
    = (Raise AttributeError, st') /\
    trace st' = [] ++ [downloading "d"] /\
    heap st' = heap (Stub.unseen (mkResource "d" (Urls ["ftp://host/a"]) 0 true)) /\
    cache_dict st' = PDict [] /\
    files st' = files (Stub.unseen (mkResource "d" (Urls ["ftp://host/a"]) 0 true)).
Proof.
  exact (directory_with_url_list_raises Stub.env 0%nat true
           (mkResource "d" (Urls ["ftp://host/a"]) 0 true) ["ftp://host/a"]
           (Stub.unseen (mkResource "d" (Urls ["ftp://host/a"]) 0 true))
           eq_refl eq_refl eq_refl eq_refl).
Defined.

(** X14: when the FTP session fails, the exception goes to the caller as
    it is; the resource is not rewritten (it is still a directory with
    its base URL), nothing is retrieved and nothing is recorded. *)
Theorem listing_failure_leaves_resource (E : Env) (a : nat) (cache : bool)
    (r : Resource) (u : string) (e : exn) (st : state) :
  heap st !! a = Some r ->
  is_dir r = true ->
  url_s r = Url u ->
  PyStr.startswith u "ftp://" = true ->
  (forall k, ftp_nlst E k (ftp_host u) (ftp_dir u) = Raise e) ->
  fetched E a cache st ->
  exists st',
    _download_or_cache E a cache st = (Raise e, st') /\
    trace st' =
      trace st ++ [downloading (name r); EvFtp (ftp_host u) (ftp_dir u)] /\
    heap st' = heap st /\ cache_dict st' = cache_dict st /\
    files st' = files st.
Proof.
  intros Hr Hdir Hu Hftp Hlist
         (r' & d & expired & st1 & Hr' & Hd & Hc & Hgo)%fetched_inv.
  assert (r' = r) as -> by congruence.
  destruct (frame_of_check E _ _ _ _ _ Hc) as (Hh & Hcd & _ & _ & Hf & Htr).
  unfold _download_or_cache.
  rewrite (rec_dir E _ _ _ _ _ _ _ _ _ Hr Hd Hdir Hu Hftp Hc Hgo), Hlist.
  eexists. split; [reflexivity|]. simpl.
  by rewrite Htr, <- app_assoc.
Qed.

Lemma listing_failure_leaves_resource_witness :
  exists st',
    _download_or_cache Flaky.env 0%nat true
      (Stub.unseen (Stub.directory "ftp://down/pub"))
    = (Raise (ExternalError "ConnectionRefusedError"), st') /\
    trace st' = [] ++ [downloading "d"; EvFtp "down" "pub"] /\
    heap st' = heap (Stub.unseen (Stub.directory "ftp://down/pub")) /\
    cache_dict st' = PDict [] /\
    files st' = files (Stub.unseen (Stub.directory "ftp://down/pub")).
Proof.
  exact (listing_failure_leaves_resource Flaky.env 0%nat true
           (Stub.directory "ftp://down/pub") "ftp://down/pub"
           (ExternalError "ConnectionRefusedError")
           (Stub.unseen (Stub.directory "ftp://down/pub"))
           eq_refl eq_refl eq_refl eq_refl (fun _ => eq_refl) eq_refl).
Defined.

(** X15: when pooch fails in the download of a directory resource, the
    exception goes to the caller and no record is written, but the object
    of the caller stays rewritten: it is no longer a directory and holds
    the list of per-file URLs. *)
Theorem directory_partial_failure (E : Env) (a : nat) (cache : bool)
    (r : Resource) (u : string) (names : list string) (e : exn)
    (st st' : state) :
  heap st !! a = Some r ->
  is_dir r = true ->
  url_s r = Url u ->
  PyStr.startswith u "ftp://" = true ->
  (forall k, ftp_nlst E k (ftp_host u) (ftp_dir u) = Ok names) ->
  clock_monotone E ->
  fetched E a cache st ->
  _download_or_cache E a cache st = (Raise e, st') ->
  heap st' =
    <[a := mkResource (name r)
             (Urls (List.map (fun file => u +:+ "/" +:+ file) names))
             (lifetime r) false]> (heap st) /\
  cache_dict st' = cache_dict st /\
  files st' = files st.
Proof.
  intros Hr Hdir Hu Hftp Hlist Hmono Hf Hrun.
  pose proof Hf as (r0 & store & expired & st1 & Hr0 & Hstore & Hc & Hgo)%fetched_inv.
  assert (r0 = r) as -> by congruence. clear Hr0.
  destruct (frame_of_check E _ _ _ _ _ Hc) as (Hheap & Hcd & _).
  assert (Hticks : (ticks st <= ticks st1)%nat).
  { destruct (check_expired_frame E (default (PDict []) (dict_get store (name r))) a st)
      as [Hfr|Hfr]; rewrite Hc in Hfr; simpl in Hfr; subst st1; simpl; lia. }
  destruct (expanded_fields r names) as (Hname & Hlife & _).
  assert (Hin : fetched E a cache
                  (set_heap (<[a := expanded r names]> (heap st))
                     (advance 1 [EvFtp (ftp_host u) (ftp_dir u)]
                        (emit (downloading (name r)) st1)))).
  { apply (fetched_later E a cache r (expanded r names) st); try done.
    - apply lookup_insert_eq.
    - simpl. lia. }
  destruct (dir_run E 0 a cache expired r u store names st st1
              Hr Hdir Hu Hftp Hstore Hc Hgo (Hlist _) Hin _ _ Hrun)
    as (Hh' & _ & _ & k & tail & _ & _ & Hcd' & Hfiles & _).
  rewrite Hh'. unfold expanded. by rewrite Hu.
Qed.

Lemma directory_partial_failure_witness :
  heap (_download_or_cache Flaky.env 0%nat true
          (Stub.unseen (Stub.directory "ftp://host/pub/dir"))).2 =
    <[0%nat := mkResource "d"
             (Urls (List.map (fun file => "ftp://host/pub/dir" +:+ "/" +:+ file)
                      ["a.txt"; "b.gz"]))
             0 false]> (heap (Stub.unseen (Stub.directory "ftp://host/pub/dir"))) /\
  cache_dict (_download_or_cache Flaky.env 0%nat true
                (Stub.unseen (Stub.directory "ftp://host/pub/dir"))).2 = PDict [] /\
  files (_download_or_cache Flaky.env 0%nat true
           (Stub.unseen (Stub.directory "ftp://host/pub/dir"))).2 =
    files (Stub.unseen (Stub.directory "ftp://host/pub/dir")).
Proof.
  apply (directory_partial_failure Flaky.env 0%nat true
           (Stub.directory "ftp://host/pub/dir") "ftp://host/pub/dir"
           ["a.txt"; "b.gz"] (ExternalError "HTTPError")
           (Stub.unseen (Stub.directory "ftp://host/pub/dir"))).
  - reflexivity.
  - reflexivity.
  - reflexivity.
  - reflexivity.
  - intros k. reflexivity.
  - intros i j Hij. unfold Flaky.env, clock, Stub.clock. lia.
  - reflexivity.
  - by vm_compute.
Defined.

(** X16: a directory that lists nothing.  The resource becomes a list
    resource without URLs, pooch is not called, the call returns the empty
    list and still records the download, with the empty list as URL
    value. *)
Theorem empty_listing (E : Env) (a : nat) (cache : bool) (r : Resource)
    (u : string) (st : state) :
  heap st !! a = Some r ->
  is_dir r = true ->
  url_s r = Url u ->
  PyStr.startswith u "ftp://" = true ->
  (forall k, ftp_nlst E k (ftp_host u) (ftp_dir u) = Ok []) ->
  clock_monotone E ->
  fetched E a cache st ->
  exists st' store',
    _download_or_cache E a cache st = (Ok (PList []), st') /\
    heap st' = <[a := mkResource (name r) (Urls []) (lifetime r) false]> (heap st) /\
    cache_dict st' = PDict store' /\
    dict_get store' (name r) =
      Some (PDict [("url", PList []);
                   ("date_downloaded", PDatetime (clock E (ticks st' - 1)));
                   ("lifetime", PInt (lifetime r))]) /\
    exists tail,
      trace st' =
        trace st ++
          [downloading (name r); EvFtp (ftp_host u) (ftp_dir u);
           downloading (name r)] ++ tail /\
      Forall is_write tail.
Proof.
  intros Hr Hdir Hu Hftp Hlist Hmono Hf.
  pose proof Hf as (r0 & store & expired & st1 & Hr0 & Hstore & Hc & Hgo)%fetched_inv.
  assert (r0 = r) as -> by congruence. clear Hr0.
  destruct (frame_of_check E _ _ _ _ _ Hc) as (Hheap & Hcd & _).
  assert (Hticks : (ticks st <= ticks st1)%nat).
  { destruct (check_expired_frame E (default (PDict []) (dict_get store (name r))) a st)
      as [Hfr|Hfr]; rewrite Hc in Hfr; simpl in Hfr; subst st1; simpl; lia. }
  destruct (expanded_fields r []) as (Hname & Hlife & Hdir').
  assert (Hexp : expanded r [] = mkResource (name r) (Urls []) (lifetime r) false)
    by (unfold expanded; by rewrite Hu).
  set (st2 := set_heap (<[a := expanded r []]> (heap st))
                (advance 1 [EvFtp (ftp_host u) (ftp_dir u)]
                   (emit (downloading (name r)) st1))).
  assert (Hr2 : heap st2 !! a = Some (expanded r [])) by apply lookup_insert_eq.
  assert (Hd2 : cache_dict st2 = PDict store) by (subst st2; simpl; congruence).
  assert (Hin : fetched E a cache st2).
  { apply (fetched_later E a cache r (expanded r []) st); try done.
    subst st2. simpl. lia. }
  destruct (_download_or_cache E a cache st) as [res st'] eqn:Hrun.
  destruct (dir_run E 0 a cache expired r u store [] st st1
              Hr Hdir Hu Hftp Hstore Hc Hgo (Hlist _) Hin res st' Hrun)
    as (Hh' & _ & _ & k & tail & Hk & Htr & Hres).
  (* the value: the second frame returns the empty list *)
  assert (Hval : res = Ok (PList [])).
  { unfold _download_or_cache in Hrun.
    rewrite (rec_dir E _ _ _ _ _ _ _ _ _ Hr Hstore Hdir Hu Hftp Hc Hgo), (Hlist _)
      in Hrun. fold st2 in Hrun.
    pose proof Hin as (r1 & d1 & exp1 & st3 & Hr1 & Hd1 & Hc1 & Hgo1)%fetched_inv.
    assert (r1 = expanded r []) as -> by congruence.
    rewrite (rec_leaf E _ _ _ _ _ _ _ _ Hr2 Hd1 Hdir' Hc1 Hgo1) in Hrun.
    assert (Hfetch : forall s, fetch_urls E (expanded r []) s = (Ok (PList []), s))
      by (intros s; unfold fetch_urls; by rewrite Hexp).
    rewrite Hfetch in Hrun.
    destruct (frame_of_check E _ _ _ _ _ Hc1) as (Hh3 & Hcd3 & _).
    set (s3 := emit (downloading (name (expanded r []))) st3) in Hrun.
    assert (Hd3 : cache_dict s3 = PDict d1) by (subst s3; simpl; congruence).
    destruct (recorded_proj E (expanded r []) d1 s3 Hd3)
      as (Hh4 & _ & _ & _ & Hcd4 & _).
    assert (Hr4 : heap (recorded E (expanded r []) s3) !! a = Some (expanded r []))
      by (rewrite Hh4; subst s3; simpl; by rewrite Hh3).
    rewrite (_update_cache_record_run E _ _ _ _ Hr4 Hcd4) in Hrun.
    by injection Hrun as <- _. }
  subst res. destruct Hres as (_ & Hti & Hcd' & _ & text & ->).
  assert (k = 0%nat) as -> by (simpl in Hk; lia).
  simpl in Htr.
  exists st'. eexists. split; [done|]. rewrite Hh', Hexp.
  split; [done|]. split; [exact Hcd'|]. split.
  { rewrite dict_get_set, Hexp. reflexivity. }
  eexists. split; [exact Htr|]. repeat constructor; by eexists _, _.
Qed.

Lemma empty_listing_witness :
  exists st' store',
    _download_or_cache Flaky.env 0%nat true
      (Stub.unseen (Stub.directory "ftp://empty/pub")) = (Ok (PList []), st') /\
    heap st' = <[0%nat := mkResource "d" (Urls []) 0 false]>
                 (heap (Stub.unseen (Stub.directory "ftp://empty/pub"))) /\
    cache_dict st' = PDict store' /\
    dict_get store' "d" =
      Some (PDict [("url", PList []);
                   ("date_downloaded", PDatetime (Stub.clock (ticks st' - 1)));
                   ("lifetime", PInt 0)]) /\
    exists tail,
      trace st' =
        [] ++ [downloading "d"; EvFtp "empty" "pub"; downloading "d"] ++ tail /\
      Forall is_write tail.
Proof.
  apply (empty_listing Flaky.env 0%nat true (Stub.directory "ftp://empty/pub")
           "ftp://empty/pub" (Stub.unseen (Stub.directory "ftp://empty/pub"))).
  - reflexivity.
  - reflexivity.
  - reflexivity.
  - reflexivity.
  - intros k. reflexivity.
  - intros i j Hij. unfold Flaky.env, clock, Stub.clock. lia.
  - reflexivity.
Defined.

(** ** Edges of the URL handling *)

Lemma drop_all (s : string) : PyStr.drop (String.length s) s = "".
Proof. induction s; [done | simpl; done]. Qed.

(** X17: an FTP URL without a path, [ftp://host]: [find] returns -1 and
    the slice [url[:-1]] drops the last character of the host name; the
    FTP session goes to that shortened name and to the empty
    directory. *)
Theorem ftp_url_without_path (E : Env) (a : nat) (r : Resource)
    (h : string) (c : ascii) (st : state) :
  heap st !! a = Some r ->
  url_s r = Url ("ftp://" +:+ h +:+ String c "") ->
  PyStr.find (h +:+ String c "") "/" = -1 ->
  _get_files E a st =
    (ftp_nlst E (ticks st) h "", advance 1 [EvFtp h ""] st).
Proof.
  intros Hr Hu Hnone.
  set (u := "ftp://" +:+ h +:+ String c "") in *.
  assert (Hftp : PyStr.startswith u "ftp://" = true).
  { unfold PyStr.startswith. apply prefix_app. by eexists. }
  assert (H6 : PyStr.slice_from u 6 = h +:+ String c "")
    by (subst u; apply (slice_from_app "ftp://")).
  assert (Hh : ftp_host u = h).
  { unfold ftp_host. rewrite H6, Hnone. unfold PyStr.slice_to, PyStr.bound.
    rewrite str_length_app. simpl String.length. simpl (-1 <? 0).
    replace (Z.to_nat (Z.max 0 (Z.of_nat (String.length h + 1) + -1)))
      with (String.length h) by lia.
    apply take_app_length. }
  assert (Hd : ftp_dir u = "").
  { unfold ftp_dir. rewrite Hh. unfold PyStr.slice_from, PyStr.bound.
    assert (Hlen : String.length u = (7 + String.length h)%nat).
    { subst u. rewrite !str_length_app. simpl. lia. }
    rewrite Hlen.
    destruct (Z.ltb_spec (7 + Z.of_nat (String.length h)) 0); [lia|].
    replace (Nat.min (Z.to_nat (7 + Z.of_nat (String.length h)))
               (7 + String.length h)) with (String.length u) by lia.
    apply drop_all. }
  by rewrite (_get_files_ftp E a r u st Hr Hu Hftp), Hh, Hd.
Qed.

Lemma ftp_url_without_path_witness :
  _get_files Stub.env 0%nat (Stub.unseen (Stub.directory "ftp://host")) =
    (ftp_nlst Stub.env 0 "hos" "",
     advance 1 [EvFtp "hos" ""] (Stub.unseen (Stub.directory "ftp://host"))).
Proof.
  apply (ftp_url_without_path Stub.env 0%nat (Stub.directory "ftp://host")
           "hos" "t"%char (Stub.unseen (Stub.directory "ftp://host"))).
  - reflexivity.
  - reflexivity.
  - reflexivity.
Defined.

(** X18: the local file name of a URL is what follows its last slash: the
    file name for [base/file], the empty name for a URL that ends in a
    slash, and the whole URL when it has no slash at all. *)
Theorem basename_cases :
  (forall base file : string,
     PyStr.find file "/" = -1 -> basename (base +:+ "/" +:+ file) = file) /\
  (forall base : string, basename (base +:+ "/") = "") /\
  (forall url : string, PyStr.find url "/" = -1 -> basename url = url).
Proof.
  split; [|split].
  - apply basename_join.
  - intros base. by apply (basename_join base "").
  - intros url Hnone. unfold basename, PyStr.rfind.
    by rewrite (rfind_from_absent 0 0 url "/" Hnone).
Qed.

Lemma basename_cases_witness :
  basename ("http://h/dir" +:+ "/" +:+ "x.txt") = "x.txt" /\
  basename "x.txt" = "x.txt".
Proof.
  destruct basename_cases as (Hjoin & _ & Hnone).
  split; [by apply Hjoin | by apply Hnone].
Defined.

(** ** Edges of the record handling *)

(** X19: when pooch fails for a resource that is not a directory, the
    exception goes to the caller before the record is touched: the store,
    the cache file and the object are as they were, and the URLs before
    the failing one were retrieved, in order. *)
Theorem failed_retrieval_records_nothing (E : Env) (a : nat) (cache : bool)
    (r : Resource) (store : list (string * pyval)) (e : exn) (st st' : state) :
  heap st !! a = Some r ->
  is_dir r = false ->
  cache_dict st = PDict store ->
  fetched E a cache st ->
  _download_or_cache E a cache st = (Raise e, st') ->
  cache_dict st' = PDict store /\
  files st' = files st /\
  heap st' = heap st /\
  exists k : nat,
    (k <= List.length (urls_list (url_s r)))%nat /\
    trace st' =
      trace st ++ downloading (name r)
        :: List.map (retrieve_event (cache_dir st) r)
             (List.firstn k (urls_list (url_s r))).
Proof.
  intros Hr Hdir Hd Hf Hrun.
  destruct (leaf_raise E 1 a cache r store e st st' Hr Hdir Hd Hf Hrun)
    as (Hh & _ & _ & Hcd & Hfiles & k & Hk & Htr).
  split; [congruence|]. split; [done|]. split; [done|]. by exists k.
Qed.

Lemma failed_retrieval_records_nothing_witness :
  cache_dict (_download_or_cache Flaky.env 1%nat true Flaky.batch).2 = PDict [] /\
  files (_download_or_cache Flaky.env 1%nat true Flaky.batch).2 = files Flaky.batch /\
  heap (_download_or_cache Flaky.env 1%nat true Flaky.batch).2 = heap Flaky.batch /\
  exists k : nat,
    (k <= 1)%nat /\
    trace (_download_or_cache Flaky.env 1%nat true Flaky.batch).2 =
      [] ++ downloading "b"
        :: List.map (retrieve_event "cache"
                       (mkResource "b" (Url "http://h/missing") 7 false))
             (List.firstn k ["http://h/missing"]).
Proof.
  apply (failed_retrieval_records_nothing Flaky.env 1%nat true
           (mkResource "b" (Url "http://h/missing") 7 false) []
           (ExternalError "HTTPError") Flaky.batch).
  - reflexivity.
  - reflexivity.
  - reflexivity.
  - reflexivity.
  - by vm_compute.
Defined.

Lemma dict_set_keys {A} (d : list (string * A)) (k : string) (v old : A) :
  dict_get d k = Some old ->
  List.map fst (dict_set d k v) = List.map fst d.
Proof.
  induction d as [|[k' v'] d IH]; simpl; [done|].
  destruct (String.eqb k' k) eqn:Hk; simpl; [done|].
  intros H. by rewrite IH.
Qed.

(** X20: a new download overwrites the record in place.  When a resource
    that already has a record is downloaded again and the call returns,
    the store has the same names in the same order, the record of the
    resource is the new one, and the records of all other names are the
    ones they were. *)
Theorem redownload_overwrites_record (E : Env) (a : nat) (cache : bool)
    (r : Resource) (store : list (string * pyval)) (old paths : pyval)
    (st st' : state) :
  heap st !! a = Some r ->
  is_dir r = false ->
  cache_dict st = PDict store ->
  dict_get store (name r) = Some old ->
  fetched E a cache st ->
  _download_or_cache E a cache st = (Ok paths, st') ->
  exists store',
    cache_dict st' = PDict store' /\
    List.map fst store' = List.map fst store /\
    dict_get store' (name r) = Some (record_of r (clock E (ticks st' - 1))) /\
    forall k, k <> name r -> dict_get store' k = dict_get store k.
Proof.
  intros Hr Hdir Hd Hold Hf Hrun.
  destruct (leaf_ok E 1 a cache r store paths st st' Hr Hdir Hd Hf Hrun)
    as (_ & _ & _ & _ & Hcd & _).
  eexists. split; [exact Hcd|]. split; [by apply (dict_set_keys _ _ _ old)|].
  split; [apply dict_get_set|].
  intros k Hk. by apply dict_get_set_ne.
Qed.

Lemma redownload_overwrites_record_witness :
  exists store',
    cache_dict (_download_or_cache Stub.env 0%nat true
                  (Stub.cached "2022-12-01 00:00:00" 7)).2 = PDict store' /\
    List.map fst store' = ["r"] /\
    dict_get store' "r" =
      Some (record_of (Stub.single 7)
              (Stub.clock
                 (ticks (_download_or_cache Stub.env 0%nat true
                           (Stub.cached "2022-12-01 00:00:00" 7)).2 - 1))) /\
    forall k, k <> "r" ->
      dict_get store' k
      = dict_get [("r", Stub.record "2022-12-01 00:00:00" 7)] k.
Proof.
  apply (redownload_overwrites_record Stub.env 0%nat true (Stub.single 7)
           [("r", Stub.record "2022-12-01 00:00:00" 7)]
           (Stub.record "2022-12-01 00:00:00" 7) (PStr "cache/r/x.txt")
           (Stub.cached "2022-12-01 00:00:00" 7)).
  - reflexivity.
  - reflexivity.
  - reflexivity.
  - reflexivity.
  - reflexivity.
  - by vm_compute.
Defined.

(** X21: a damaged record stops the call.  For a resource whose record is
    not empty, the call raises before it downloads anything and leaves the
    state as it is: [AttributeError] when the record is not a [dict],
    [TypeError] when it has no [date_downloaded] (or one that is not a
    [str]), [ValueError] when the timestamp cannot be parsed. *)
Theorem damaged_record_raises (E : Env) (a : nat) (cache : bool)
    (r : Resource) (store : list (string * pyval)) (rec : pyval) (st : state) :
  heap st !! a = Some r ->
  cache_dict st = PDict store ->
  dict_get store (name r) = Some rec ->
  truthy rec = true ->
  ((forall fields, rec <> PDict fields) ->
   _download_or_cache E a cache st = (Raise AttributeError, st)) /\
  (forall fields,
     rec = PDict fields ->
     (dict_get fields "date_downloaded" = None \/
      exists v, dict_get fields "date_downloaded" = Some v /\
                forall s, v <> PStr s) ->
     _download_or_cache E a cache st = (Raise TypeError, st)) /\
  (forall fields s,
     rec = PDict fields ->
     dict_get fields "date_downloaded" = Some (PStr s) ->
     fromisoformat E s = None ->
     _download_or_cache E a cache st = (Raise ValueError, st)).
Proof.
  intros Hr Hd Hrec Htrue.
  assert (Hrun : forall e,
            check_expired E rec a st = (Raise e, st) ->
            _download_or_cache E a cache st = (Raise e, st)).
  { intros e Hc. apply (rec_raise E 1 a cache r store e st st Hr Hd).
    by rewrite Hrec. }
  split; [|split].
  - intros Hnd. apply Hrun. unfold check_expired. rewrite Htrue.
    unfold lift. rewrite bind_run.
    destruct rec; try done. by destruct (Hnd d).
  - intros fields -> Hdate. apply Hrun. unfold check_expired. rewrite Htrue.
    unfold lift, py_get. rewrite bind_run.
    destruct Hdate as [->|(v & -> & Hv)]; simpl default; rewrite bind_run.
    + done.
    + destruct v; try done. by destruct (Hv s).
  - intros fields s -> Hdate Hparse. apply Hrun. unfold check_expired.
    rewrite Htrue. unfold lift, py_get. rewrite bind_run, Hdate.
    simpl default. rewrite bind_run. unfold datetime_fromisoformat.
    by rewrite Hparse.
Qed.

Lemma damaged_record_raises_witness :
  _download_or_cache Stub.env 0%nat true
    (Stub.cached "yesterday" 7) = (Raise ValueError, Stub.cached "yesterday" 7).
Proof.
  apply (proj2 (proj2 (damaged_record_raises Stub.env 0%nat true (Stub.single 7)
                  [("r", Stub.record "yesterday" 7)] (Stub.record "yesterday" 7)
                  (Stub.cached "yesterday" 7) eq_refl eq_refl eq_refl eq_refl))
           (Stub.fields "yesterday" 7) "yesterday").
  - reflexivity.
  - reflexivity.
  - reflexivity.
Defined.

(** X22: [_update_cache_record] and [_get_cache_record] agree: right after
    the update, the lookup for the same resource returns the record just
    written, with the URL value, the reading of the clock and the
    lifetime, whatever the store held before under that name. *)
Theorem update_then_get (E : Env) (a : nat) (r : Resource)
    (store : list (string * pyval)) (st : state) :
  heap st !! a = Some r ->
  cache_dict st = PDict store ->
  exists st',
    _update_cache_record E a st = (Ok tt, st') /\
    _get_cache_record a st' =
      (Ok (PDict [("url", urls_val (url_s r));
                  ("date_downloaded", PDatetime (clock E (ticks st)));
                  ("lifetime", PInt (lifetime r))]), st') /\
    files st' !! cache_file st' = Some (dumped E (cache_dict st')).
Proof.
  intros Hr Hd. exists (recorded E r st).
  split; [by apply (_update_cache_record_run E a r store)|].
  destruct (recorded_proj E r store st Hd) as (Hh & _ & Hcf & _ & Hcd & Hfiles & _).
  split.
  - rewrite (_get_cache_record_run a r _ (recorded E r st)
               ltac:(by rewrite Hh) Hcd).
    by rewrite dict_get_set.
  - by rewrite Hfiles, Hcf, lookup_insert_eq.
Qed.

Lemma update_then_get_witness :
  exists st',
    _update_cache_record Stub.env 0%nat (Stub.unseen (Stub.single 7)) = (Ok tt, st') /\
    _get_cache_record 0%nat st' =
      (Ok (PDict [("url", PStr "http://h/x.txt");
                  ("date_downloaded", PDatetime (Stub.clock 0));
                  ("lifetime", PInt 7)]), st') /\
    files st' !! cache_file st' = Some (dumped Stub.env (cache_dict st')).
Proof.
  exact (update_then_get Stub.env 0%nat (Stub.single 7) []
           (Stub.unseen (Stub.single 7)) eq_refl eq_refl).
Defined.

(** X23: the method re-enters itself at most once: with room for two
    frames or more on the stack the call gives the same result and the
    same state, whatever the resource and the store. *)
Theorem recursion_two_frames (E : Env) (n a : nat) (cache : bool) (st : state) :
  (2 <= n)%nat ->
  _download_or_cache_rec E n a cache st = _download_or_cache E a cache st.
Proof.
  intros Hn. destruct n as [|[|n]]; [lia | lia|].
  apply _download_or_cache_depth.
Qed.

Lemma recursion_two_frames_witness :
  _download_or_cache_rec Stub.env 1000 0%nat true
    (Stub.unseen (Stub.directory "ftp://host/pub/dir"))
  = _download_or_cache Stub.env 0%nat true
      (Stub.unseen (Stub.directory "ftp://host/pub/dir")).
Proof.
  apply (recursion_two_frames Stub.env 1000 0%nat true
           (Stub.unseen (Stub.directory "ftp://host/pub/dir"))).
  lia.
Defined.

(** ** What a download returns *)

(** X24: the download of a list resource returns a list with one entry
    per URL, and asks pooch for every URL in order, under the local name
    [resourceName_] followed by what comes after the last slash of the
    URL, in the directory of the resource inside the cache directory; the
    cache file is written once, after the last retrieval. *)
Theorem list_resource_result (E : Env) (a : nat) (cache : bool) (r : Resource)
    (l : list string) (store : list (string * pyval)) (v : pyval)
    (st st' : state) :
  heap st !! a = Some r ->
  is_dir r = false ->
  url_s r = Urls l ->
  cache_dict st = PDict store ->
  fetched E a cache st ->
  _download_or_cache E a cache st = (Ok v, st') ->
  exists paths,
    v = PList paths /\
    List.length paths = List.length l /\
    trace st' =
      trace st ++ downloading (name r)
        :: List.map (fun url =>
                       EvRetrieve url (name r +:+ "_" +:+ basename url)
                         (os_path_join (cache_dir st) (name r))
                         (processor_of (name r +:+ "_" +:+ basename url))) l
        ++ [EvWrite (cache_file st) (dumped E (cache_dict st'))].
Proof.
  intros Hr Hdir Hu Hd Hf Hrun.
  destruct (leaf_ok E 1 a cache r store v st st' Hr Hdir Hd Hf Hrun)
    as (_ & _ & _ & _ & _ & _ & Htr).
  pose proof Hf as (r0 & d & expired & st1 & Hr0 & Hd0 & Hc & Hgo)%fetched_inv.
  assert (r0 = r) as -> by congruence.
  assert (d = store) as -> by congruence. clear Hr0 Hd0.
  unfold _download_or_cache in Hrun.
  rewrite (rec_leaf E _ _ _ _ _ _ _ _ Hr Hd Hdir Hc Hgo) in Hrun.
  unfold fetch_urls in Hrun. rewrite bind_run in Hrun. unfold get_state in Hrun.
  rewrite Hu, bind_run in Hrun.
  match type of Hrun with context [for_each ?f l ?s] =>
    destruct (for_each_retrieve_run E
                (fun url => name r +:+ "_" +:+ basename url)
                (os_path_join (cache_dir s) (name r)) l s)
      as (k & _ & _ & Hlen);
    destruct (for_each f l s) as [[paths|e] st2] eqn:Hloop; [|done]
  end.
  injection Hrun as <- _. exists paths. split; [done|].
  split; [by destruct (Hlen paths eq_refl)|].
  rewrite Htr. unfold retrieve_event, local_name. by rewrite Hu.
Qed.

Lemma list_resource_result_witness :
  exists paths,
    PList [PStr "cache/b/b_y"; PStr "cache/b/b_z"] = PList paths /\
    List.length paths = List.length ["http://h/y"; "http://h/z"] /\
    trace (_download_or_cache Stub.env 1%nat true Stub.mixed).2 =
      [] ++ downloading "b"
        :: List.map (fun url =>
                       EvRetrieve url ("b" +:+ "_" +:+ basename url)
                         (os_path_join "cache" "b")
                         (processor_of ("b" +:+ "_" +:+ basename url)))
             ["http://h/y"; "http://h/z"]
        ++ [EvWrite "cache/cache.json"
              (dumped Stub.env
                 (cache_dict (_download_or_cache Stub.env 1%nat true Stub.mixed).2))].
Proof.
  apply (list_resource_result Stub.env 1%nat true
           (mkResource "b" (Urls ["http://h/y"; "http://h/z"]) 7 false)
           ["http://h/y"; "http://h/z"] []
           (PList [PStr "cache/b/b_y"; PStr "cache/b/b_z"]) Stub.mixed).
  - reflexivity.
  - reflexivity.
  - reflexivity.
  - reflexivity.
  - reflexivity.
  - by vm_compute.
Defined.

(** X25: the download of a single-URL resource makes one call to pooch,
    for the URL under the name that follows its last slash, and returns
    what pooch returned as it is: a path, or the list of the unpacked
    files when the name ends in [.zip] or [.tar.gz]. *)
Theorem single_resource_result (E : Env) (a : nat) (cache : bool) (r : Resource)
    (u : string) (store : list (string * pyval)) (v : pyval) (st st' : state) :
  heap st !! a = Some r ->
  is_dir r = false ->
  url_s r = Url u ->
  cache_dict st = PDict store ->
  fetched E a cache st ->
  _download_or_cache E a cache st = (Ok v, st') ->
  (exists k : nat,
     pooch_retrieve E k u None (basename u)
       (os_path_join (cache_dir st) (name r)) (processor_of (basename u)) = Ok v) /\
  trace st' =
    trace st ++
      [downloading (name r);
       EvRetrieve u (basename u) (os_path_join (cache_dir st) (name r))
         (processor_of (basename u));
       EvWrite (cache_file st) (dumped E (cache_dict st'))].
Proof.
  intros Hr Hdir Hu Hd Hf Hrun.
  destruct (leaf_ok E 1 a cache r store v st st' Hr Hdir Hd Hf Hrun)
    as (_ & _ & _ & _ & _ & _ & Htr).
  pose proof Hf as (r0 & d & expired & st1 & Hr0 & Hd0 & Hc & Hgo)%fetched_inv.
  assert (r0 = r) as -> by congruence.
  assert (d = store) as -> by congruence. clear Hr0 Hd0.
  destruct (frame_of_check E _ _ _ _ _ Hc) as (_ & _ & Hcdir & _).
  unfold _download_or_cache in Hrun.
  rewrite (rec_leaf E _ _ _ _ _ _ _ _ Hr Hd Hdir Hc Hgo) in Hrun.
  unfold fetch_urls in Hrun. rewrite bind_run in Hrun. unfold get_state in Hrun.
  rewrite Hu, _retrieve_run in Hrun.
  cbn [emit cache_dir ticks] in Hrun. rewrite Hcdir in Hrun.
  split.
  - exists (ticks st1).
    destruct (pooch_retrieve E (ticks st1) u None (basename u) _ _) as [v'|e];
      [|done].
    by injection Hrun as <- _.
  - rewrite Htr. unfold retrieve_event, local_name. by rewrite Hu.
Qed.

Lemma single_resource_result_witness :
  (exists k : nat,
     pooch_retrieve Stub.env k "http://h/data.zip" None (basename "http://h/data.zip")
       (os_path_join "cache" "z") (processor_of (basename "http://h/data.zip"))
     = Ok (PList [PStr "cache/z/data.zip.unzip/member"])) /\
  trace (_download_or_cache Stub.env 0%nat true
           (Stub.unseen (mkResource "z" (Url "http://h/data.zip") 7 false))).2 =
    [] ++
      [downloading "z";
       EvRetrieve "http://h/data.zip" (basename "http://h/data.zip")
         (os_path_join "cache" "z") (processor_of (basename "http://h/data.zip"));
       EvWrite "cache/cache.json"
         (dumped Stub.env
            (cache_dict (_download_or_cache Stub.env 0%nat true
                           (Stub.unseen (mkResource "z" (Url "http://h/data.zip")
                                           7 false))).2))].
Proof.
  apply (single_resource_result Stub.env 0%nat true
           (mkResource "z" (Url "http://h/data.zip") 7 false)
           "http://h/data.zip" []
           (PList [PStr "cache/z/data.zip.unzip/member"])
           (Stub.unseen (mkResource "z" (Url "http://h/data.zip") 7 false))).
  - reflexivity.
  - reflexivity.
  - reflexivity.
  - reflexivity.
  - reflexivity.
  - by vm_compute.
Defined.
